(** * Chunked file upload: the receiver (server.go) and the sender (client)

    A shallow embedding of the Go program and the properties of its
    protocol: chunk planning, chunk transport, reassembly, the completion
    ledger and the status codes of the three request handlers. *)

From Stdlib Require Import ZArith List Ascii String Lia Bool.
From Stdlib.Strings Require Import Byte.
From Stdlib Require Import Decimal DecimalString DecimalPos DecimalN DecimalZ.
From Stdlib Require Import SpecFloat.
From stdpp Require Import base option list gmap strings.

#[local] Open Scope Z_scope.

(** ** crypto/sha256

    The digest the program uses on both sides (FIPS 180-4), on bytes held
    as 32-bit words in [Z]. *)
Module SHA256.

Definition w32 (z : Z) : Z := z mod 2 ^ 32.
Definition add32 (a b : Z) : Z := w32 (a + b).
Definition rotr (n x : Z) : Z :=
  Z.lor (Z.shiftr x n) (w32 (Z.shiftl x (32 - n))).
Definition not32 (x : Z) : Z := Z.lxor x (2 ^ 32 - 1).

Definition Ch (x y z : Z) : Z := Z.lxor (Z.land x y) (Z.land (not32 x) z).
Definition Maj (x y z : Z) : Z :=
  Z.lxor (Z.lxor (Z.land x y) (Z.land x z)) (Z.land y z).
Definition bsig0 (x : Z) : Z := Z.lxor (Z.lxor (rotr 2 x) (rotr 13 x)) (rotr 22 x).
Definition bsig1 (x : Z) : Z := Z.lxor (Z.lxor (rotr 6 x) (rotr 11 x)) (rotr 25 x).
Definition ssig0 (x : Z) : Z := Z.lxor (Z.lxor (rotr 7 x) (rotr 18 x)) (Z.shiftr x 3).
Definition ssig1 (x : Z) : Z := Z.lxor (Z.lxor (rotr 17 x) (rotr 19 x)) (Z.shiftr x 10).

(** The constants of the standard: the first 32 bits of the fractional
    parts of the cube roots (K) and of the square roots (H0) of the first
    primes. *)
Definition is_prime (n : Z) : bool :=
  (2 <=? n) && forallb (fun d => negb (n mod Z.of_nat d =? 0)) (seq 2 (Z.to_nat n - 2)).

Definition primes : list Z := List.filter is_prime (map Z.of_nat (seq 2 310)).

(** The integer cube root, one bit after the other from bit [n - 1] down. *)
Fixpoint icbrt (n : nat) (x r : Z) : Z :=
  match n with
  | O => r
  | S n' =>
      let c := r + 2 ^ Z.of_nat n' in
      if c * c * c <=? x then icbrt n' x c else icbrt n' x r
  end.

Definition K : list Z :=
  Eval vm_compute in map (fun p => w32 (icbrt 40 (p * 2 ^ 96) 0)) primes.

(** The eight working variables a..h, also the chaining value. *)
Record state := State { sa : Z; sb : Z; sc : Z; sd : Z; se : Z; sf : Z; sg : Z; sh : Z }.

Definition root_bits (i : nat) : Z := w32 (Z.sqrt (nth i primes 0 * 2 ^ 64)).

Definition H0 : state :=
  Eval vm_compute in
    State (root_bits 0) (root_bits 1) (root_bits 2) (root_bits 3)
          (root_bits 4) (root_bits 5) (root_bits 6) (root_bits 7).

Definition byteZ (b : byte) : Z := Z.of_N (Byte.to_N b).
Definition Zbyte (z : Z) : byte :=
  match Byte.of_N (Z.to_N (z mod 256)) with Some b => b | None => x00 end.

(** Big-endian bytes of a value, [n] of them. *)
Fixpoint be_bytes (n : nat) (z : Z) : list Z :=
  match n with
  | O => []
  | S n' => (Z.shiftr z (8 * Z.of_nat n')) mod 256 :: be_bytes n' z
  end.

(** The message, the bit 1, zero bytes up to 56 modulo 64, and the bit
    length on eight bytes. *)
Definition pad (msg : list Z) : list Z :=
  let len := Z.of_nat (length msg) in
  let zeros := Z.to_nat ((55 - len) mod 64) in
  msg ++ 0x80 :: repeat 0 zeros ++ be_bytes 8 (8 * len).

Fixpoint words (bs : list Z) : list Z :=
  match bs with
  | b0 :: b1 :: b2 :: b3 :: r =>
      (b0 * 2 ^ 24 + b1 * 2 ^ 16 + b2 * 2 ^ 8 + b3) :: words r
  | _ => []
  end.

(** The message schedule, most recent word first: [extend n w] adds [n]
    words to the reversed list [w] of those computed so far. *)
Fixpoint extend (n : nat) (w : list Z) : list Z :=
  match n with
  | O => w
  | S n' =>
      let at_ i := nth i w 0 in
      extend n' (add32 (add32 (ssig1 (at_ 1%nat)) (at_ 6%nat))
                       (add32 (ssig0 (at_ 14%nat)) (at_ 15%nat)) :: w)
  end.

Definition schedule (block : list Z) : list Z :=
  rev (extend 48 (rev (words block))).

Definition round (s : state) (kw : Z * Z) : state :=
  let '(k, w) := kw in
  let t1 := add32 (add32 (add32 (sh s) (bsig1 (se s))) (Ch (se s) (sf s) (sg s)))
                  (add32 k w) in
  let t2 := add32 (bsig0 (sa s)) (Maj (sa s) (sb s) (sc s)) in
  State (add32 t1 t2) (sa s) (sb s) (sc s) (add32 (sd s) t1) (se s) (sf s) (sg s).

Definition compress (h : state) (block : list Z) : state :=
  let s := fold_left round (combine K (schedule block)) h in
  State (add32 (sa h) (sa s)) (add32 (sb h) (sb s)) (add32 (sc h) (sc s))
        (add32 (sd h) (sd s)) (add32 (se h) (se s)) (add32 (sf h) (sf s))
        (add32 (sg h) (sg s)) (add32 (sh h) (sh s)).

(** The padded message is consumed 64 bytes at a time; [n] counts blocks. *)
Fixpoint blocks (n : nat) (bs : list Z) (h : state) : state :=
  match n with
  | O => h
  | S n' => blocks n' (skipn 64 bs) (compress h (firstn 64 bs))
  end.

Definition word_bytes (w : Z) : list byte := map Zbyte (be_bytes 4 w).

Definition digest_bytes (h : state) : list byte :=
  word_bytes (sa h) ++ word_bytes (sb h) ++ word_bytes (sc h) ++ word_bytes (sd h) ++
  word_bytes (se h) ++ word_bytes (sf h) ++ word_bytes (sg h) ++ word_bytes (sh h).

(** sha256.Sum256, and hasher.Sum(nil) after the bytes were written. *)
Definition Sum256 (data : list byte) : list byte :=
  let p := pad (map byteZ data) in
  digest_bytes (blocks (length p / 64) p H0).

End SHA256.

(** ** fmt.Sprintf("%x", bytes): lower-case hexadecimal, two digits a byte *)

Definition hex_digit (n : N) : ascii :=
  match n with
  | 0 => "0" | 1 => "1" | 2 => "2" | 3 => "3" | 4 => "4" | 5 => "5"
  | 6 => "6" | 7 => "7" | 8 => "8" | 9 => "9" | 10 => "a" | 11 => "b"
  | 12 => "c" | 13 => "d" | 14 => "e" | _ => "f"
  end%N%char.

Fixpoint Sprintf_x (bs : list byte) : string :=
  match bs with
  | [] => EmptyString
  | b :: r =>
      String (hex_digit (Byte.to_N b / 16))
        (String (hex_digit (Byte.to_N b mod 16)) (Sprintf_x r))
  end.

Definition bytes_of_string (s : string) : list byte := list_byte_of_string s.


(** ** strconv and strings *)

Definition MaxInt64 : Z := 2 ^ 63 - 1.
Definition MinInt64 : Z := - 2 ^ 63.

(** strconv.FormatInt(z, 10), also the verb %d of fmt.Sprintf. *)
Definition FormatInt (z : Z) : string := NilZero.string_of_int (Z.to_int z).

(** strconv.Atoi on a 64-bit platform: an optional sign, then at least one
    decimal digit and nothing else; a value outside int64 is an error. *)
Definition parse_digits (s : string) : option Z :=
  match NilZero.uint_of_string s with
  | Some d => Some (Z.of_N (N.of_uint d))
  | None => None
  end.

Definition in_int64 (z : Z) : bool := (MinInt64 <=? z) && (z <=? MaxInt64).

Definition Atoi (s : string) : option Z :=
  let signed :=
    match s with
    | String "+" r => parse_digits r
    | String "-" r => option_map Z.opp (parse_digits r)
    | _ => parse_digits s
    end in
  match signed with
  | Some z => if in_int64 z then Some z else None
  | None => None
  end.

(** strings.Split(s, sep) for a separator of one character. *)
Fixpoint Split (s : string) (sep : ascii) : list string :=
  match s with
  | EmptyString => [EmptyString]
  | String a r =>
      if Ascii.eqb a sep then EmptyString :: Split r sep
      else match Split r sep with
           | x :: xs => String a x :: xs
           | [] => [String a EmptyString]
           end
  end.

(** ** float64, math.Ceil and the conversions around them

    IEEE 754 binary64 as the Standard Library specifies it: 53 bits of
    mantissa, round to nearest even. *)

Definition float64 := spec_float.

(** float64(z) for an integer z. *)
Definition float64_of_int (z : Z) : float64 := binary_normalize 53 1024 z 0 false.

Definition float64_div (x y : float64) : float64 := SFdiv 53 1024 x y.

(** math.Ceil: the least integer value not below x; NaN, the infinities
    and the zeros are returned as they are. *)
Definition math_Ceil (x : float64) : float64 :=
  match x with
  | S754_finite s m e =>
      if 0 <=? e then x
      else
        let q := Z.pos m / 2 ^ (- e) in
        let exact := Z.pos m mod 2 ^ (- e) =? 0 in
        if s then binary_normalize 53 1024 (- q) 0 true
        else binary_normalize 53 1024 (if exact then q else q + 1) 0 false
  | _ => x
  end.

(** int(x) for a float64 x: the fraction is dropped; a value that int
    cannot hold (NaN included) converts to the least int, as on amd64. *)
Definition int_of_float64 (x : float64) : Z :=
  match x with
  | S754_zero _ => 0
  | S754_finite s m e =>
      let mag := Z.shiftl (Z.pos m) e in
      let v := if s then - mag else mag in
      if in_int64 v then v else MinInt64
  | _ => MinInt64
  end.

(** ** unicode/utf8 and the strings of encoding/json *)

Definition byte_in (lo hi : N) (a : ascii) : bool :=
  ((lo <=? N_of_ascii a) && (N_of_ascii a <=? hi))%N.

(** The table [first] of unicode/utf8 for a leading byte of 0x80 and above:
    the length of the encoding and the range its second byte must lie in;
    [None] for a byte that starts no encoding. *)
Definition utf8_first (b : N) : option (nat * (N * N)) :=
  (if (0xC2 <=? b) && (b <=? 0xDF) then Some (2%nat, (0x80, 0xBF))
   else if b =? 0xE0 then Some (3%nat, (0xA0, 0xBF))
   else if (0xE1 <=? b) && (b <=? 0xEC) then Some (3%nat, (0x80, 0xBF))
   else if b =? 0xED then Some (3%nat, (0x80, 0x9F))
   else if (0xEE <=? b) && (b <=? 0xEF) then Some (3%nat, (0x80, 0xBF))
   else if b =? 0xF0 then Some (4%nat, (0x90, 0xBF))
   else if (0xF1 <=? b) && (b <=? 0xF3) then Some (4%nat, (0x80, 0xBF))
   else if b =? 0xF4 then Some (4%nat, (0x80, 0x8F))
   else None)%N.

(** The size utf8.DecodeRuneInString returns with a rune it could decode;
    0 stands for its answer (RuneError, 1) to bytes that are no encoding,
    and for the empty string. *)
Definition utf8_size (s : string) : nat :=
  match s with
  | EmptyString => 0
  | String s0 r =>
      if (N_of_ascii s0 <? 0x80)%N then 1
      else
        match utf8_first (N_of_ascii s0), r with
        | Some (sz, (lo, hi)), String s1 r1 =>
            if byte_in lo hi s1 then
              if (sz =? 2)%nat then 2
              else
                match r1 with
                | String s2 r2 =>
                    if byte_in 0x80 0xBF s2 then
                      if (sz =? 3)%nat then 3
                      else
                        match r2 with
                        | String s3 _ => if byte_in 0x80 0xBF s3 then 4 else 0
                        | EmptyString => 0
                        end
                    else 0
                | EmptyString => 0
                end
            else 0
        | _, _ => 0
        end
  end%nat.

(** U+FFFD, the replacement character, in UTF-8. *)
Definition RuneError : string :=
  String (ascii_of_nat 239) (String (ascii_of_nat 191) (String (ascii_of_nat 189) EmptyString)).

(** A string after json.Marshal and json.Decode: Marshal writes each byte
    that starts no valid UTF-8 encoding as the escape of U+FFFD and
    everything else as itself or as an escape of itself; Decode undoes the
    escapes. [skip] counts the bytes left of an encoding already
    accepted. *)
Fixpoint json_coerce_from (skip : nat) (s : string) : string :=
  match s with
  | EmptyString => EmptyString
  | String a r =>
      match skip with
      | S k => String a (json_coerce_from k r)
      | O =>
          match utf8_size s with
          | O => (RuneError ++ json_coerce_from 0 r)%string
          | S k => String a (json_coerce_from k r)
          end
      end
  end.

Definition json_coerce (s : string) : string := json_coerce_from 0 s.

(** Go's error values, which the code only tests against nil. *)
Definition error := string.

(** ** The receiver: server.go *)
Module Server.

Record FileMetadata := {
  ID : string;
  FileName : string;
  FileSize : Z;
  FileHash : string;
  ChunkSize : Z;
  TotalChunks : Z
}.

(** The package-level table [filesMetadata] and the working directory of
    the process, a file name to its bytes. *)
Record ServerState := {
  filesMetadata : gmap string FileMetadata;
  disk : gmap string (list byte)
}.

(** One inbound request: method, URL path, the header Chunk-Hash (empty
    when absent), the raw body, and what json.Decode makes of the body
    ([None] when it reports an error). *)
Record Request := {
  Method : string;
  URLPath : string;
  ChunkHashHeader : string;
  Body : list byte;
  BodyJSON : option FileMetadata
}.

(** What a handler leaves in the ResponseWriter: http.Error(w, msg, code),
    w.WriteHeader(code), or w.Write of a marshalled record (status 200).
    Where the code appends the text of an error value to a message
    (err.Error(), the verb %v), [msg] is the message before that text. *)
Inductive Response :=
  | HttpError (msg : string) (code : Z)
  | WriteHeader (code : Z)
  | WriteJSON (md : FileMetadata).

Definition StatusCode (r : Response) : Z :=
  match r with
  | HttpError _ code => code
  | WriteHeader code => code
  | WriteJSON _ => 200
  end.

Definition StatusOK : Z := 200.
Definition StatusBadRequest : Z := 400.
Definition StatusMethodNotAllowed : Z := 405.
Definition StatusInternalServerError : Z := 500.

(** The file-system calls whose error the code tests. A request runs
    against one [IOFaults]: which os.Create and os.Open calls fail (by file
    name), after how many bytes a write into the named file, or an io.Copy
    out of the named chunk file, stops with an error, and whether Sync and
    the hashing read of a file fail. The errors of Close, Remove and the
    first Seek are dropped by the code and these calls are taken to
    succeed. *)
Record IOFaults := {
  createErr : string -> bool;
  openErr : string -> bool;
  copyErr : string -> option nat;
  syncErr : string -> bool;
  hashErr : string -> bool
}.

Definition no_faults : IOFaults :=
  {| createErr := fun _ => false; openErr := fun _ => false;
     copyErr := fun _ => None; syncErr := fun _ => false;
     hashErr := fun _ => false |}.

Definition generateUniqueID (now : Z) : string := FormatInt now.

Definition minChunkSize : Z := 100 * 1024.
Definition maxChunkSize : Z := 4 * 1024 * 1024.

(** rand.Intn(n) after rand.Seed(time.Now().UnixNano()): some value of
    [0, n), here the one the argument [draw] selects. *)
Definition rand_Intn (draw n : Z) : Z := draw mod n.

Definition calculateChunkSize (draw : Z) (fileSize : Z) : Z :=
  let randomChunkSize := rand_Intn draw (maxChunkSize - minChunkSize + 1) + minChunkSize in
  if fileSize <? randomChunkSize then fileSize else randomChunkSize.

(** The expression of line 67: int(math.Ceil(float64(size) / float64(chunk))). *)
Definition totalChunksOf (fileSize chunkSize : Z) : Z :=
  int_of_float64
    (math_Ceil (float64_div (float64_of_int fileSize) (float64_of_int chunkSize))).

Definition with_plan (md : FileMetadata) (id : string) (cs tc : Z) : FileMetadata :=
  {| ID := id; FileName := FileName md; FileSize := FileSize md;
     FileHash := FileHash md; ChunkSize := cs; TotalChunks := tc |}.

(** [now] is the clock read by generateUniqueID, [draw] the random draw of
    calculateChunkSize. The message of a decoding error is the text of the
    decoder's error, written "invalid JSON" here. json.Marshal of a
    FileMetadata cannot fail. *)
Definition registerFileHandler (now draw : Z) (r : Request) (s : ServerState)
  : Response * ServerState :=
  if negb (String.eqb (Method r) "POST") then
    (HttpError "Only POST method is allowed" StatusMethodNotAllowed, s)
  else
    match BodyJSON r with
    | None => (HttpError "invalid JSON" StatusBadRequest, s)
    | Some decoded =>
        let id := generateUniqueID now in
        let cs := calculateChunkSize draw (FileSize decoded) in
        let tc := totalChunksOf (FileSize decoded) cs in
        let metadata := with_plan decoded id cs tc in
        (WriteJSON metadata,
         {| filesMetadata := <[id := metadata]> (filesMetadata s); disk := disk s |})
    end.

(** fmt.Sprintf("%s_part_%d", fileID, num) *)
Definition chunkFileName (fileID : string) (num : Z) : string :=
  (fileID ++ "_part_" ++ FormatInt num)%string.

Definition set_disk (s : ServerState) (d : gmap string (list byte)) : ServerState :=
  {| filesMetadata := filesMetadata s; disk := d |}.

Definition uploadChunkHandler (io : IOFaults) (r : Request) (s : ServerState)
  : Response * ServerState :=
  if negb (String.eqb (Method r) "POST") then
    (HttpError "Only POST method is allowed" StatusMethodNotAllowed, s)
  else
    match Split (URLPath r) "/" with
    | _ :: _ :: fileID :: chunkNumber :: _ =>
        let chunkHash := ChunkHashHeader r in
        if String.eqb chunkHash "" then
          (HttpError "Chunk hash is missing" StatusBadRequest, s)
        else
          match Atoi chunkNumber with
          | None => (HttpError "Chunk hash number is missing" StatusBadRequest, s)
          | Some num =>
              let name := chunkFileName fileID num in
              if createErr io name then
                (HttpError "Error creating file" StatusInternalServerError, s)
              else
                match copyErr io name with
                | Some k =>
                    (HttpError "Error writing to file" StatusInternalServerError,
                     set_disk s (<[name := take k (Body r)]> (disk s)))
                | None =>
                    let s' := set_disk s (<[name := Body r]> (disk s)) in
                    if negb (String.eqb (Sprintf_x (SHA256.Sum256 (Body r))) chunkHash) then
                      (HttpError "Chunk hash mismatch" StatusBadRequest, s')
                    else (WriteHeader StatusOK, s')
                end
          end
    | _ => (HttpError "Invalid URL" StatusBadRequest, s)
    end.

Definition fileInfoDB : string := "fileInfoDB.json".

(** ioutil.ReadFile: the bytes of the file, or an error when it does not
    exist or cannot be opened. *)
Definition ReadFile (io : IOFaults) (name : string) (d : gmap string (list byte))
  : option (list byte) :=
  if openErr io name then None else d !! name.

(** ioutil.WriteFile: create or truncate, then write. *)
Definition WriteFile (io : IOFaults) (name : string) (data : list byte)
    (d : gmap string (list byte)) : option error * gmap string (list byte) :=
  if createErr io name then (Some "open"%string, d)
  else match copyErr io name with
       | Some k => (Some "write"%string, <[name := take k data]> d)
       | None => (None, <[name := data]> d)
       end.

(** io.Copy(finalFile, chunkFile): the bytes go to the end of the file. *)
Definition append_file (name : string) (data : list byte)
    (d : gmap string (list byte)) : gmap string (list byte) :=
  <[name := default [] (d !! name) ++ data]> d.

(** The loop of lines 176-202, [n] iterations from chunk number [i]. The
    counter stays below the largest int for every chunk count that
    registration stores. *)
Fixpoint foldChunks (io : IOFaults) (fileID finalFileName : string) (n : nat) (i : Z)
    (d : gmap string (list byte)) : option Response * gmap string (list byte) :=
  match n with
  | O => (None, d)
  | S n' =>
      let name := chunkFileName fileID i in
      match d !! name with
      | None =>
          (Some (HttpError "Chunk file does not exist" StatusInternalServerError), d)
      | Some data =>
          if openErr io name then
            (Some (HttpError ("Error opening chunk file " ++ FormatInt i)
                             StatusInternalServerError), d)
          else
            match copyErr io name with
            | Some k =>
                (Some (HttpError "Error writing to final file" StatusInternalServerError),
                 append_file finalFileName (take k data) d)
            | None =>
                foldChunks io fileID finalFileName n' (i + 1)
                           (delete name (append_file finalFileName data d))
            end
      end
  end.

(** calculateFileHash on the file as it stands on disk. *)
Definition calculateFileHash (io : IOFaults) (name : string)
    (d : gmap string (list byte)) : option (list byte) :=
  if hashErr io name then None
  else Some (SHA256.Sum256 (default [] (d !! name))).

(** Lines 162-216 of completeUploadHandler: from os.Create of the
    destination to the digest of the reassembled file. [inr] carries that
    digest to the comparison of line 218. *)
Definition reassemble (io : IOFaults) (fileID : string) (metadata : FileMetadata)
    (d : gmap string (list byte)) : (Response + list byte) * gmap string (list byte) :=
  let finalFileName := ("final_" ++ FileName metadata)%string in
  if createErr io finalFileName then
    (inl (HttpError "Error creating final file" StatusInternalServerError), d)
  else
    let d0 := <[finalFileName := []]> d in
    if negb (String.eqb fileID (ID metadata)) then
      (inl (HttpError "id are not the same" StatusInternalServerError), d0)
    else
      match foldChunks io fileID finalFileName (Z.to_nat (TotalChunks metadata)) 1 d0 with
      | (Some resp, d1) => (inl resp, d1)
      | (None, d1) =>
          if syncErr io finalFileName then
            (inl (HttpError "Error finalizing file" StatusInternalServerError), d1)
          else
            match calculateFileHash io finalFileName d1 with
            | None =>
                (inl (HttpError "Error calculating final file hash"
                                StatusInternalServerError), d1)
            | Some finalHash => (inr finalHash, d1)
            end
      end.

(** An encoding of a ledger for running the model on examples: the records
    as a JSON array, strings written between quotes as they are. *)
Definition dquote : ascii := ascii_of_nat 34.

Definition json_string (s : string) : string := (String dquote s ++ String dquote EmptyString)%string.

Definition json_metadata (md : FileMetadata) : string :=
  (String "{" (String dquote "id") ++ String dquote ":" ++ json_string (ID md)
   ++ String "," (String dquote "fileName") ++ String dquote ":" ++ json_string (FileName md)
   ++ String "," (String dquote "fileSize") ++ String dquote ":" ++ FormatInt (FileSize md)
   ++ String "," (String dquote "fileHash") ++ String dquote ":" ++ json_string (FileHash md)
   ++ String "," (String dquote "chunkSize") ++ String dquote ":" ++ FormatInt (ChunkSize md)
   ++ String "," (String dquote "totalChunks") ++ String dquote ":" ++ FormatInt (TotalChunks md)
   ++ "}")%string.

Fixpoint json_array (l : list FileMetadata) : string :=
  match l with
  | [] => "]"
  | [md] => json_metadata md ++ "]"
  | md :: r => json_metadata md ++ "," ++ json_array r
  end%string.

Definition json_Marshal_plain (l : list FileMetadata) : list byte :=
  bytes_of_string (String "[" (json_array l)).

Section Ledger.

(** json.Marshal of the slice of records the ledger file holds. Its text
    format is left open: everything below holds for any encoding. *)
Variable json_Marshal : list FileMetadata -> list byte.

(** [fileInfos] is declared empty and json.Unmarshal is called on the
    error path only, where [data] is empty and its result is dropped. *)
Definition updateFileInfoDB (io : IOFaults) (metadata : FileMetadata)
    (d : gmap string (list byte)) : option error * gmap string (list byte) :=
  let fileInfos : list FileMetadata := [] in
  match ReadFile io fileInfoDB d with
  | None => (Some "ReadFile"%string, d)
  | Some data =>
      let fileInfos := fileInfos ++ [metadata] in
      let newData := json_Marshal fileInfos in
      WriteFile io fileInfoDB newData d
  end.

Definition completeUploadHandler (io : IOFaults) (r : Request) (s : ServerState)
  : Response * ServerState :=
  match Split (URLPath r) "/" with
  | _ :: _ :: fileID :: _ =>
      match filesMetadata s !! fileID with
      | None => (HttpError "File metadata not found" StatusBadRequest, s)
      | Some metadata =>
          match reassemble io fileID metadata (disk s) with
          | (inl resp, d1) => (resp, set_disk s d1)
          | (inr finalHash, d1) =>
              if negb (String.eqb (Sprintf_x finalHash) (FileHash metadata)) then
                (HttpError "Final file hash mismatch" StatusBadRequest, set_disk s d1)
              else
                match updateFileInfoDB io metadata d1 with
                | (Some err, d2) =>
                    (HttpError "Error updating fileInfoDB" StatusInternalServerError,
                     set_disk s d2)
                | (None, d2) => (WriteHeader StatusOK, set_disk s d2)
                end
          end
      end
  | _ => (HttpError "Invalid URL" StatusBadRequest, s)
  end.

End Ledger.

End Server.

(** ** The sender: the client program *)
Module Client.

Record FileInfo := {
  FileName : string;
  FileSize : Z;
  FileHash : string
}.

Record RegistrationResponse := {
  ID : string;
  ChunkSize : Z;
  TotalChunks : Z
}.

(** The receiver as the sender sees it: its state and the requests issued
    so far, most recent last. *)
Record World := {
  server : Server.ServerState;
  wire : list Server.Request
}.

(** What the run does not decide: the clock and the random draw of the
    receiver at registration, and the file-system faults the receiver
    meets while it serves its n-th request. *)
Record Env := {
  UnixNano : Z;
  draw : Z;
  faults : nat -> Server.IOFaults
}.

(** filepath.Base on a Unix path. *)
Definition filepath_Base (path : string) : string :=
  if String.eqb path "" then "."%string
  else
    match filter (fun x => negb (String.eqb x "")) (Split path "/") with
    | [] => "/"%string
    | x :: xs => List.last xs x
    end.

(** One HTTP exchange: the request goes on the wire and the handler runs
    on the receiver's state. The server address the sender was given is
    the receiver's, and the connection does not fail. *)
Definition roundtrip (handler : Server.Request -> Server.ServerState ->
                                Server.Response * Server.ServerState)
    (req : Server.Request) (w : World) : Server.Response * World :=
  let '(resp, s) := handler req (server w) in
  (resp, {| server := s; wire := wire w ++ [req] |}).

(** json.Marshal of a FileInfo, as json.Decode reads it into a
    FileMetadata: the three fields, the two strings coerced to valid
    UTF-8 on the way, and the other fields at their zero value. *)
Definition registration_body (metadata : FileInfo) : Server.FileMetadata :=
  {| Server.ID := ""; Server.FileName := json_coerce (FileName metadata);
     Server.FileSize := FileSize metadata;
     Server.FileHash := json_coerce (FileHash metadata);
     Server.ChunkSize := 0; Server.TotalChunks := 0 |}.

Definition registerFile (env : Env) (metadata : FileInfo) (w : World)
  : (RegistrationResponse + error) * World :=
  let req := {| Server.Method := "POST"; Server.URLPath := "/register_file";
                Server.ChunkHashHeader := ""; Server.Body := [];
                Server.BodyJSON := Some (registration_body metadata) |} in
  let '(resp, w') :=
    roundtrip (Server.registerFileHandler (UnixNano env) (draw env)) req w in
  match resp with
  | Server.WriteJSON md =>
      (inl {| ID := Server.ID md; ChunkSize := Server.ChunkSize md;
              TotalChunks := Server.TotalChunks md |}, w')
  | _ => (inr "decode"%string, w')
  end.

(** The URL is written with fmt.Sprintf and read back by net/http. The
    path the handler receives is the one written here when [fileID] holds
    none of the characters a URL reads in a special way ('%', '?', '#' and
    the like): this is so for the identities the receiver hands out,
    which are decimal numerals, and the properties of the sender are
    stated for these. *)
Definition sendChunk (env : Env) (fileID : string) (chunkNumber : Z)
    (chunkData : list byte) (chunkHash : string) (w : World) : option error * World :=
  let req := {| Server.Method := "POST";
                Server.URLPath := ("/upload_chunk/" ++ fileID ++ "/" ++ FormatInt chunkNumber)%string;
                Server.ChunkHashHeader := chunkHash; Server.Body := chunkData;
                Server.BodyJSON := None |} in
  let '(resp, w') :=
    roundtrip (Server.uploadChunkHandler (faults env (length (wire w)))) req w in
  if negb (Server.StatusCode resp =? Server.StatusOK) then
    (Some ("server returned non-OK status: " ++ FormatInt (Server.StatusCode resp))%string, w')
  else (None, w').

(** The loop of sendFileChunks on the unread part [rest] of the file.
    file.Read fills the buffer of [chunkSize] bytes unless fewer remain:
    this is so for buffers of the sizes the planner hands out, at most
    maxChunkSize; one read into a buffer of a gigabyte or more returns
    less, and the properties of the loop are stated for the former. *)
Fixpoint sendLoop (env : Env) (fileID : string) (chunkSize : Z) (fuel : nat)
    (rest : list byte) (chunkNumber : Z) (w : World) : option error * World :=
  match fuel with
  | O => (Some "unreachable"%string, w)
  | S fuel' =>
      let chunkData := take (Z.to_nat chunkSize) rest in
      if (length chunkData =? 0)%nat then (None, w)
      else
        let chunkHash := SHA256.Sum256 chunkData in
        match sendChunk env fileID chunkNumber chunkData (Sprintf_x chunkHash) w with
        | (Some err, w') => (Some err, w')
        | (None, w') =>
            sendLoop env fileID chunkSize fuel' (drop (Z.to_nat chunkSize) rest)
                     (chunkNumber + 1) w'
        end
  end.

(** What a call comes to: it returns (an error or nil), or it panics. *)
Inductive outcome :=
  | Returned (err : option error)
  | Panicked.

(** make([]byte, chunkSize) panics on a negative length. Every pass of the
    loop consumes at least one byte, so one pass more than the file has
    bytes is enough. *)
Definition sendFileChunks (env : Env) (file : list byte) (fileID : string)
    (chunkSize : Z) (w : World) : outcome * World :=
  if chunkSize <? 0 then (Panicked, w)
  else
    let '(err, w') := sendLoop env fileID chunkSize (S (length file)) file 1 w in
    (Returned err, w').

Section Ledger.
Variable json_Marshal : list Server.FileMetadata -> list byte.

Definition completeUpload (env : Env) (fileID : string) (w : World) : World :=
  let req := {| Server.Method := "GET";
                Server.URLPath := ("/complete_upload/" ++ fileID)%string;
                Server.ChunkHashHeader := ""; Server.Body := [];
                Server.BodyJSON := None |} in
  snd (roundtrip (Server.completeUploadHandler json_Marshal (faults env (length (wire w))))
                 req w).

(** [args] is os.Args and [local] the files the sender can open. The
    result is the exit status of the process: 1 after os.Exit(1), 2 after
    a panic, 0 when main returns. *)
Definition main (env : Env) (args : list string) (local : gmap string (list byte))
    (w : World) : Z * World :=
  match args with
  | [_; filePath; serverIP; serverPort] =>
      match local !! filePath with
      | None => (1, w)
      | Some file =>
          let size := Z.of_nat (length file) in
          if size =? 0 then (1, w)
          else
            let fileHash := SHA256.Sum256 file in
            let fileMetadata :=
              {| FileName := filepath_Base filePath; FileSize := size;
                 FileHash := Sprintf_x fileHash |} in
            match registerFile env fileMetadata w with
            | (inr err, w1) => (1, w1)
            | (inl regResponse, w1) =>
                match sendFileChunks env file (ID regResponse) (ChunkSize regResponse) w1 with
                | (Panicked, w2) => (2, w2)
                | (Returned (Some err), w2) => (1, w2)
                | (Returned None, w2) => (0, completeUpload env (ID regResponse) w2)
                end
            end
      end
  | _ => (1, w)
  end.

End Ledger.
End Client.

(** * Notions the statements are written in *)

(** ** Printed integers and URL segments *)

Definition is_digit (a : ascii) : bool :=
  let n := nat_of_ascii a in (48 <=? n)%nat && (n <=? 57)%nat.

Fixpoint all_chars (P : ascii -> bool) (s : string) : bool :=
  match s with
  | EmptyString => true
  | String a r => P a && all_chars P r
  end.

(** The characters of a printed integer: digits, after an optional minus. *)
Definition is_decimal_char (a : ascii) : bool := is_digit a || Ascii.eqb a "-".

(** A character that strings.Split on "/" leaves inside a segment. *)
Definition not_slash (a : ascii) : bool := negb (Ascii.eqb a "/").

(** The identities registration hands out. *)
Definition generated (fileID : string) : Prop :=
  exists now, fileID = Server.generateUniqueID now.

(** ** The chunk count *)

(** The quotient the specification asks for: the least count of chunks of
    [chunkSize] bytes that hold [fileSize] bytes. *)
Definition ceil_div (fileSize chunkSize : Z) : Z := (fileSize + chunkSize - 1) / chunkSize.

(** The value a 53- or 54-bit mantissa ends up as after rounding. *)
Definition normalise (m1 e : Z) : spec_float :=
  if m1 <? 2 ^ 53 then S754_finite false (Z.to_pos m1) e
  else S754_finite false (Z.to_pos (2 ^ 52)) (e + 1).

(** ** Requests of the sender and what the receiver does with them *)

(** The registration request the sender issues for a file of given name,
    size and digest. *)
Definition register_request (name : string) (size : Z) (hash : string) : Server.Request :=
  {| Server.Method := "POST"; Server.URLPath := "/register_file";
     Server.ChunkHashHeader := ""; Server.Body := [];
     Server.BodyJSON :=
       Some (Client.registration_body
               {| Client.FileName := name; Client.FileSize := size;
                  Client.FileHash := hash |}) |}.

(** What uploadChunkHandler does once the request has passed the checks of
    its method, path, header and chunk number. *)
Definition store_chunk (io : Server.IOFaults) (name : string) (body : list byte)
    (chunkHash : string) (s : Server.ServerState) : Server.Response * Server.ServerState :=
  if Server.createErr io name then
    (Server.HttpError "Error creating file" Server.StatusInternalServerError, s)
  else
    match Server.copyErr io name with
    | Some k =>
        (Server.HttpError "Error writing to file" Server.StatusInternalServerError,
         Server.set_disk s (<[name := take k body]> (Server.disk s)))
    | None =>
        let s' := Server.set_disk s (<[name := body]> (Server.disk s)) in
        if negb (String.eqb (Sprintf_x (SHA256.Sum256 body)) chunkHash) then
          (Server.HttpError "Chunk hash mismatch" Server.StatusBadRequest, s')
        else (Server.WriteHeader Server.StatusOK, s')
    end.

(** The chunk request the sender builds in sendChunk. *)
Definition chunk_request (fileID : string) (chunkNumber : Z) (chunkData : list byte)
    (chunkHash : string) : Server.Request :=
  {| Server.Method := "POST";
     Server.URLPath := ("/upload_chunk/" ++ fileID ++ "/" ++ FormatInt chunkNumber)%string;
     Server.ChunkHashHeader := chunkHash; Server.Body := chunkData;
     Server.BodyJSON := None |}.

(** Chunk [j] (counted from 0) of [file] cut in pieces of [c] bytes. *)
Definition slice (c j : nat) (file : list byte) : list byte := take c (drop (j * c) file).

(** The bytes stored for chunk [i + j] of [fileID], and the first [n]
    chunks from number [i] one after the other. *)
Definition stored (d : gmap string (list byte)) (fileID : string) (i : Z) (j : nat)
  : list byte :=
  default [] (d !! Server.chunkFileName fileID (i + Z.of_nat j)).

Definition folded (d : gmap string (list byte)) (fileID : string) (i : Z) (n : nat)
  : list byte :=
  concat (map (stored d fileID i) (seq 0 n)).

(** The answer of completeUploadHandler to a chunk file os.Stat does not
    find. *)
Definition missing_chunk : Server.Response :=
  Server.HttpError "Chunk file does not exist" Server.StatusInternalServerError.

(** One pass of the loop of completeUploadHandler: the chunk goes to the
    end of the destination and its file is removed. *)
Definition fold_one (fileID finalFileName : string) (i : Z) (data : list byte)
    (d : gmap string (list byte)) : gmap string (list byte) :=
  delete (Server.chunkFileName fileID i) (Server.append_file finalFileName data d).

(** The name of the destination file: "final_" + metadata.FileName. *)
Definition finalFileName (md : Server.FileMetadata) : string :=
  ("final_" ++ Server.FileName md)%string.

(** The chunk count the loop of completeUploadHandler runs over. *)
Definition chunk_count (md : Server.FileMetadata) : nat := Z.to_nat (Server.TotalChunks md).

(** The request the sender issues in completeUpload. *)
Definition complete_request (fileID : string) : Server.Request :=
  {| Server.Method := "GET"; Server.URLPath := ("/complete_upload/" ++ fileID)%string;
     Server.ChunkHashHeader := ""; Server.Body := []; Server.BodyJSON := None |}.

(** The status classes 5xx and 4xx of HTTP. *)
Definition server_error (code : Z) : Prop := 500 <= code < 600.
Definition client_error (code : Z) : Prop := 400 <= code < 500.

(** ** Sample transfers *)

(** The receiver at start-up in an empty directory. *)
Definition empty_server : Server.ServerState :=
  {| Server.filesMetadata := ∅; Server.disk := ∅ |}.

(** A three-byte file a.txt, registered under the identity 7 and sent as
    one chunk. *)
Definition abc : list byte := bytes_of_string "abc".
Definition abc_hash : string := Sprintf_x (SHA256.Sum256 abc).

Definition abc_metadata : Server.FileMetadata :=
  {| Server.ID := "7"; Server.FileName := "a.txt"; Server.FileSize := 3;
     Server.FileHash := abc_hash; Server.ChunkSize := 3; Server.TotalChunks := 1 |}.

(** The receiver after the registration of a.txt on a given disk. *)
Definition registered_abc (d : gmap string (list byte)) : Server.ServerState :=
  snd (Server.registerFileHandler 7 0 (register_request "a.txt" 3 abc_hash)
         {| Server.filesMetadata := ∅; Server.disk := d |}).

(** ... and after its one chunk was received with the body [body]. *)
Definition uploaded_abc (d : gmap string (list byte)) (body : list byte)
  : Server.ServerState :=
  snd (Server.uploadChunkHandler Server.no_faults (chunk_request "7" 1 body abc_hash)
         (registered_abc d)).

(** A record of an earlier transfer, as a ledger may hold it. *)
Definition earlier_metadata : Server.FileMetadata :=
  {| Server.ID := "5"; Server.FileName := "b.txt"; Server.FileSize := 1;
     Server.FileHash := Sprintf_x (SHA256.Sum256 (bytes_of_string "b"));
     Server.ChunkSize := 1; Server.TotalChunks := 1 |}.

(** The FileInfo that main builds for a file. *)
Definition file_info (name : string) (file : list byte) : Client.FileInfo :=
  {| Client.FileName := name; Client.FileSize := Z.of_nat (length file);
     Client.FileHash := Sprintf_x (SHA256.Sum256 file) |}.

(** The record registration stores for it: the name is the one the
    receiver decodes from the body. *)
Definition planned (env : Client.Env) (name : string) (file : list byte)
  : Server.FileMetadata :=
  let size := Z.of_nat (length file) in
  let cs := Server.calculateChunkSize (Client.draw env) size in
  {| Server.ID := Server.generateUniqueID (Client.UnixNano env);
     Server.FileName := json_coerce name; Server.FileSize := size;
     Server.FileHash := Sprintf_x (SHA256.Sum256 file);
     Server.ChunkSize := cs; Server.TotalChunks := Server.totalChunksOf size cs |}.

(** A file of 2^53 + 1 bytes, the least size float64 does not hold. *)
Definition big_size : Z := 9007199254740993.

(** A run without faults where the clock reads 7 and the receiver draws
    the chunk size 2^20. *)

Definition quiet_env : Client.Env :=
  {| Client.UnixNano := 7; Client.draw := 946176;
     Client.faults := fun _ => Server.no_faults |}.

Definition fresh_world : Client.World :=
  {| Client.server := empty_server; Client.wire := [] |}.

Definition big_file : list byte := replicate (Z.to_nat big_size) "000"%byte.

(** A chunk body whose digest is not the one of [abc]. *)
Definition abd : list byte := bytes_of_string "abd".

(** A working directory that holds only the ledger, with the records [l]. *)
Definition ledger_of (l : list Server.FileMetadata) : gmap string (list byte) :=
  {[ Server.fileInfoDB := Server.json_Marshal_plain l ]}.

(** The invariant of the table [filesMetadata]: every key is an identity
    registration generated, and is the ID of the record under it. *)
Definition table_generated (s : Server.ServerState) : Prop :=
  forall (fileID : string) (md : Server.FileMetadata),
    Server.filesMetadata s !! fileID = Some md ->
    generated fileID /\ Server.ID md = fileID.

(** ** Runs of the receiver and requests of the sender *)

(** The states the receiver gets to from a start in the directory [d0]
    with an empty table, its requests served one after the other. The
    directory holds files and no subdirectory, so that two names never
    denote the same file. *)
Inductive reachable (json_Marshal : list Server.FileMetadata -> list byte)
    (d0 : gmap string (list byte)) : Server.ServerState -> Prop :=
  | reach_start :
      reachable json_Marshal d0 {| Server.filesMetadata := ∅; Server.disk := d0 |}
  | reach_register (now draw : Z) (r : Server.Request) (s : Server.ServerState) :
      reachable json_Marshal d0 s ->
      reachable json_Marshal d0 (snd (Server.registerFileHandler now draw r s))
  | reach_upload (io : Server.IOFaults) (r : Server.Request) (s : Server.ServerState) :
      reachable json_Marshal d0 s ->
      reachable json_Marshal d0 (snd (Server.uploadChunkHandler io r s))
  | reach_complete (io : Server.IOFaults) (r : Server.Request) (s : Server.ServerState) :
      reachable json_Marshal d0 s ->
      reachable json_Marshal d0 (snd (Server.completeUploadHandler json_Marshal io r s)).

(** The first [n] chunk requests for the bytes [rest] cut in pieces of [c]
    bytes and numbered from [k]: each carries its piece and the digest of
    the piece. *)
Definition chunk_requests (fileID : string) (c : nat) (k : Z) (rest : list byte)
    (n : nat) : list Server.Request :=
  map (fun j : nat =>
         chunk_request fileID (k + Z.of_nat j) (slice c j rest)
           (Sprintf_x (SHA256.Sum256 (slice c j rest))))
      (seq 0 n).

(** The error sendChunk returns for a chunk the receiver could not store. *)
Definition refused : error := ("server returned non-OK status: " ++ FormatInt 500)%string.

(** The receiver can create and write the file [name], or cannot. *)
Definition accepts (io : Server.IOFaults) (name : string) : Prop :=
  Server.createErr io name = false /\ Server.copyErr io name = None.

Definition refuses (io : Server.IOFaults) (name : string) : Prop :=
  Server.createErr io name = true \/ is_Some (Server.copyErr io name).

(** A receiver that cannot create a file, and a run in which this happens
    while the receiver serves the request after the first one on the
    wire. *)
Definition create_fails : Server.IOFaults :=
  {| Server.createErr := fun _ => true; Server.openErr := fun _ => false;
     Server.copyErr := fun _ => None; Server.syncErr := fun _ => false;
     Server.hashErr := fun _ => false |}.

Definition faulty_env : Client.Env :=
  {| Client.UnixNano := 7; Client.draw := 946176;
     Client.faults := fun n => if (n =? 1)%nat then create_fails else Server.no_faults |}.

(** The digits of the verb %x, and a digest as the program writes it: 64
    of them. *)
Definition is_lower_hex (a : ascii) : bool :=
  let n := nat_of_ascii a in
  is_digit a || ((97 <=? n)%nat && (n <=? 102)%nat).

Definition digest_text (s : string) : bool :=
  (String.length s =? 64)%nat && all_chars is_lower_hex s.

(** * Properties *)

(** ** Decimal numerals, file names and URL paths *)

Example sha256_empty :
  Sprintf_x (SHA256.Sum256 []) =
  "e3b0c44298fc1c149afbf4c8996fb92427ae41e4649b934ca495991b7852b855"%string.
Proof. vm_compute. reflexivity. Qed.

Example sha256_abc :
  Sprintf_x (SHA256.Sum256 (bytes_of_string "abc")) =
  "ba7816bf8f01cfea414140de5dae2223b00361a396177a9cb410ff61f20015ad"%string.
Proof. vm_compute. reflexivity. Qed.

Example sha256_two_blocks :
  Sprintf_x (SHA256.Sum256 (repeat "a"%byte 64)) =
  "ffe054fe7ae0cb6dc65c3af9b61d5209f439851db43d0ba5997337df154668eb"%string.
Proof. vm_compute. reflexivity. Qed.

Lemma uint_digits (d : uint) : all_chars is_digit (NilEmpty.string_of_uint d) = true.
Proof. induction d; simpl; auto. Qed.

Lemma to_uint_nonnil (p : positive) : Pos.to_uint p <> Nil.
Proof. apply DecimalPos.Unsigned.to_uint_nonnil. Qed.

(** A positive number prints as its digits, the first of them included. *)
Lemma FormatInt_pos (p : positive) :
  FormatInt (Z.pos p) = NilEmpty.string_of_uint (Pos.to_uint p)
  /\ exists a r, FormatInt (Z.pos p) = String a r /\ is_digit a = true
                 /\ all_chars is_digit r = true.
Proof.
  unfold FormatInt. simpl.
  pose proof (to_uint_nonnil p) as Hn. pose proof (uint_digits (Pos.to_uint p)) as Hd.
  destruct (Pos.to_uint p) eqn:E; try congruence; simpl in *;
    (split; [reflexivity | eexists _, _; split; [reflexivity | split; [reflexivity | exact Hd]]]).
Qed.

Lemma FormatInt_neg (p : positive) :
  FormatInt (Z.neg p) = String "-" (NilEmpty.string_of_uint (Pos.to_uint p)).
Proof.
  unfold FormatInt. simpl. pose proof (to_uint_nonnil p) as Hn.
  destruct (Pos.to_uint p); try congruence; reflexivity.
Qed.

Lemma all_chars_impl (P Q : ascii -> bool) (s : string) :
  (forall a, P a = true -> Q a = true) -> all_chars P s = true -> all_chars Q s = true.
Proof.
  intros HPQ. induction s as [|a r IH]; simpl; [done|].
  intros [Ha Hr]%andb_true_iff. rewrite HPQ, IH; auto.
Qed.

Lemma FormatInt_chars (z : Z) : all_chars is_decimal_char (FormatInt z) = true.
Proof.
  destruct z as [|p|p].
  - reflexivity.
  - destruct (FormatInt_pos p) as [-> _].
    eapply all_chars_impl; [|apply uint_digits].
    intros a Ha. unfold is_decimal_char. by rewrite Ha.
  - rewrite FormatInt_neg. simpl.
    eapply all_chars_impl; [|apply uint_digits].
    intros a Ha. unfold is_decimal_char. by rewrite Ha.
Qed.

Lemma FormatInt_head (z : Z) :
  exists a r, FormatInt z = String a r /\ is_decimal_char a = true.
Proof.
  destruct z as [|p|p].
  - by exists "0"%char, EmptyString.
  - destruct (FormatInt_pos p) as [_ (a & r & -> & Ha & _)].
    exists a, r. split; [done|]. unfold is_decimal_char. by rewrite Ha.
  - rewrite FormatInt_neg. by eexists _, _.
Qed.

Lemma FormatInt_inj (a b : Z) : FormatInt a = FormatInt b -> a = b.
Proof.
  unfold FormatInt. intros H.
  assert (Hnn : forall z, Z.to_int z <> Pos Nil /\ Z.to_int z <> Neg Nil).
  { intros [|p|p]; simpl; split; try discriminate;
      intros [= E]; by apply (to_uint_nonnil p). }
  apply DecimalZ.to_int_inj.
  assert (Some (Z.to_int a) = Some (Z.to_int b)) as [= ->]; [|done].
  rewrite <- (NilZero.isi (Z.to_int a)), <- (NilZero.isi (Z.to_int b)), H;
    try apply Hnn. done.
Qed.

Lemma parse_digits_uint (p : positive) :
  parse_digits (NilEmpty.string_of_uint (Pos.to_uint p)) = Some (Z.pos p).
Proof.
  unfold parse_digits, NilZero.uint_of_string.
  pose proof (to_uint_nonnil p) as Hn.
  destruct (NilEmpty.string_of_uint (Pos.to_uint p)) eqn:E.
  - destruct (Pos.to_uint p); simpl in E; congruence.
  - rewrite <- E, NilEmpty.usu. unfold N.of_uint.
    by rewrite DecimalPos.Unsigned.of_to.
Qed.

(** strconv.Atoi reads back what %d printed. *)
Lemma Atoi_FormatInt (z : Z) : in_int64 z = true -> Atoi (FormatInt z) = Some z.
Proof.
  intros Hr. destruct z as [|p|p].
  - reflexivity.
  - destruct (FormatInt_pos p) as [E (a & r & E' & Ha & _)].
    unfold Atoi. rewrite E'.
    assert (a <> "+"%char /\ a <> "-"%char) as [H1 H2].
    { split; intros ->; discriminate. }
    destruct a as [[] [] [] [] [] [] [] []]; try congruence;
      rewrite <- E', E, parse_digits_uint, Hr; reflexivity.
  - rewrite FormatInt_neg. unfold Atoi. rewrite parse_digits_uint. cbn [option_map].
    change (- Z.pos p) with (Z.neg p). by rewrite Hr.
Qed.

Lemma Split_no_sep (s : string) (sep : ascii) :
  all_chars (fun a => negb (Ascii.eqb a sep)) s = true -> Split s sep = [s].
Proof.
  induction s as [|a r IH]; simpl; [done|].
  intros [Ha Hr]%andb_true_iff. apply negb_true_iff in Ha. by rewrite Ha, IH.
Qed.

Lemma Split_app (s1 s2 : string) (sep : ascii) :
  all_chars (fun a => negb (Ascii.eqb a sep)) s1 = true ->
  Split (s1 ++ String sep s2) sep = s1 :: Split s2 sep.
Proof.
  induction s1 as [|a r IH]; simpl.
  - intros _. by rewrite Ascii.eqb_refl.
  - intros [Ha Hr]%andb_true_iff. apply negb_true_iff in Ha. by rewrite Ha, IH.
Qed.

Lemma decimal_not_slash (s : string) :
  all_chars is_decimal_char s = true -> all_chars not_slash s = true.
Proof.
  apply all_chars_impl. intros a.
  destruct a as [[] [] [] [] [] [] [] []]; done.
Qed.

(** The path the sender builds for a chunk splits into the identity and
    the chunk number. *)
Lemma Split_upload_path (fileID num : string) :
  all_chars not_slash fileID = true -> all_chars not_slash num = true ->
  Split ("/upload_chunk/" ++ fileID ++ "/" ++ num) "/"
  = [EmptyString; "upload_chunk"; fileID; num]%string.
Proof.
  intros Hid Hnum.
  change ("/upload_chunk/" ++ fileID ++ "/" ++ num)%string
    with (String "/" ("upload_chunk" ++ String "/" (fileID ++ String "/" num)))%string.
  cbn [Split]. rewrite Ascii.eqb_refl.
  rewrite (Split_app "upload_chunk"); [|done].
  rewrite (Split_app fileID); [|done].
  by rewrite (Split_no_sep num).
Qed.

Lemma Split_complete_path (fileID : string) :
  all_chars not_slash fileID = true ->
  Split ("/complete_upload/" ++ fileID) "/"
  = [EmptyString; "complete_upload"; fileID]%string.
Proof.
  intros Hid.
  change ("/complete_upload/" ++ fileID)%string
    with (String "/" ("complete_upload" ++ String "/" fileID))%string.
  cbn [Split]. rewrite Ascii.eqb_refl.
  rewrite (Split_app "complete_upload"); [|done].
  by rewrite (Split_no_sep fileID).
Qed.

Lemma append_cancel_l (s a b : string) : (s ++ a = s ++ b)%string -> a = b.
Proof. induction s; simpl; [done|]. intros [= H]. auto. Qed.

Lemma chunkFileName_inj (fileID : string) (i j : Z) :
  Server.chunkFileName fileID i = Server.chunkFileName fileID j -> i = j.
Proof.
  unfold Server.chunkFileName. intros H%append_cancel_l%append_cancel_l.
  by apply FormatInt_inj.
Qed.

Lemma generated_head (fileID : string) :
  generated fileID ->
  exists a r, fileID = String a r /\ is_decimal_char a = true.
Proof. intros [now ->]. apply FormatInt_head. Qed.

Lemma generated_not_slash (fileID : string) :
  generated fileID -> all_chars not_slash fileID = true.
Proof. intros [now ->]. apply decimal_not_slash, FormatInt_chars. Qed.

(** A chunk file of a registered upload is neither a destination file nor
    the ledger. *)
Lemma chunk_not_final (fileID : string) (i : Z) (name : string) :
  generated fileID -> Server.chunkFileName fileID i <> ("final_" ++ name)%string.
Proof.
  intros (a & r & -> & Ha)%generated_head. unfold Server.chunkFileName. simpl.
  intros [= -> _]. done.
Qed.

Lemma chunk_not_ledger (fileID : string) (i : Z) :
  generated fileID -> Server.chunkFileName fileID i <> Server.fileInfoDB.
Proof.
  intros (a & r & -> & Ha)%generated_head. unfold Server.chunkFileName. simpl.
  intros [= -> _]. done.
Qed.

Lemma final_not_ledger (name : string) :
  ("final_" ++ name)%string <> Server.fileInfoDB.
Proof. done. Qed.

Lemma in_int64_iff (z : Z) : in_int64 z = true <-> MinInt64 <= z <= MaxInt64.
Proof. unfold in_int64. rewrite andb_true_iff, !Z.leb_le. done. Qed.

(** ** float64: integers below 2^53 convert exactly *)

Lemma digits2_pos_bounds (p : positive) :
  2 ^ (Z.pos (digits2_pos p) - 1) <= Z.pos p < 2 ^ Z.pos (digits2_pos p).
Proof.
  induction p as [p IH|p IH|]; cbn [digits2_pos];
    [rewrite Pos2Z.inj_succ, (Pos2Z.inj_xI p)
    | rewrite Pos2Z.inj_succ, (Pos2Z.inj_xO p)
    | simpl; lia];
    replace (Z.succ (Z.pos (digits2_pos p)) - 1)
      with (Z.succ (Z.pos (digits2_pos p) - 1)) by lia;
    rewrite !Z.pow_succ_r by lia;
    remember (2 ^ (Z.pos (digits2_pos p) - 1)) as a;
    remember (2 ^ Z.pos (digits2_pos p)) as b; lia.
Qed.

Lemma digits2_pos_le (p : positive) (n : Z) :
  0 <= n -> Z.pos p < 2 ^ n -> Z.pos (digits2_pos p) <= n.
Proof.
  intros Hn Hp. destruct (digits2_pos_bounds p) as [Hlo _].
  destruct (Z_le_gt_dec (Z.pos (digits2_pos p)) n) as [|Hgt]; [done|].
  assert (2 ^ n <= 2 ^ (Z.pos (digits2_pos p) - 1)) by (apply Z.pow_le_mono_r; lia).
  lia.
Qed.

Lemma iter_xO_spec (p k : positive) :
  digits2_pos (Pos.iter xO p k) = (digits2_pos p + k)%positive
  /\ Z.pos (Pos.iter xO p k) = Z.pos p * 2 ^ Z.pos k.
Proof.
  induction k as [|k [IH1 IH2]] using Pos.peano_ind.
  - simpl. split; [lia|]. lia.
  - rewrite Pos.iter_succ. cbn [digits2_pos]. rewrite IH1. split; [lia|].
    rewrite Pos2Z.inj_xO, IH2, Pos2Z.inj_succ, Z.pow_succ_r by lia. lia.
Qed.

(** The float64 of a positive integer below 2^53: a mantissa of exactly
    53 bits and the exponent that makes up for the shift. *)
Lemma float64_of_int_exact (p : positive) :
  Z.pos p < 2 ^ 53 ->
  exists m e,
    float64_of_int (Z.pos p) = S754_finite false m e
    /\ Z.pos (digits2_pos m) = 53 /\ -52 <= e <= 0
    /\ Z.pos m = Z.pos p * 2 ^ (- e).
Proof.
  intros Hp.
  pose proof (digits2_pos_le p 53 ltac:(lia) Hp) as Hd.
  unfold float64_of_int, binary_normalize, binary_round.
  set (d := Z.pos (digits2_pos p)) in *.
  assert (Hfexp : fexp 53 1024 (d + 0) = d - 53).
  { unfold fexp, emin. lia. }
  rewrite Hfexp. unfold shl_align.
  assert (Haux : forall m e, Z.pos (digits2_pos m) = 53 -> -52 <= e <= 0 ->
            binary_round_aux 53 1024 false (Z.pos m) e loc_Exact = S754_finite false m e).
  { intros m e Hm He. unfold binary_round_aux, shr_fexp. cbn [Zdigits2].
    rewrite Hm.
    assert (fexp 53 1024 (53 + e) - e = 0) as -> by (unfold fexp, emin; lia).
    cbn [shr shr_record_of_loc shr_m loc_of_shr_record round_nearest_even Zdigits2].
    rewrite Hm.
    assert (fexp 53 1024 (53 + e) - e = 0) as -> by (unfold fexp, emin; lia).
    cbn [shr shr_record_of_loc shr_m].
    destruct (Z.leb_spec e (1024 - 53)); [done|lia]. }
  destruct (d - 53 - 0) as [|k|k] eqn:Ek; try lia.
  - exists p, 0. split; [apply Haux; lia|]. split; [lia|]. split; [lia|].
    simpl. lia.
  - destruct (iter_xO_spec p k) as [H1 H2].
    exists (Pos.iter xO p k), (d - 53).
    split; [apply Haux; [rewrite H1; lia | lia]|].
    split; [rewrite H1; lia|]. split; [lia|].
    rewrite H2. f_equal. f_equal. lia.
Qed.

(** A finite float64 divided by itself is 1. *)
Lemma float64_div_self (s : bool) (m : positive) (e : Z) :
  float64_div (S754_finite s m e) (S754_finite s m e)
  = S754_finite false 4503599627370496 (-52).
Proof.
  unfold float64_div, SFdiv, SFdiv_core_binary. cbn [Zdigits2].
  replace (Z.pos (digits2_pos m) + e - (Z.pos (digits2_pos m) + e)) with 0 by lia.
  replace (e - e) with 0 by lia.
  change (Z.min (fexp 53 1024 0) 0) with (-53).
  change (0 - -53) with 53.
  rewrite Z.shiftl_mul_pow2 by lia.
  assert (Hm : Z.pos m <> 0) by done.
  rewrite (Z.mul_comm (Z.pos m)).
  pose proof (Z.div_mul (2 ^ 53) (Z.pos m) Hm) as Hq.
  pose proof (Z.mod_mul (2 ^ 53) (Z.pos m) Hm) as Hr.
  unfold Z.div in Hq. unfold Z.modulo in Hr.
  destruct (Z.div_eucl (2 ^ 53 * Z.pos m) (Z.pos m)) as [q r].
  cbn [fst snd] in Hq, Hr. subst q r.
  assert (new_location (Z.pos m) 0 = loc_Exact) as ->.
  { unfold new_location, new_location_even, new_location_odd.
    destruct (Z.even (Z.pos m)); reflexivity. }
  destruct s; reflexivity.
Qed.

(** The expression of line 67 on a size and itself: one chunk. *)
Lemma totalChunksOf_self (n : Z) : 0 < n < 2 ^ 53 -> Server.totalChunksOf n n = 1.
Proof.
  intros Hn. destruct n as [|p|p]; try lia.
  destruct (float64_of_int_exact p ltac:(lia)) as (m & e & E & _).
  unfold Server.totalChunksOf. rewrite E, float64_div_self. reflexivity.
Qed.

Lemma ceil_div_bounds (size cs : Z) :
  0 < cs -> 0 < size ->
  (ceil_div size cs - 1) * cs < size <= ceil_div size cs * cs.
Proof.
  intros Hcs Hsize. unfold ceil_div.
  pose proof (Z.div_mod (size + cs - 1) cs ltac:(lia)) as Hdm.
  pose proof (Z.mod_pos_bound (size + cs - 1) cs Hcs) as Hb.
  remember ((size + cs - 1) / cs) as q. remember ((size + cs - 1) mod cs) as m.
  nia.
Qed.

(** *** The quotient of two such floats and its ceiling

    The arithmetic of rounding to nearest: [M] is divided by [D] with
    quotient [t >= 2^52] and remainder [R], and [M / D] is the exact
    quotient [a / b] scaled by [P]; then the rounded mantissa [m1] lies in
    the same interval ](k - 1) P, k P] as the scaled quotient. *)
Lemma rounded_quotient_ceiling (a b k M D P t R m1 : Z) :
  0 < b -> 0 < D -> 0 < P ->
  (k - 1) * b < a <= k * b -> a < 2 ^ 53 ->
  M * b = a * P * D ->
  M = t * D + R -> 0 <= R < D ->
  2 ^ 52 <= t ->
  (m1 = t \/ m1 = t + 1) -> (R = 0 -> m1 = t) -> (D < 2 * R -> m1 = t + 1) ->
  (k - 1) * P < m1 <= k * P.
Proof.
  intros Hb HD HP Hk Ha HM Ht HR Ht52 Hm1 Hexact Hup.
  assert (H53 : 2 ^ 53 = 2 * 2 ^ 52) by reflexivity.
  remember (2 ^ 52) as T. remember (2 ^ 53) as T2.
  assert (HRb : 0 <= R * b) by (apply Z.mul_nonneg_nonneg; lia).
  assert (HMb : M * b = t * D * b + R * b) by (rewrite Ht; ring).
  (* t * b <= a * P, hence b < 2 * P *)
  assert (Htb : (t * b) * D <= (a * P) * D) by (rewrite <- HM, HMb; lia).
  assert (Htb' : t * b <= a * P) by (apply Z.mul_le_mono_pos_r in Htb; lia).
  assert (HTb : T * b <= t * b) by (apply Z.mul_le_mono_nonneg_r; lia).
  assert (HaP : a * P < T2 * P) by (apply Z.mul_lt_mono_pos_r; lia).
  assert (H2P : b < 2 * P).
  { apply (Z.mul_lt_mono_pos_l T); [lia|]. lia. }
  (* R * b < D * b *)
  assert (HRD : R * b < D * b) by (apply Z.mul_lt_mono_pos_r; lia).
  split.
  - (* (k - 1) * P < m1 *)
    assert (Hlow : ((k - 1) * P) * (D * b) < (t + 1) * (D * b)).
    { assert (((k - 1) * b) * (P * D) < a * (P * D))
        by (apply Z.mul_lt_mono_pos_r; [apply Z.mul_pos_pos; lia|lia]).
      replace ((t + 1) * (D * b)) with (t * D * b + D * b) by ring.
      replace ((k - 1) * P * (D * b)) with ((k - 1) * b * (P * D)) by ring.
      replace (a * (P * D)) with (M * b) in H by (rewrite HM; ring). lia. }
    apply Z.mul_lt_mono_pos_r in Hlow; [|apply Z.mul_pos_pos; lia].
    destruct (Z.eq_dec t ((k - 1) * P)) as [E|E]; [|lia].
    assert (m1 = t + 1); [|lia].
    apply Hup.
    assert (HRb' : R * b = (a - (k - 1) * b) * (P * D)).
    { replace ((a - (k - 1) * b) * (P * D)) with (a * P * D - ((k - 1) * P) * D * b) by ring.
      rewrite <- HM, HMb, <- E. ring. }
    assert (HPD : 1 * (P * D) <= R * b).
    { rewrite HRb'. apply Z.mul_le_mono_nonneg_r; [|lia].
      apply Z.lt_le_incl, Z.mul_pos_pos; lia. }
    assert (Hb2 : b * D < (2 * P) * D) by (apply Z.mul_lt_mono_pos_r; lia).
    assert (HDb : D * b < (2 * R) * b) by lia.
    apply Z.mul_lt_mono_pos_r in HDb; lia.
  - (* m1 <= k * P *)
    assert (Hup' : (t * b) * D <= (k * P * b) * D).
    { assert (a * (P * D) <= (k * b) * (P * D))
        by (apply Z.mul_le_mono_nonneg_r; [apply Z.lt_le_incl, Z.mul_pos_pos; lia|lia]).
      replace (k * P * b * D) with (k * b * (P * D)) by ring.
      replace (a * (P * D)) with (a * P * D) in H by ring. lia. }
    apply Z.mul_le_mono_pos_r in Hup'; [|lia].
    replace (k * P * b) with ((k * P) * b) in Hup' by ring.
    apply Z.mul_le_mono_pos_r in Hup'; [|lia].
    destruct (Z.eq_dec t (k * P)) as [E|E]; [|lia].
    assert (R = 0); [|rewrite Hexact by done; lia].
    assert (HR0 : R * b <= 0).
    { assert (a * (P * D) <= (k * b) * (P * D))
        by (apply Z.mul_le_mono_nonneg_r; [apply Z.lt_le_incl, Z.mul_pos_pos; lia|lia]).
      replace (a * (P * D)) with (M * b) in H by (rewrite HM; ring).
      rewrite HMb, E in H.
      replace (k * b * (P * D)) with (k * P * D * b) in H by ring. lia. }
    destruct (Z.eq_dec R 0) as [|HRne]; [done|].
    assert (0 < R * b) by (apply Z.mul_pos_pos; lia). lia.
Qed.

Lemma digits_of_range (p : positive) (n : Z) :
  0 < n -> 2 ^ (n - 1) <= Z.pos p < 2 ^ n -> Z.pos (digits2_pos p) = n.
Proof.
  intros Hn [Hlo Hhi].
  destruct (digits2_pos_bounds p) as [Dlo Dhi].
  set (d := Z.pos (digits2_pos p)) in *.
  assert (0 < d) by (unfold d; lia).
  destruct (Z.lt_trichotomy d n) as [Hlt|[Heq|Hgt]]; [|done|].
  - assert (2 ^ d <= 2 ^ (n - 1)) by (apply Z.pow_le_mono_r; lia). lia.
  - assert (2 ^ n <= 2 ^ (d - 1)) by (apply Z.pow_le_mono_r; lia). lia.
Qed.

Lemma shr_record_of_loc_m (m : Z) (l : location) : shr_m (shr_record_of_loc m l) = m.
Proof. by destruct l as [|[]]. Qed.

Lemma loc_of_shr_record_of_loc (m : Z) (l : location) :
  loc_of_shr_record (shr_record_of_loc m l) = l.
Proof. by destruct l as [|[]]. Qed.

Lemma round_finish (m1 e : Z) :
  2 ^ 52 <= m1 <= 2 ^ 53 -> -1000 <= e <= 900 ->
  (let '(mrs'', e'') := shr_fexp 53 1024 m1 e loc_Exact in
   match shr_m mrs'' with
   | 0 => S754_zero false
   | Z.pos m => if e'' <=? 1024 - 53 then S754_finite false m e'' else S754_infinity false
   | Z.neg _ => S754_nan
   end) = normalise m1 e.
Proof.
  intros Hm He. unfold normalise, shr_fexp.
  destruct m1 as [|p|p]; try lia.
  cbn [Zdigits2].
  destruct (Z.ltb_spec (Z.pos p) (2 ^ 53)) as [Hlt|Hge].
  - rewrite (digits_of_range p 53) by lia.
    assert (fexp 53 1024 (53 + e) - e = 0) as -> by (unfold fexp, emin; lia).
    cbn [shr shr_record_of_loc shr_m Z.to_pos].
    destruct (Z.leb_spec e (1024 - 53)); [done|lia].
  - assert (p = 9007199254740992%positive) as -> by lia.
    assert (fexp 53 1024 (Z.pos (digits2_pos 9007199254740992) + e) - e = 1) as ->
      by (unfold fexp, emin; cbn [digits2_pos Pos.succ]; lia).
    cbn [shr iter_pos shr_1 shr_record_of_loc shr_m orb].
    destruct (Z.leb_spec (e + 1) (1024 - 53)); [done|lia].
Qed.

Lemma new_location_exact (D r : Z) :
  0 <= r < D -> (new_location D r = loc_Exact <-> r = 0).
Proof.
  intros Hr. unfold new_location, new_location_even, new_location_odd.
  destruct (Z.even D); destruct (Z.eqb_spec r 0); split; try done.
Qed.

(** Round to nearest even on a quotient [q] with remainder [r] of a
    division by [D]. *)
Lemma round_new_location (q D r : Z) :
  0 <= r < D ->
  let m1 := round_nearest_even q (new_location D r) in
  (m1 = q \/ m1 = q + 1) /\ (r = 0 -> m1 = q) /\ (D < 2 * r -> m1 = q + 1).
Proof.
  intros Hr m1. unfold m1, new_location, new_location_even, new_location_odd.
  destruct (Z.even D); destruct (Z.eqb_spec r 0) as [->|Hne]; cbn [round_nearest_even].
  - split; [by left|]. split; [done|lia].
  - destruct (Z.compare_spec (2 * r) D); cbn [round_nearest_even];
      [destruct (Z.even q)| |]; (split; [auto|split; [lia|lia || done]]).
  - split; [by left|]. split; [done|lia].
  - destruct (Z.compare_spec (2 * r + 1) D); cbn [round_nearest_even];
      (split; [auto|split; [lia|lia || done]]).
Qed.

(** binary_round_aux on the quotient [q] (53 or 54 bits) and remainder [r]
    of a division by [D]: the mantissa [m1] it keeps is the quotient [t]
    of the same dividend by [D'] (which is [D], or [2 * D] when a bit is
    dropped), rounded to nearest. *)
Lemma binary_round_aux_quotient (q r D E : Z) :
  0 <= r < D -> 2 ^ 52 <= q < 2 ^ 54 -> -200 <= E <= 100 ->
  exists t R D' e1 m1 : Z,
    binary_round_aux 53 1024 false q E (new_location D r) = normalise m1 e1
    /\ (e1 = E /\ D' = D \/ e1 = E + 1 /\ D' = 2 * D)
    /\ q * D + r = t * D' + R /\ 0 <= R < D' /\ 2 ^ 52 <= t < 2 ^ 53
    /\ (m1 = t \/ m1 = t + 1) /\ (R = 0 -> m1 = t) /\ (D' < 2 * R -> m1 = t + 1).
Proof.
  intros Hr Hq HE.
  destruct q as [|pq|pq]; try lia.
  destruct (Z_lt_le_dec (Z.pos pq) (2 ^ 53)) as [Hlt|Hge].
  - (* 53 bits: nothing is dropped *)
    destruct (round_new_location (Z.pos pq) D r Hr) as (Hm1 & Hexact & Hup).
    exists (Z.pos pq), r, D, E, (round_nearest_even (Z.pos pq) (new_location D r)).
    split; [|split; [by left|]; split; [done|]; split; [done|]; split; [lia|done]].
    unfold binary_round_aux.
    assert (Hfirst : shr_fexp 53 1024 (Z.pos pq) E (new_location D r)
                     = (shr_record_of_loc (Z.pos pq) (new_location D r), E)).
    { unfold shr_fexp. cbn [Zdigits2]. rewrite (digits_of_range pq 53) by lia.
      assert (fexp 53 1024 (53 + E) - E = 0) as -> by (unfold fexp, emin; lia).
      reflexivity. }
    rewrite Hfirst, shr_record_of_loc_m, loc_of_shr_record_of_loc.
    apply round_finish; lia.
  - (* 54 bits: the last bit is dropped and joins the remainder *)
    assert (Hfirst : shr_fexp 53 1024 (Z.pos pq) E (new_location D r)
                     = (shr_1 (shr_record_of_loc (Z.pos pq) (new_location D r)), E + 1)).
    { unfold shr_fexp. cbn [Zdigits2]. rewrite (digits_of_range pq 54) by lia.
      assert (fexp 53 1024 (54 + E) - E = 1) as -> by (unfold fexp, emin; lia).
      reflexivity. }
    pose proof (new_location_exact D r Hr) as Hloc.
    unfold binary_round_aux. rewrite Hfirst. clear Hfirst.
    destruct pq as [p|p|]; [| |lia].
    + (* odd quotient *)
      assert (Hrec : shr_1 (shr_record_of_loc (Z.pos p~1) (new_location D r))
                     = {| shr_m := Z.pos p; shr_r := true;
                          shr_s := negb (r =? 0) |}).
      { destruct (new_location D r) as [|[]] eqn:El; cbn [shr_record_of_loc shr_1 orb];
          destruct (Z.eqb_spec r 0) as [Hr0|Hr0]; try reflexivity;
          try (apply Hloc in Hr0; congruence); exfalso; apply Hr0, Hloc; reflexivity. }
      rewrite Hrec. cbn [shr_m].
      exists (Z.pos p), (D + r), (2 * D), (E + 1),
        (round_nearest_even (Z.pos p)
           (loc_of_shr_record {| shr_m := Z.pos p; shr_r := true; shr_s := negb (r =? 0) |})).
      assert (Hm1 : round_nearest_even (Z.pos p)
                (loc_of_shr_record {| shr_m := Z.pos p; shr_r := true; shr_s := negb (r =? 0) |})
              = (if r =? 0 then (if Z.even (Z.pos p) then Z.pos p else Z.pos p + 1)
                 else Z.pos p + 1)).
      { by destruct (r =? 0). }
      split; [apply round_finish; [rewrite Hm1; destruct (r =? 0), (Z.even (Z.pos p)); lia|lia]|].
      split; [by right|]. split; [lia|]. split; [lia|]. split; [lia|].
      rewrite Hm1. destruct (Z.eqb_spec r 0) as [Hr0|Hr0].
      * split; [destruct (Z.even (Z.pos p)); auto|]. split; lia.
      * split; [auto|]. split; [lia|done].
    + (* even quotient *)
      assert (Hrec : shr_1 (shr_record_of_loc (Z.pos p~0) (new_location D r))
                     = {| shr_m := Z.pos p; shr_r := false;
                          shr_s := negb (r =? 0) |}).
      { destruct (new_location D r) as [|[]] eqn:El; cbn [shr_record_of_loc shr_1 orb];
          destruct (Z.eqb_spec r 0) as [Hr0|Hr0]; try reflexivity;
          try (apply Hloc in Hr0; congruence); exfalso; apply Hr0, Hloc; reflexivity. }
      rewrite Hrec. cbn [shr_m].
      exists (Z.pos p), r, (2 * D), (E + 1),
        (round_nearest_even (Z.pos p)
           (loc_of_shr_record {| shr_m := Z.pos p; shr_r := false; shr_s := negb (r =? 0) |})).
      assert (Hm1 : round_nearest_even (Z.pos p)
                (loc_of_shr_record {| shr_m := Z.pos p; shr_r := false; shr_s := negb (r =? 0) |})
              = Z.pos p).
      { by destruct (r =? 0). }
      split; [apply round_finish; [rewrite Hm1; lia|lia]|].
      split; [by right|]. split; [lia|]. split; [lia|]. split; [lia|].
      rewrite Hm1. split; [auto|]. split; [done|lia].
Qed.

(** The quotient of two floats with full mantissas, as SFdiv rounds it. *)
Lemma float64_div_quotient (ma mb : positive) (ea eb : Z) :
  Z.pos (digits2_pos ma) = 53 -> Z.pos (digits2_pos mb) = 53 ->
  -52 <= ea <= 0 -> -52 <= eb <= 0 ->
  exists t R D' e1 m1 : Z,
    float64_div (S754_finite false ma ea) (S754_finite false mb eb) = normalise m1 e1
    /\ (e1 = ea - eb - 53 /\ D' = Z.pos mb \/ e1 = ea - eb - 52 /\ D' = 2 * Z.pos mb)
    /\ Z.pos ma * 2 ^ 53 = t * D' + R /\ 0 <= R < D' /\ 2 ^ 52 <= t < 2 ^ 53
    /\ (m1 = t \/ m1 = t + 1) /\ (R = 0 -> m1 = t) /\ (D' < 2 * R -> m1 = t + 1).
Proof.
  intros Hda Hdb Hea Heb.
  destruct (digits2_pos_bounds ma) as [Halo Hahi].
  destruct (digits2_pos_bounds mb) as [Hblo Hbhi].
  rewrite Hda in Halo, Hahi. rewrite Hdb in Hblo, Hbhi.
  change (2 ^ (53 - 1)) with (2 ^ 52) in Halo, Hblo.
  unfold float64_div, SFdiv, SFdiv_core_binary. cbn [Zdigits2 xorb].
  rewrite Hda, Hdb.
  assert (Z.min (fexp 53 1024 (53 + ea - (53 + eb))) (ea - eb) = ea - eb - 53) as ->
    by (unfold fexp, emin; lia).
  replace (ea - eb - (ea - eb - 53)) with 53 by lia.
  rewrite Z.shiftl_mul_pow2 by lia.
  pose proof (Z.div_eucl_eq (Z.pos ma * 2 ^ 53) (Z.pos mb)) as Heq.
  pose proof (Z.mod_pos_bound (Z.pos ma * 2 ^ 53) (Z.pos mb)) as Hbound.
  unfold Z.modulo in Hbound.
  destruct (Z.div_eucl (Z.pos ma * 2 ^ 53) (Z.pos mb)) as [q r].
  specialize (Heq ltac:(done)). specialize (Hbound ltac:(done)).
  assert (Hq : 2 ^ 52 <= q < 2 ^ 54).
  { assert (H106 : 2 ^ 52 * 2 ^ 53 <= Z.pos ma * 2 ^ 53 < 2 ^ 53 * 2 ^ 53) by lia.
    split.
    - destruct (Z_lt_le_dec q (2 ^ 52)) as [Hlt|]; [|done].
      assert (Z.pos mb * q <= Z.pos mb * (2 ^ 52 - 1)) by (apply Z.mul_le_mono_nonneg_l; lia).
      assert (Z.pos mb * (2 ^ 52 - 1) + Z.pos mb <= 2 ^ 53 * 2 ^ 52) by lia.
      lia.
    - destruct (Z_lt_le_dec q (2 ^ 54)) as [|Hge]; [done|].
      assert (Z.pos mb * 2 ^ 54 <= Z.pos mb * q) by (apply Z.mul_le_mono_nonneg_l; lia).
      assert (2 ^ 52 * 2 ^ 54 <= Z.pos mb * 2 ^ 54) by lia.
      lia. }
  destruct (binary_round_aux_quotient q r (Z.pos mb) (ea - eb - 53) Hbound Hq ltac:(lia))
    as (t & R & D' & e1 & m1 & Hres & He1 & Hdiv & HR & Ht & Hm1 & Hexact & Hup).
  exists t, R, D', e1, m1.
  split; [exact Hres|]. split; [lia|]. split; [lia|]. done.
Qed.

(** math.Ceil and int() on a float that lies in ](k - 1), k]. *)
Lemma ceil_of_bounded (m : positive) (e k : Z) :
  e <= 0 -> 0 < k < 2 ^ 53 ->
  (k - 1) * 2 ^ (- e) < Z.pos m <= k * 2 ^ (- e) ->
  int_of_float64 (math_Ceil (S754_finite false m e)) = k.
Proof.
  intros He Hk Hm. unfold math_Ceil.
  assert (Hint : in_int64 k = true) by (apply in_int64_iff; unfold MinInt64, MaxInt64; lia).
  destruct (Z.leb_spec 0 e) as [He0|He0].
  - assert (e = 0) as -> by lia. cbn [Z.opp Z.pow] in Hm.
    unfold int_of_float64. rewrite Z.shiftl_0_r.
    assert (Z.pos m = k) as -> by lia. by rewrite Hint.
  - assert (HP : 0 < 2 ^ (- e)) by (apply Z.pow_pos_nonneg; lia).
    pose proof (Z.div_mod (Z.pos m) (2 ^ (- e)) ltac:(lia)) as Hdm.
    pose proof (Z.mod_pos_bound (Z.pos m) (2 ^ (- e)) HP) as Hmod.
    set (P := 2 ^ (- e)) in *. set (q := Z.pos m / P) in *. set (r := Z.pos m mod P) in *.
    assert (Hc : (if r =? 0 then q else q + 1) = k).
    { destruct (Z.eqb_spec r 0) as [Hr|Hr].
      - assert ((k - 1) * P < q * P <= k * P) by lia.
        assert (k - 1 < q) by (apply (Z.mul_lt_mono_pos_r P); lia).
        assert (q <= k) by (apply (Z.mul_le_mono_pos_r _ _ P); lia). lia.
      - assert ((k - 2) * P < q * P) by lia.
        assert (q * P < k * P) by lia.
        assert (k - 2 < q) by (apply (Z.mul_lt_mono_pos_r P); lia).
        assert (q < k) by (apply (Z.mul_lt_mono_pos_r P); lia). lia. }
    rewrite Hc.
    change (binary_normalize 53 1024 k 0 false) with (float64_of_int k).
    destruct k as [|pk|pk]; try lia.
    destruct (float64_of_int_exact pk ltac:(lia)) as (mk & ek & -> & _ & Hek & Hmk).
    unfold int_of_float64.
    rewrite Z.shiftl_div_pow2 by lia.
    rewrite Hmk, Z.div_mul by (apply Z.pow_nonzero; lia).
    by rewrite Hint.
Qed.

(** Below 2^53 the float64 expression of line 67 is the exact ceiling. *)
Theorem totalChunksOf_exact (a b : Z) :
  0 < a < 2 ^ 53 -> 0 < b < 2 ^ 53 -> Server.totalChunksOf a b = ceil_div a b.
Proof.
  intros Ha Hb.
  destruct a as [|pa|pa]; try lia. destruct b as [|pb|pb]; try lia.
  destruct (float64_of_int_exact pa ltac:(lia)) as (ma & ea & Efa & Hda & Hea & Hma).
  destruct (float64_of_int_exact pb ltac:(lia)) as (mb & eb & Efb & Hdb & Heb & Hmb).
  unfold Server.totalChunksOf. rewrite Efa, Efb.
  destruct (float64_div_quotient ma mb ea eb Hda Hdb Hea Heb)
    as (t & R & D' & e1 & m1 & -> & He1 & Hdiv & HR & Ht & Hm1 & Hexact & Hup).
  pose proof (ceil_div_bounds (Z.pos pa) (Z.pos pb) ltac:(lia) ltac:(lia)) as Hk.
  set (k := ceil_div (Z.pos pa) (Z.pos pb)) in *.
  assert (Hkpos : 0 < k).
  { destruct (Z_lt_le_dec 0 k) as [|Hle]; [done|].
    assert (k * Z.pos pb <= 0 * Z.pos pb) by (apply Z.mul_le_mono_nonneg_r; lia). lia. }
  assert (Hka : k <= Z.pos pa).
  { assert ((k - 1) * 1 <= (k - 1) * Z.pos pb) by (apply Z.mul_le_mono_nonneg_l; lia). lia. }
  assert (He1' : e1 <= 0) by lia.
  assert (HP : 0 < 2 ^ (- e1)) by (apply Z.pow_pos_nonneg; lia).
  assert (HD : 0 < D') by lia.
  (* the dividend of the float division against the integers a and b *)
  assert (Hid : (Z.pos ma * 2 ^ 53) * Z.pos pb = Z.pos pa * 2 ^ (- e1) * D').
  { rewrite Hma.
    assert (Hpow : 2 ^ (- e1) * D' = Z.pos pb * (2 ^ 53 * 2 ^ (- ea))).
    { assert (Hsplit : 2 ^ 53 * 2 ^ (- ea) = 2 ^ (53 + - ea))
        by (rewrite Z.pow_add_r by lia; done).
      rewrite Hsplit.
      destruct He1 as [[-> ->]|[-> ->]]; rewrite Hmb.
      - transitivity (Z.pos pb * (2 ^ (- (ea - eb - 53)) * 2 ^ (- eb))); [ring|].
        rewrite <- Z.pow_add_r by lia. do 2 f_equal. lia.
      - transitivity (Z.pos pb * (2 ^ (- (ea - eb - 52)) * 2 ^ (- eb) * 2 ^ 1)); [ring|].
        rewrite <- !Z.pow_add_r by lia. do 2 f_equal. lia. }
    transitivity (Z.pos pa * (Z.pos pb * (2 ^ 53 * 2 ^ (- ea)))); [ring|].
    rewrite <- Hpow. ring. }
  pose proof (rounded_quotient_ceiling (Z.pos pa) (Z.pos pb) k (Z.pos ma * 2 ^ 53) D'
                (2 ^ (- e1)) t R m1 ltac:(lia) HD HP Hk ltac:(lia) Hid Hdiv HR ltac:(lia)
                Hm1 Hexact Hup) as Hm1k.
  unfold normalise. destruct (Z.ltb_spec m1 (2 ^ 53)) as [Hlt|Hge].
  - apply ceil_of_bounded; [done|lia|].
    rewrite Z2Pos.id by lia. exact Hm1k.
  - assert (m1 = 2 ^ 53) as -> by lia.
    assert (e1 <> 0).
    { intros ->. cbn [Z.opp Z.pow] in Hm1k. lia. }
    apply ceil_of_bounded; [lia|lia|].
    assert (2 ^ (- e1) = 2 * 2 ^ (- (e1 + 1))) as Hpow.
    { replace (- e1) with (Z.succ (- (e1 + 1))) by lia. rewrite Z.pow_succ_r by lia. done. }
    rewrite Hpow in Hm1k.
    change (Z.pos (Z.to_pos (2 ^ 52))) with (2 ^ 52).
    change (2 ^ 53) with (2 * 2 ^ 52) in Hm1k. lia.
Qed.

(** ** The chunk planner *)

Lemma rand_Intn_range (draw n : Z) : 0 < n -> 0 <= Server.rand_Intn draw n < n.
Proof. intros Hn. unfold Server.rand_Intn. by apply Z.mod_pos_bound. Qed.

(** The size drawn lies in [minChunkSize, maxChunkSize]; the planner
    returns it, or the file size when that is smaller. *)
Lemma calculateChunkSize_range (draw fileSize : Z) :
  let randomChunkSize :=
    Server.rand_Intn draw (Server.maxChunkSize - Server.minChunkSize + 1)
    + Server.minChunkSize in
  102400 <= randomChunkSize <= 4194304
  /\ Server.calculateChunkSize draw fileSize
     = if fileSize <? randomChunkSize then fileSize else randomChunkSize.
Proof.
  intros randomChunkSize. split; [|reflexivity].
  pose proof (rand_Intn_range draw (Server.maxChunkSize - Server.minChunkSize + 1)) as H.
  unfold randomChunkSize, Server.maxChunkSize, Server.minChunkSize in *. lia.
Qed.

Lemma calculateChunkSize_bounds (draw fileSize : Z) :
  0 < fileSize ->
  1 <= Server.calculateChunkSize draw fileSize <= fileSize
  /\ Server.calculateChunkSize draw fileSize <= 4194304.
Proof.
  intros Hpos. destruct (calculateChunkSize_range draw fileSize) as [Hr ->].
  destruct (Z.ltb_spec fileSize
              (Server.rand_Intn draw (Server.maxChunkSize - Server.minChunkSize + 1)
               + Server.minChunkSize)); lia.
Qed.

(** C6: for a positive file size the planned chunk size lies between 1 and
    the file size; the size drawn from [minChunkSize, maxChunkSize] is
    replaced by the file size whenever it exceeds it, so a file below
    minChunkSize is planned as one chunk of its own size. *)
Theorem calculateChunkSize_clamped (draw fileSize : Z) :
  0 < fileSize ->
  let randomChunkSize :=
    Server.rand_Intn draw (Server.maxChunkSize - Server.minChunkSize + 1)
    + Server.minChunkSize in
  let chunkSize := Server.calculateChunkSize draw fileSize in
  Server.minChunkSize <= randomChunkSize <= Server.maxChunkSize
  /\ 1 <= chunkSize <= fileSize
  /\ (fileSize < randomChunkSize -> chunkSize = fileSize)
  /\ (fileSize < Server.minChunkSize ->
      chunkSize = fileSize /\ Server.totalChunksOf fileSize chunkSize = 1).
Proof.
  intros Hpos randomChunkSize chunkSize.
  assert (Hr : Server.minChunkSize <= randomChunkSize <= Server.maxChunkSize).
  { pose proof (rand_Intn_range draw (Server.maxChunkSize - Server.minChunkSize + 1)) as H.
    unfold randomChunkSize, Server.maxChunkSize, Server.minChunkSize in *. lia. }
  assert (Hcs : chunkSize = if fileSize <? randomChunkSize then fileSize else randomChunkSize)
    by reflexivity.
  assert (Hmin : Server.minChunkSize = 102400) by reflexivity.
  split; [exact Hr|].
  destruct (Z.ltb_spec fileSize randomChunkSize) as [Hlt|Hge].
  - split; [lia|]. split; [intros _; exact Hcs|].
    intros Hsmall. split; [exact Hcs|].
    rewrite Hcs. apply totalChunksOf_self. lia.
  - split; [lia|]. split; [lia|]. intros Hsmall. lia.
Qed.

Lemma calculateChunkSize_clamped_witness :
  0 < 11 /\ 1 <= Server.calculateChunkSize 12345 11 <= 11.
Proof.
  split; [lia|].
  destruct (calculateChunkSize_clamped 12345 11) as (_ & H & _); [lia | exact H].
Defined.

(** C5: on a file of 2^53 + 1 bytes planned with chunks of 2^20 bytes the
    stored and returned totalChunks is 2^33, one short of the ceiling
    2^33 + 1 of the exact quotient: float64(fileSize) has already dropped
    the last byte. *)
Theorem registerFileHandler_totalChunks_short (now : Z) (name hash : string)
    (s : Server.ServerState) :
  let fileSize := 2 ^ 53 + 1 in
  let draw := 2 ^ 20 - Server.minChunkSize in
  let served := Server.registerFileHandler now draw (register_request name fileSize hash) s in
  exists md,
    fst served = Server.WriteJSON md
    /\ Server.filesMetadata (snd served) !! Server.ID md = Some md
    /\ Server.FileSize md = fileSize
    /\ Server.ChunkSize md = 2 ^ 20
    /\ Server.TotalChunks md = 2 ^ 33
    /\ ceil_div fileSize (Server.ChunkSize md) = 2 ^ 33 + 1.
Proof.
  cbn zeta. unfold Server.registerFileHandler, register_request.
  cbn [Server.Method Server.BodyJSON String.eqb Ascii.eqb Bool.eqb negb fst snd
       Client.registration_body Server.FileSize Client.FileSize].
  eexists. split; [reflexivity|].
  cbn [Server.filesMetadata Server.ID Server.with_plan Server.ChunkSize
       Server.TotalChunks Server.FileSize].
  split; [apply lookup_insert_eq|].
  split; [reflexivity|]. split; [by vm_compute|]. split; by vm_compute.
Qed.

(** ** The sender orchestrator *)

Section Orchestrator.
Variable json_Marshal : list Server.FileMetadata -> list byte.

(** C10: when the file to send has size 0, main exits with status 1 and
    the world is as it was: nothing went on the wire and the receiver is
    untouched. *)
Theorem main_rejects_empty_file (env : Client.Env) (prog filePath serverIP serverPort : string)
    (local : gmap string (list byte)) (file : list byte) (w : Client.World) :
  local !! filePath = Some file ->
  Z.of_nat (length file) = 0 ->
  Client.main json_Marshal env [prog; filePath; serverIP; serverPort] local w = (1, w)
  /\ Client.wire (snd (Client.main json_Marshal env [prog; filePath; serverIP; serverPort] local w))
     = Client.wire w.
Proof.
  intros Hfile Hsize.
  assert (E : Client.main json_Marshal env [prog; filePath; serverIP; serverPort] local w = (1, w)).
  { unfold Client.main. rewrite Hfile, Hsize. reflexivity. }
  rewrite E. done.
Qed.

End Orchestrator.

(** ** Receiving a chunk *)

Arguments SHA256.Sum256 : simpl never.
Arguments SHA256.blocks : simpl never.

Lemma Sum256_nonempty (data : list byte) : Sprintf_x (SHA256.Sum256 data) <> EmptyString.
Proof.
  unfold SHA256.Sum256, SHA256.digest_bytes, SHA256.word_bytes.
  cbn [SHA256.be_bytes map app Sprintf_x]. discriminate.
Qed.

Lemma eqb_false_of_ne (a b : string) : a <> b -> String.eqb a b = false.
Proof. intros H. by apply String.eqb_neq. Qed.

Lemma uploadChunkHandler_parsed (io : Server.IOFaults) (r : Server.Request)
    (s : Server.ServerState) (p0 p1 fileID chunkNumber : string) (rest : list string)
    (num : Z) :
  Server.Method r = "POST"%string ->
  Split (Server.URLPath r) "/" = p0 :: p1 :: fileID :: chunkNumber :: rest ->
  Server.ChunkHashHeader r <> EmptyString ->
  Atoi chunkNumber = Some num ->
  Server.uploadChunkHandler io r s
  = store_chunk io (Server.chunkFileName fileID num) (Server.Body r)
                (Server.ChunkHashHeader r) s.
Proof.
  intros Hm Hp Hh Hn. unfold Server.uploadChunkHandler.
  rewrite Hm, Hp, Hn. cbn [String.eqb Ascii.eqb Bool.eqb negb andb].
  rewrite (eqb_false_of_ne _ _ Hh). reflexivity.
Qed.

Lemma uploadChunkHandler_chunk_request (io : Server.IOFaults) (fileID : string)
    (num : Z) (body : list byte) (hash : string) (s : Server.ServerState) :
  all_chars not_slash fileID = true -> in_int64 num = true -> hash <> EmptyString ->
  Server.uploadChunkHandler io (chunk_request fileID num body hash) s
  = store_chunk io (Server.chunkFileName fileID num) body hash s.
Proof.
  intros Hid Hnum Hh.
  apply (uploadChunkHandler_parsed io (chunk_request fileID num body hash) s
           EmptyString "upload_chunk" fileID (FormatInt num) [] num); try done.
  - apply Split_upload_path; [done|]. apply decimal_not_slash, FormatInt_chars.
  - by apply Atoi_FormatInt.
Qed.

(** A chunk sent with its own digest is accepted unless the file system
    fails, and then it is on disk under its name. *)
Lemma sendChunk_own_digest (env : Client.Env) (fileID : string) (num : Z)
    (data : list byte) (w : Client.World) :
  all_chars not_slash fileID = true -> in_int64 num = true ->
  let io := Client.faults env (length (Client.wire w)) in
  let name := Server.chunkFileName fileID num in
  let sent := Client.wire w ++ [chunk_request fileID num data (Sprintf_x (SHA256.Sum256 data))] in
  Client.sendChunk env fileID num data (Sprintf_x (SHA256.Sum256 data)) w
  = if Server.createErr io name then
      (Some ("server returned non-OK status: " ++ FormatInt 500)%string,
       {| Client.server := Client.server w; Client.wire := sent |})
    else match Server.copyErr io name with
         | Some k =>
             (Some ("server returned non-OK status: " ++ FormatInt 500)%string,
              {| Client.server :=
                   Server.set_disk (Client.server w)
                     (<[name := take k data]> (Server.disk (Client.server w)));
                 Client.wire := sent |})
         | None =>
             (None,
              {| Client.server :=
                   Server.set_disk (Client.server w)
                     (<[name := data]> (Server.disk (Client.server w)));
                 Client.wire := sent |})
         end.
Proof.
  intros Hid Hnum io name sent.
  unfold Client.sendChunk, Client.roundtrip.
  change {| Server.Method := "POST";
            Server.URLPath := ("/upload_chunk/" ++ fileID ++ "/" ++ FormatInt num)%string;
            Server.ChunkHashHeader := Sprintf_x (SHA256.Sum256 data);
            Server.Body := data; Server.BodyJSON := None |}
    with (chunk_request fileID num data (Sprintf_x (SHA256.Sum256 data))).
  rewrite uploadChunkHandler_chunk_request by (done || apply Sum256_nonempty).
  unfold store_chunk. fold io name.
  destruct (Server.createErr io name); [reflexivity|].
  destruct (Server.copyErr io name); [reflexivity|].
  rewrite String.eqb_refl. reflexivity.
Qed.

(** ** Sending the chunks of a file *)

Lemma slice_drop (c j : nat) (file : list byte) :
  slice c j (drop c file) = slice c (S j) file.
Proof. unfold slice. rewrite drop_drop. do 2 f_equal; lia. Qed.

Section SendLoop.
Variable env : Client.Env.
Variable fileID : string.
Variable chunkSize : Z.
Hypothesis fileID_plain : all_chars not_slash fileID = true.
Hypothesis chunkSize_pos : 0 < chunkSize.

Let c : nat := Z.to_nat chunkSize.

(** When the loop returns nil, the metadata table is as before, every
    chunk of the part it was given is on disk under its number, and no
    other file changed. *)
Lemma sendLoop_stores (fuel : nat) :
  forall (rest : list byte) (k : Z) (w w' : Client.World),
    (length rest < fuel)%nat ->
    MinInt64 <= k -> k + Z.of_nat (length rest) - 1 <= MaxInt64 ->
    Client.sendLoop env fileID chunkSize fuel rest k w = (None, w') ->
    Server.filesMetadata (Client.server w') = Server.filesMetadata (Client.server w)
    /\ (forall j : nat, (j * c < length rest)%nat ->
          Server.disk (Client.server w') !! Server.chunkFileName fileID (k + Z.of_nat j)
          = Some (slice c j rest))
    /\ (forall name : string,
          (forall j : nat, (j * c < length rest)%nat ->
             name <> Server.chunkFileName fileID (k + Z.of_nat j)) ->
          Server.disk (Client.server w') !! name = Server.disk (Client.server w) !! name).
Proof.
  assert (Hc : (0 < c)%nat) by (unfold c; lia).
  induction fuel as [|fuel IH]; intros rest k w w' Hfuel Hlo Hhi Hrun; [lia|].
  cbn [Client.sendLoop] in Hrun. fold c in Hrun.
  destruct (Nat.eqb_spec (length (take c rest)) 0) as [Hempty|Hne].
  - injection Hrun as <-.
    rewrite length_take in Hempty.
    assert (length rest = 0%nat) as Hlen by lia.
    split; [done|]. split; [|done].
    intros j Hj. lia.
  - rewrite length_take in Hne.
    rewrite sendChunk_own_digest in Hrun
      by (done || (apply in_int64_iff; lia)).
    destruct (Server.createErr _ _); [discriminate|].
    destruct (Server.copyErr _ _); [discriminate|].
    apply IH in Hrun; [|rewrite length_drop; lia|lia|rewrite length_drop; lia].
    cbn [Client.server Server.set_disk Server.filesMetadata Server.disk] in Hrun.
    destruct Hrun as (Hmeta & Hchunks & Hother).
    split; [done|]. split.
    + intros [|j] Hj.
      * rewrite Hother.
        -- rewrite Z.add_0_r. rewrite lookup_insert_eq. done.
        -- intros j _ E%chunkFileName_inj. lia.
      * replace (k + Z.of_nat (S j)) with (k + 1 + Z.of_nat j) by lia.
        rewrite Hchunks, slice_drop; [done|].
        rewrite length_drop. simpl in Hj. lia.
    + intros name Hname. rewrite Hother.
      * rewrite lookup_insert_ne; [done|].
        intros E. apply (Hname 0%nat); [lia|]. by rewrite Z.add_0_r.
      * intros j Hj. replace (k + 1 + Z.of_nat j) with (k + Z.of_nat (S j)) by lia.
        apply Hname. rewrite length_drop in Hj. simpl. lia.
Qed.

(** Without file-system faults at the receiver the loop returns nil. *)
Lemma sendLoop_fault_free (fuel : nat) :
  (forall n, Client.faults env n = Server.no_faults) ->
  forall (rest : list byte) (k : Z) (w : Client.World),
    (length rest < fuel)%nat ->
    MinInt64 <= k -> k + Z.of_nat (length rest) - 1 <= MaxInt64 ->
    exists w', Client.sendLoop env fileID chunkSize fuel rest k w = (None, w').
Proof.
  intros Hio. assert (Hc : (0 < c)%nat) by (unfold c; lia).
  induction fuel as [|fuel IH]; intros rest k w Hfuel Hlo Hhi; [lia|].
  cbn [Client.sendLoop]. fold c.
  destruct (Nat.eqb_spec (length (take c rest)) 0) as [Hempty|Hne]; [by eexists|].
  rewrite length_take in Hne.
  rewrite sendChunk_own_digest by (done || (apply in_int64_iff; lia)).
  rewrite Hio. cbn [Server.no_faults Server.createErr Server.copyErr].
  apply IH; [rewrite length_drop; lia|lia|rewrite length_drop; lia].
Qed.

End SendLoop.

(** ** Folding the chunk files into the destination *)

Section FoldChunks.
Variable io : Server.IOFaults.
Variable fileID finalFileName : string.
Hypothesis chunk_ne_final : forall i, Server.chunkFileName fileID i <> finalFileName.

Lemma folded_S (d : gmap string (list byte)) (i : Z) (n : nat) :
  folded d fileID i (S n) = folded d fileID i n ++ stored d fileID i n.
Proof.
  unfold folded. rewrite seq_S, map_app, concat_app. simpl. by rewrite app_nil_r.
Qed.

Lemma fold_one_final (i : Z) (data acc : list byte) (d : gmap string (list byte)) :
  d !! finalFileName = Some acc ->
  fold_one fileID finalFileName i data d !! finalFileName = Some (acc ++ data).
Proof.
  intros Hacc. unfold fold_one, Server.append_file.
  rewrite lookup_delete_ne by apply chunk_ne_final.
  by rewrite lookup_insert_eq, Hacc.
Qed.

Lemma fold_one_other (i : Z) (data : list byte) (d : gmap string (list byte))
    (name : string) :
  name <> finalFileName -> name <> Server.chunkFileName fileID i ->
  fold_one fileID finalFileName i data d !! name = d !! name.
Proof.
  intros H1 H2. unfold fold_one, Server.append_file.
  by rewrite lookup_delete_ne, lookup_insert_ne.
Qed.

Lemma fold_one_stored (i : Z) (data : list byte) (d : gmap string (list byte)) (j : nat) :
  stored (fold_one fileID finalFileName i data d) fileID (i + 1) j = stored d fileID i (S j).
Proof.
  unfold stored. replace (i + Z.of_nat (S j)) with (i + 1 + Z.of_nat j) by lia.
  rewrite fold_one_other; [done|apply chunk_ne_final|].
  intros E%chunkFileName_inj. lia.
Qed.

Lemma fold_one_folded (i : Z) (data : list byte) (d : gmap string (list byte)) (n : nat) :
  d !! Server.chunkFileName fileID i = Some data ->
  data ++ folded (fold_one fileID finalFileName i data d) fileID (i + 1) n = folded d fileID i (S n).
Proof.
  intros Hdata. unfold folded. cbn [seq map concat].
  rewrite <- seq_shift, map_map.
  f_equal.
  - unfold stored. by rewrite Z.add_0_r, Hdata.
  - f_equal. apply map_ext. intros j. apply fold_one_stored.
Qed.

(** Files that are neither the destination nor one of the chunks the loop
    visits are left as they were, whatever the outcome. *)
Lemma foldChunks_other (n : nat) :
  forall (i : Z) (d d' : gmap string (list byte)) (resp : option Server.Response)
         (name : string),
    Server.foldChunks io fileID finalFileName n i d = (resp, d') ->
    name <> finalFileName ->
    (forall j : nat, (j < n)%nat -> name <> Server.chunkFileName fileID (i + Z.of_nat j)) ->
    d' !! name = d !! name.
Proof.
  induction n as [|n IH]; intros i d d' resp name Hrun Hfinal Hchunks;
    cbn [Server.foldChunks] in Hrun.
  - by injection Hrun as _ <-.
  - destruct (d !! Server.chunkFileName fileID i) as [data|] eqn:E;
      [|by injection Hrun as _ <-].
    destruct (Server.openErr io _); [by injection Hrun as _ <-|].
    destruct (Server.copyErr io _) as [k|].
    + injection Hrun as _ <-. unfold Server.append_file.
      by rewrite lookup_insert_ne.
    + apply (IH _ _ _ _ name) in Hrun; [|done|].
      * rewrite Hrun. apply fold_one_other; [done|].
        specialize (Hchunks 0%nat ltac:(lia)). by rewrite Z.add_0_r in Hchunks.
      * intros j Hj. replace (i + 1 + Z.of_nat j) with (i + Z.of_nat (S j)) by lia.
        apply Hchunks. lia.
Qed.

(** When the loop runs to its end, every chunk it visited was on disk and
    is gone afterwards, and the destination grew by their bytes in
    sequence order. *)
Lemma foldChunks_done (n : nat) :
  forall (i : Z) (d d' : gmap string (list byte)) (acc : list byte),
    Server.foldChunks io fileID finalFileName n i d = (None, d') ->
    d !! finalFileName = Some acc ->
    (forall j : nat, (j < n)%nat ->
       is_Some (d !! Server.chunkFileName fileID (i + Z.of_nat j))
       /\ d' !! Server.chunkFileName fileID (i + Z.of_nat j) = None)
    /\ d' !! finalFileName = Some (acc ++ folded d fileID i n).
Proof.
  induction n as [|n IH]; intros i d d' acc Hrun Hacc;
    cbn [Server.foldChunks] in Hrun.
  - injection Hrun as <-. split; [intros j Hj; lia|].
    unfold folded. simpl. by rewrite app_nil_r.
  - destruct (d !! Server.chunkFileName fileID i) as [data|] eqn:E; [|discriminate].
    destruct (Server.openErr io _); [discriminate|].
    destruct (Server.copyErr io _) as [k|]; [discriminate|].
    fold (fold_one fileID finalFileName i data d) in Hrun.
    pose proof (foldChunks_other _ _ _ _ _ (Server.chunkFileName fileID i) Hrun) as Hgone.
    apply (IH _ _ _ (acc ++ data)) in Hrun; [|by apply fold_one_final].
    destruct Hrun as [Hchunks Hfinal]. split.
    + intros [|j] Hj.
      * rewrite Z.add_0_r, E. split; [by eexists|].
        rewrite Hgone; [apply lookup_delete_eq|apply chunk_ne_final|].
        intros j _ Ej%chunkFileName_inj. lia.
      * replace (i + Z.of_nat (S j)) with (i + 1 + Z.of_nat j) by lia.
        destruct (Hchunks j ltac:(lia)) as [Hsome Hnone]. split; [|done].
        rewrite fold_one_other in Hsome; [done|apply chunk_ne_final|].
        intros Ej%chunkFileName_inj. lia.
    + rewrite Hfinal, <- app_assoc. by rewrite fold_one_folded.
Qed.

(** When the loop stops on a missing chunk, the chunks before it were
    folded into the destination and removed; the destination holds them
    and nothing else. *)
Lemma foldChunks_missing (n : nat) :
  forall (i : Z) (d d' : gmap string (list byte)) (acc : list byte),
    Server.foldChunks io fileID finalFileName n i d = (Some missing_chunk, d') ->
    d !! finalFileName = Some acc ->
    exists k : nat,
      (k < n)%nat
      /\ d !! Server.chunkFileName fileID (i + Z.of_nat k) = None
      /\ (forall j : nat, (j < k)%nat ->
            is_Some (d !! Server.chunkFileName fileID (i + Z.of_nat j))
            /\ d' !! Server.chunkFileName fileID (i + Z.of_nat j) = None)
      /\ d' !! finalFileName = Some (acc ++ folded d fileID i k).
Proof.
  induction n as [|n IH]; intros i d d' acc Hrun Hacc;
    cbn [Server.foldChunks] in Hrun; [discriminate|].
  destruct (d !! Server.chunkFileName fileID i) as [data|] eqn:E.
  - destruct (Server.openErr io _); [discriminate|].
    destruct (Server.copyErr io _) as [m|]; [discriminate|].
    fold (fold_one fileID finalFileName i data d) in Hrun.
    pose proof (foldChunks_other _ _ _ _ _ (Server.chunkFileName fileID i) Hrun) as Hgone.
    apply (IH _ _ _ (acc ++ data)) in Hrun; [|by apply fold_one_final].
    destruct Hrun as (k & Hk & Hnone & Hbefore & Hfinal).
    exists (S k). split; [lia|]. split; [|split].
    + replace (i + Z.of_nat (S k)) with (i + 1 + Z.of_nat k) by lia.
      rewrite fold_one_other in Hnone; [done|apply chunk_ne_final|].
      intros Ej%chunkFileName_inj. lia.
    + intros [|j] Hj.
      * rewrite Z.add_0_r, E. split; [by eexists|].
        rewrite Hgone; [apply lookup_delete_eq|apply chunk_ne_final|].
        intros j _ Ej%chunkFileName_inj. lia.
      * replace (i + Z.of_nat (S j)) with (i + 1 + Z.of_nat j) by lia.
        destruct (Hbefore j ltac:(lia)) as [Hsome Hdel]. split; [|done].
        rewrite fold_one_other in Hsome; [done|apply chunk_ne_final|].
        intros Ej%chunkFileName_inj. lia.
    + rewrite Hfinal, <- app_assoc. by rewrite fold_one_folded.
  - injection Hrun as <-. exists 0%nat.
    split; [lia|]. split; [by rewrite Z.add_0_r|]. split; [intros j Hj; lia|].
    unfold folded. simpl. by rewrite app_nil_r.
Qed.

(** Every failure of the loop is reported as a server error. *)
Lemma foldChunks_status (n : nat) :
  forall (i : Z) (d d' : gmap string (list byte)) (resp : Server.Response),
    Server.foldChunks io fileID finalFileName n i d = (Some resp, d') ->
    Server.StatusCode resp = Server.StatusInternalServerError.
Proof.
  induction n as [|n IH]; intros i d d' resp Hrun;
    cbn [Server.foldChunks] in Hrun; [discriminate|].
  destruct (d !! Server.chunkFileName fileID i) as [data|];
    [|by injection Hrun as <- _].
  destruct (Server.openErr io _); [by injection Hrun as <- _|].
  destruct (Server.copyErr io _) as [m|]; [by injection Hrun as <- _|].
  by apply IH in Hrun.
Qed.

End FoldChunks.

(** Without faults the loop reaches its end when the chunks are there. *)
Lemma foldChunks_fault_free (fileID finalFileName : string) (n : nat) :
  (forall i, Server.chunkFileName fileID i <> finalFileName) ->
  forall (i : Z) (d : gmap string (list byte)),
    (forall j : nat, (j < n)%nat ->
       is_Some (d !! Server.chunkFileName fileID (i + Z.of_nat j))) ->
    exists d', Server.foldChunks Server.no_faults fileID finalFileName n i d = (None, d').
Proof.
  intros Hne. induction n as [|n IH]; intros i d Hchunks; cbn [Server.foldChunks].
  - by eexists.
  - destruct (Hchunks 0%nat ltac:(lia)) as [data E]. rewrite Z.add_0_r in E.
    rewrite E. cbn [Server.no_faults Server.openErr Server.copyErr].
    apply IH. intros j Hj.
    fold (fold_one fileID finalFileName i data d).
    rewrite fold_one_other; [|apply Hne|].
    + replace (i + 1 + Z.of_nat j) with (i + Z.of_nat (S j)) by lia.
      apply Hchunks. lia.
    + intros Ej%chunkFileName_inj. lia.
Qed.

(** ** Reassembly *)

Lemma folded_truncated (d : gmap string (list byte)) (fileID name : string) (i : Z)
    (n : nat) :
  (forall k, Server.chunkFileName fileID k <> name) ->
  folded (<[name := []]> d) fileID i n = folded d fileID i n.
Proof.
  intros Hne. unfold folded. f_equal. apply map_ext. intros j.
  unfold stored. by rewrite lookup_insert_ne by (apply not_eq_sym, Hne).
Qed.

(** Every error raised between os.Create of the destination and the
    digest of the reassembled file is a server error. *)
Lemma reassemble_status (io : Server.IOFaults) (fileID : string) (md : Server.FileMetadata)
    (d d' : gmap string (list byte)) (resp : Server.Response) :
  Server.reassemble io fileID md d = (inl resp, d') ->
  Server.StatusCode resp = Server.StatusInternalServerError.
Proof.
  unfold Server.reassemble. intros Hrun.
  destruct (Server.createErr io _); [by injection Hrun as <- _|].
  destruct (negb _); [by injection Hrun as <- _|].
  destruct (Server.foldChunks _ _ _ _ _ _) as [[resp'|] d1] eqn:Hfold.
  - injection Hrun as <- _. by eapply foldChunks_status.
  - destruct (Server.syncErr io _); [by injection Hrun as <- _|].
    destruct (Server.calculateFileHash _ _ _); [discriminate|].
    by injection Hrun as <- _.
Qed.

(** When reassembly reaches the digest: the identity is the registered
    one, all [chunk_count md] chunks were on disk and are now removed, and
    the destination holds exactly their bytes in sequence order, whatever
    it held before; the digest is the one of these bytes. *)
Lemma reassemble_done (io : Server.IOFaults) (fileID : string) (md : Server.FileMetadata)
    (d d' : gmap string (list byte)) (finalHash : list byte) :
  generated fileID ->
  Server.reassemble io fileID md d = (inr finalHash, d') ->
  fileID = Server.ID md
  /\ (forall j : nat, (j < chunk_count md)%nat ->
        is_Some (d !! Server.chunkFileName fileID (1 + Z.of_nat j))
        /\ d' !! Server.chunkFileName fileID (1 + Z.of_nat j) = None)
  /\ d' !! finalFileName md = Some (folded d fileID 1 (chunk_count md))
  /\ finalHash = SHA256.Sum256 (folded d fileID 1 (chunk_count md))
  /\ (forall name, name <> finalFileName md ->
        (forall j : nat, (j < chunk_count md)%nat ->
           name <> Server.chunkFileName fileID (1 + Z.of_nat j)) ->
        d' !! name = d !! name).
Proof.
  intros Hgen. unfold Server.reassemble. fold (finalFileName md). intros Hrun.
  assert (Hne : forall i, Server.chunkFileName fileID i <> finalFileName md)
    by (intros i; by apply chunk_not_final).
  destruct (Server.createErr io _); [discriminate|].
  destruct (String.eqb_spec fileID (Server.ID md)) as [Hid|]; [|discriminate].
  cbn [negb] in Hrun.
  destruct (Server.foldChunks _ _ _ _ _ _) as [[resp'|] d1] eqn:Hfold; [discriminate|].
  destruct (Server.syncErr io _); [discriminate|].
  unfold Server.calculateFileHash in Hrun.
  destruct (Server.hashErr io _); [discriminate|].
  injection Hrun as <- <-.
  fold (chunk_count md) in Hfold.
  pose proof (fun name => foldChunks_other _ _ _ _ _ _ _ _ name Hfold) as Hother.
  apply (foldChunks_done io fileID (finalFileName md) Hne _ _ _ _ []) in Hfold;
    [|apply lookup_insert_eq].
  destruct Hfold as [Hchunks Hfinal].
  rewrite folded_truncated in Hfinal by done. cbn [app] in Hfinal.
  split; [done|]. split; [|split; [done|split]].
  - intros j Hj. destruct (Hchunks j Hj) as [Hsome Hnone]. split; [|done].
    by rewrite lookup_insert_ne in Hsome by (apply not_eq_sym, Hne).
  - by rewrite Hfinal.
  - intros name H1 H2. rewrite Hother by done. by rewrite lookup_insert_ne.
Qed.

(** When reassembly stops on a missing chunk: the destination was created
    or truncated first, and holds the chunks before the missing one. *)
Lemma reassemble_missing (io : Server.IOFaults) (fileID : string) (md : Server.FileMetadata)
    (d d' : gmap string (list byte)) :
  generated fileID ->
  Server.reassemble io fileID md d = (inl missing_chunk, d') ->
  exists k : nat,
    (k < chunk_count md)%nat
    /\ d !! Server.chunkFileName fileID (1 + Z.of_nat k) = None
    /\ (forall j : nat, (j < k)%nat ->
          is_Some (d !! Server.chunkFileName fileID (1 + Z.of_nat j))
          /\ d' !! Server.chunkFileName fileID (1 + Z.of_nat j) = None)
    /\ d' !! finalFileName md = Some (folded d fileID 1 k).
Proof.
  intros Hgen. unfold Server.reassemble. fold (finalFileName md). intros Hrun.
  assert (Hne : forall i, Server.chunkFileName fileID i <> finalFileName md)
    by (intros i; by apply chunk_not_final).
  destruct (Server.createErr io _); [discriminate|].
  destruct (negb _); [discriminate|].
  destruct (Server.foldChunks _ _ _ _ _ _) as [[resp'|] d1] eqn:Hfold.
  - injection Hrun as -> <-. fold (chunk_count md) in Hfold.
    apply (foldChunks_missing io fileID (finalFileName md) Hne _ _ _ _ []) in Hfold;
      [|apply lookup_insert_eq].
    destruct Hfold as (k & Hk & Hnone & Hbefore & Hfinal).
    exists k. split; [done|].
    rewrite lookup_insert_ne in Hnone by (apply not_eq_sym, Hne).
    split; [done|]. split.
    + intros j Hj. destruct (Hbefore j Hj) as [Hsome Hdel]. split; [|done].
      by rewrite lookup_insert_ne in Hsome by (apply not_eq_sym, Hne).
    + by rewrite folded_truncated in Hfinal.
  - destruct (Server.syncErr io _); [discriminate|].
    destruct (Server.calculateFileHash _ _ _); discriminate.
Qed.

(** ** Completion *)

Section Completion.
Variable json_Marshal : list Server.FileMetadata -> list byte.

Lemma updateFileInfoDB_absent (io : Server.IOFaults) (md : Server.FileMetadata)
    (d : gmap string (list byte)) :
  d !! Server.fileInfoDB = None ->
  Server.updateFileInfoDB json_Marshal io md d = (Some "ReadFile"%string, d).
Proof.
  intros Habsent. unfold Server.updateFileInfoDB, Server.ReadFile.
  rewrite Habsent. by destruct (Server.openErr io _).
Qed.

(** A ledger update that returns nil has replaced the file by the encoding
    of the one new record; what the file held is not looked at. *)
Lemma updateFileInfoDB_written (io : Server.IOFaults) (md : Server.FileMetadata)
    (d d' : gmap string (list byte)) :
  Server.updateFileInfoDB json_Marshal io md d = (None, d') ->
  is_Some (d !! Server.fileInfoDB)
  /\ d' = <[Server.fileInfoDB := json_Marshal [md]]> d.
Proof.
  unfold Server.updateFileInfoDB, Server.ReadFile, Server.WriteFile.
  destruct (Server.openErr io _); [discriminate|].
  destruct (d !! Server.fileInfoDB) as [data|]; [|discriminate].
  destruct (Server.createErr io _); [discriminate|].
  destruct (Server.copyErr io _); [discriminate|].
  intros [= <-]. split; [by eexists|done].
Qed.

Lemma completeUploadHandler_parsed (io : Server.IOFaults) (r : Server.Request)
    (s : Server.ServerState) (p0 p1 fileID : string) (rest : list string)
    (md : Server.FileMetadata) :
  Split (Server.URLPath r) "/" = p0 :: p1 :: fileID :: rest ->
  Server.filesMetadata s !! fileID = Some md ->
  Server.completeUploadHandler json_Marshal io r s
  = match Server.reassemble io fileID md (Server.disk s) with
    | (inl resp, d1) => (resp, Server.set_disk s d1)
    | (inr finalHash, d1) =>
        if negb (String.eqb (Sprintf_x finalHash) (Server.FileHash md)) then
          (Server.HttpError "Final file hash mismatch" Server.StatusBadRequest,
           Server.set_disk s d1)
        else
          match Server.updateFileInfoDB json_Marshal io md d1 with
          | (Some err, d2) =>
              (Server.HttpError "Error updating fileInfoDB" Server.StatusInternalServerError,
               Server.set_disk s d2)
          | (None, d2) => (Server.WriteHeader Server.StatusOK, Server.set_disk s d2)
          end
    end.
Proof. intros Hp Hmd. unfold Server.completeUploadHandler. by rewrite Hp, Hmd. Qed.

(** C9: for an identity of the metadata table, a Complete that answers
    with the missing-chunk error has created or truncated the destination
    file first: afterwards it holds the chunks that precede the missing
    one and nothing of what it held before; it is empty when the first
    chunk is the missing one, as after an earlier successful Complete. *)
Theorem complete_missing_chunk_leaves_partial_file (io : Server.IOFaults)
    (r : Server.Request) (s s' : Server.ServerState) (p0 p1 fileID : string)
    (rest : list string) (md : Server.FileMetadata) :
  Split (Server.URLPath r) "/" = p0 :: p1 :: fileID :: rest ->
  Server.filesMetadata s !! fileID = Some md ->
  generated fileID ->
  Server.completeUploadHandler json_Marshal io r s = (missing_chunk, s') ->
  Server.createErr io (finalFileName md) = false
  /\ (exists k : nat,
        (k < chunk_count md)%nat
        /\ Server.disk s !! Server.chunkFileName fileID (1 + Z.of_nat k) = None
        /\ (forall j : nat, (j < k)%nat ->
              is_Some (Server.disk s !! Server.chunkFileName fileID (1 + Z.of_nat j)))
        /\ Server.disk s' !! finalFileName md
           = Some (folded (Server.disk s) fileID 1 k))
  /\ (Server.disk s !! Server.chunkFileName fileID 1 = None ->
      Server.disk s' !! finalFileName md = Some []).
Proof.
  intros Hp Hmd Hgen Hrun.
  rewrite (completeUploadHandler_parsed _ _ _ _ _ _ _ _ Hp Hmd) in Hrun.
  destruct (Server.reassemble io fileID md (Server.disk s)) as [[resp|h] d1] eqn:Hre.
  - injection Hrun as -> <-. cbn [Server.set_disk Server.disk].
    split.
    { unfold Server.reassemble in Hre. fold (finalFileName md) in Hre.
      by destruct (Server.createErr io _). }
    destruct (reassemble_missing _ _ _ _ _ Hgen Hre) as (k & Hk & Hnone & Hbefore & Hfinal).
    split.
    + exists k. split; [done|]. split; [done|]. split; [|done].
      intros j Hj. by destruct (Hbefore j Hj).
    + intros Hfirst. destruct k as [|k]; [done|].
      destruct (Hbefore 0%nat ltac:(lia)) as [[x Hx] _].
      rewrite Z.add_0_r in Hx. congruence.
  - destruct (negb _); [discriminate|].
    destruct (Server.updateFileInfoDB _ _ _ _) as [[err|] d2]; discriminate.
Qed.

(** C8: after a Complete that succeeded for an identity registered with at
    least one chunk, the next Complete for that identity meets the first
    chunk file missing and answers with the missing-chunk error (or, when
    the destination cannot even be created, with that error); it does not
    report success. *)
Theorem second_complete_fails (io1 io2 : Server.IOFaults) (r : Server.Request)
    (s s1 : Server.ServerState) (p0 p1 fileID : string) (rest : list string)
    (md : Server.FileMetadata) :
  Split (Server.URLPath r) "/" = p0 :: p1 :: fileID :: rest ->
  Server.filesMetadata s !! fileID = Some md ->
  generated fileID ->
  1 <= Server.TotalChunks md ->
  Server.completeUploadHandler json_Marshal io1 r s
  = (Server.WriteHeader Server.StatusOK, s1) ->
  (forall j : nat, (j < chunk_count md)%nat ->
     Server.disk s1 !! Server.chunkFileName fileID (1 + Z.of_nat j) = None)
  /\ fst (Server.completeUploadHandler json_Marshal io2 r s1)
     = (if Server.createErr io2 (finalFileName md)
        then Server.HttpError "Error creating final file" Server.StatusInternalServerError
        else missing_chunk)
  /\ Server.StatusCode (fst (Server.completeUploadHandler json_Marshal io2 r s1))
     <> Server.StatusOK.
Proof.
  intros Hp Hmd Hgen Hn Hrun.
  rewrite (completeUploadHandler_parsed _ _ _ _ _ _ _ _ Hp Hmd) in Hrun.
  destruct (Server.reassemble io1 fileID md (Server.disk s)) as [[resp|h] d1] eqn:Hre.
  { injection Hrun as -> <-.
    apply reassemble_status in Hre. discriminate. }
  destruct (negb _); [discriminate|].
  destruct (Server.updateFileInfoDB _ _ _ _) as [[err|] d2] eqn:Hdb; [discriminate|].
  injection Hrun as <-.
  destruct (reassemble_done _ _ _ _ _ _ Hgen Hre) as (Hid & Hchunks & _).
  apply updateFileInfoDB_written in Hdb as [_ ->].
  assert (Hgone : forall j : nat, (j < chunk_count md)%nat ->
            <[Server.fileInfoDB := json_Marshal [md]]> d1
              !! Server.chunkFileName fileID (1 + Z.of_nat j) = None).
  { intros j Hj. rewrite lookup_insert_ne by (apply not_eq_sym; by apply chunk_not_ledger).
    by destruct (Hchunks j Hj). }
  split; [exact Hgone|].
  assert (Hresp : fst (Server.completeUploadHandler json_Marshal io2 r
                          (Server.set_disk s (<[Server.fileInfoDB := json_Marshal [md]]> d1)))
                  = (if Server.createErr io2 (finalFileName md)
                     then Server.HttpError "Error creating final file"
                            Server.StatusInternalServerError
                     else missing_chunk)).
  { rewrite (completeUploadHandler_parsed _ _ _ _ _ _ _ md Hp) by done.
    unfold Server.reassemble. fold (finalFileName md).
    cbn [Server.set_disk Server.disk].
    destruct (Server.createErr io2 _); [done|].
    assert (String.eqb fileID (Server.ID md) = true) as -> by (by apply String.eqb_eq).
    cbn [negb].
    destruct (Z.to_nat (Server.TotalChunks md)) as [|n] eqn:En; [lia|].
    cbn [Server.foldChunks].
    rewrite lookup_insert_ne by (apply not_eq_sym; by apply chunk_not_final).
    specialize (Hgone 0%nat ltac:(unfold chunk_count; lia)).
    rewrite Z.add_0_r in Hgone. by rewrite Hgone. }
  split; [exact Hresp|].
  rewrite Hresp. by destruct (Server.createErr io2 _).
Qed.

End Completion.

(** ** Status codes *)

Section StatusCodes.
Variable json_Marshal : list Server.FileMetadata -> list byte.

(** The outcomes of uploadChunkHandler on a request that passed the input
    checks: a failing os.Create or io.Copy is a server error, a digest
    that differs from the header a client error. *)
Lemma upload_status_codes (io : Server.IOFaults) (r : Server.Request)
    (s : Server.ServerState) (p0 p1 fileID chunkNumber : string) (rest : list string)
    (num : Z) :
  Server.Method r = "POST"%string ->
  Split (Server.URLPath r) "/" = p0 :: p1 :: fileID :: chunkNumber :: rest ->
  Server.ChunkHashHeader r <> EmptyString ->
  Atoi chunkNumber = Some num ->
  let name := Server.chunkFileName fileID num in
  let code := Server.StatusCode (fst (Server.uploadChunkHandler io r s)) in
  (Server.createErr io name = true -> code = Server.StatusInternalServerError)
  /\ (Server.createErr io name = false -> is_Some (Server.copyErr io name) ->
      code = Server.StatusInternalServerError)
  /\ (Server.createErr io name = false -> Server.copyErr io name = None ->
      Sprintf_x (SHA256.Sum256 (Server.Body r)) <> Server.ChunkHashHeader r ->
      code = Server.StatusBadRequest)
  /\ (Server.createErr io name = false -> Server.copyErr io name = None ->
      Sprintf_x (SHA256.Sum256 (Server.Body r)) = Server.ChunkHashHeader r ->
      code = Server.StatusOK).
Proof.
  intros Hm Hp Hh Hn name code. unfold code.
  rewrite (uploadChunkHandler_parsed _ _ _ _ _ _ _ _ _ Hm Hp Hh Hn).
  unfold store_chunk. fold name.
  repeat split.
  - by intros ->.
  - intros -> [k ->]. done.
  - intros -> -> Hne. by rewrite (eqb_false_of_ne _ _ Hne).
  - intros -> -> ->. by rewrite String.eqb_refl.
Qed.

(** The outcomes of completeUploadHandler on a path with an identity:
    unknown identity and digest mismatch are client errors, every failure
    of the file system is a server error. *)
Lemma complete_status_codes (io : Server.IOFaults) (r : Server.Request)
    (s : Server.ServerState) (p0 p1 fileID : string) (rest : list string) :
  Split (Server.URLPath r) "/" = p0 :: p1 :: fileID :: rest ->
  let code := Server.StatusCode (fst (Server.completeUploadHandler json_Marshal io r s)) in
  (Server.filesMetadata s !! fileID = None -> code = Server.StatusBadRequest)
  /\ (forall md e d1,
        Server.filesMetadata s !! fileID = Some md ->
        Server.reassemble io fileID md (Server.disk s) = (inl e, d1) ->
        code = Server.StatusInternalServerError)
  /\ (forall md h d1,
        Server.filesMetadata s !! fileID = Some md ->
        Server.reassemble io fileID md (Server.disk s) = (inr h, d1) ->
        Sprintf_x h <> Server.FileHash md ->
        code = Server.StatusBadRequest)
  /\ (forall md h d1 err d2,
        Server.filesMetadata s !! fileID = Some md ->
        Server.reassemble io fileID md (Server.disk s) = (inr h, d1) ->
        Sprintf_x h = Server.FileHash md ->
        Server.updateFileInfoDB json_Marshal io md d1 = (Some err, d2) ->
        code = Server.StatusInternalServerError)
  /\ (forall md h d1 d2,
        Server.filesMetadata s !! fileID = Some md ->
        Server.reassemble io fileID md (Server.disk s) = (inr h, d1) ->
        Sprintf_x h = Server.FileHash md ->
        Server.updateFileInfoDB json_Marshal io md d1 = (None, d2) ->
        code = Server.StatusOK).
Proof.
  intros Hp code. unfold code. repeat split.
  - intros Hnone. unfold Server.completeUploadHandler. by rewrite Hp, Hnone.
  - intros md e d1 Hmd Hre.
    rewrite (completeUploadHandler_parsed _ _ _ _ _ _ _ _ _ Hp Hmd), Hre.
    by apply reassemble_status in Hre.
  - intros md h d1 Hmd Hre Hne.
    rewrite (completeUploadHandler_parsed _ _ _ _ _ _ _ _ _ Hp Hmd), Hre.
    by rewrite (eqb_false_of_ne _ _ Hne).
  - intros md h d1 err d2 Hmd Hre Heq Hdb.
    rewrite (completeUploadHandler_parsed _ _ _ _ _ _ _ _ _ Hp Hmd), Hre.
    by rewrite Heq, String.eqb_refl, Hdb.
  - intros md h d1 d2 Hmd Hre Heq Hdb.
    rewrite (completeUploadHandler_parsed _ _ _ _ _ _ _ _ _ Hp Hmd), Hre.
    by rewrite Heq, String.eqb_refl, Hdb.
Qed.

(** Malformed input: a path with too few parts, a missing Chunk-Hash
    header, a chunk number that is no integer, a body that is no JSON. *)
Lemma malformed_input_status (io : Server.IOFaults) (s : Server.ServerState)
    (bad : Server.Request) (now draw : Z) :
  (Server.Method bad = "POST"%string ->
   (length (Split (Server.URLPath bad) "/") < 4)%nat
   \/ Server.ChunkHashHeader bad = EmptyString
   \/ Atoi (nth 3 (Split (Server.URLPath bad) "/") EmptyString) = None ->
   Server.StatusCode (fst (Server.uploadChunkHandler io bad s)) = Server.StatusBadRequest)
  /\ ((length (Split (Server.URLPath bad) "/") < 3)%nat ->
      Server.StatusCode (fst (Server.completeUploadHandler json_Marshal io bad s))
      = Server.StatusBadRequest)
  /\ (Server.Method bad = "POST"%string -> Server.BodyJSON bad = None ->
      Server.StatusCode (fst (Server.registerFileHandler now draw bad s))
      = Server.StatusBadRequest).
Proof.
  split; [|split].
  - intros Hm Hbad. unfold Server.uploadChunkHandler. rewrite Hm.
    cbn [String.eqb Ascii.eqb Bool.eqb negb andb].
    destruct (Split (Server.URLPath bad) "/") as [|p0 [|p1 [|fileID [|num rest]]]];
      try reflexivity.
    cbn [nth length] in Hbad.
    destruct (String.eqb_spec (Server.ChunkHashHeader bad) EmptyString) as [|Hh];
      [reflexivity|].
    destruct (Atoi num) as [n|] eqn:Hn; [|reflexivity].
    destruct Hbad as [Hlen|[Hhdr|Hnum]]; [lia|done|done].
  - intros Hlen. unfold Server.completeUploadHandler.
    destruct (Split (Server.URLPath bad) "/") as [|p0 [|p1 [|fileID rest]]];
      try reflexivity.
    cbn [length] in Hlen. lia.
  - intros Hm Hbody. unfold Server.registerFileHandler. by rewrite Hm, Hbody.
Qed.

(** C7, as the code has it: file-system failures (creating, opening,
    copying, syncing or hashing a file, a missing chunk file, a failed
    ledger update) are answered with the server-error status 500; a chunk
    digest mismatch, a final-file digest mismatch and missing metadata at
    completion are answered with the client-error status 400, which is
    also the status of malformed input. *)
Theorem failure_status_codes (io : Server.IOFaults) (s : Server.ServerState)
    (up co : Server.Request) (p0 p1 fileID chunkNumber : string) (rest : list string)
    (num : Z) (q0 q1 completeID : string) (qrest : list string) :
  Server.Method up = "POST"%string ->
  Split (Server.URLPath up) "/" = p0 :: p1 :: fileID :: chunkNumber :: rest ->
  Server.ChunkHashHeader up <> EmptyString ->
  Atoi chunkNumber = Some num ->
  Split (Server.URLPath co) "/" = q0 :: q1 :: completeID :: qrest ->
  let name := Server.chunkFileName fileID num in
  let upload := Server.StatusCode (fst (Server.uploadChunkHandler io up s)) in
  let complete := Server.StatusCode (fst (Server.completeUploadHandler json_Marshal io co s)) in
  (Server.createErr io name = true \/ is_Some (Server.copyErr io name) ->
   upload = Server.StatusInternalServerError)
  /\ (Server.createErr io name = false -> Server.copyErr io name = None ->
      Sprintf_x (SHA256.Sum256 (Server.Body up)) <> Server.ChunkHashHeader up ->
      upload = Server.StatusBadRequest)
  /\ (Server.filesMetadata s !! completeID = None -> complete = Server.StatusBadRequest)
  /\ (forall md,
        Server.filesMetadata s !! completeID = Some md ->
        match Server.reassemble io completeID md (Server.disk s) with
        | (inl e, _) => complete = Server.StatusInternalServerError
        | (inr h, d1) =>
            if String.eqb (Sprintf_x h) (Server.FileHash md) then
              match Server.updateFileInfoDB json_Marshal io md d1 with
              | (Some _, _) => complete = Server.StatusInternalServerError
              | (None, _) => complete = Server.StatusOK
              end
            else complete = Server.StatusBadRequest
        end)
  /\ (forall (bad : Server.Request) (now draw : Z),
        (Server.Method bad = "POST"%string ->
         (length (Split (Server.URLPath bad) "/") < 4)%nat
         \/ Server.ChunkHashHeader bad = EmptyString
         \/ Atoi (nth 3 (Split (Server.URLPath bad) "/") EmptyString) = None ->
         Server.StatusCode (fst (Server.uploadChunkHandler io bad s))
         = Server.StatusBadRequest)
        /\ ((length (Split (Server.URLPath bad) "/") < 3)%nat ->
            Server.StatusCode (fst (Server.completeUploadHandler json_Marshal io bad s))
            = Server.StatusBadRequest)
        /\ (Server.Method bad = "POST"%string -> Server.BodyJSON bad = None ->
            Server.StatusCode (fst (Server.registerFileHandler now draw bad s))
            = Server.StatusBadRequest))
  /\ Server.StatusInternalServerError = 500 /\ Server.StatusBadRequest = 400
  /\ server_error Server.StatusInternalServerError
  /\ client_error Server.StatusBadRequest.
Proof.
  intros Hm Hp Hh Hn Hq name upload complete.
  destruct (upload_status_codes io up s _ _ _ _ _ _ Hm Hp Hh Hn) as (U1 & U2 & U3 & _).
  destruct (complete_status_codes io co s _ _ _ _ Hq) as (C1 & C2 & C3 & C4 & C5).
  fold name upload in U1, U2, U3. fold complete in C1, C2, C3, C4, C5.
  assert (S500 : server_error Server.StatusInternalServerError) by (by vm_compute).
  assert (S400 : client_error Server.StatusBadRequest) by (by vm_compute).
  split; [|split; [|split; [|split; [|split]]]];
    [| | | |exact (fun bad now draw => malformed_input_status io s bad now draw)|done].
  - intros [Hc|Hc].
    + by rewrite U1.
    + destruct (Server.createErr io name) eqn:E; [by rewrite U1|by rewrite U2].
  - intros H1 H2 H3. by rewrite U3.
  - intros Hnone. by rewrite C1.
  - intros md Hmd.
    destruct (Server.reassemble io completeID md (Server.disk s)) as [[e|h] d1] eqn:Hre.
    + by rewrite (C2 _ _ _ Hmd Hre).
    + destruct (String.eqb_spec (Sprintf_x h) (Server.FileHash md)) as [Heq|Hne].
      * destruct (Server.updateFileInfoDB json_Marshal io md d1) as [[err|] d2] eqn:Hdb.
        -- by rewrite (C4 _ _ _ _ _ Hmd Hre Heq Hdb).
        -- by rewrite (C5 _ _ _ _ Hmd Hre Heq Hdb).
      * by rewrite (C3 _ _ _ Hmd Hre Hne).
Qed.

End StatusCodes.

(** C3, as the code has it: when the digest of the received body differs
    from the claimed digest, uploadChunkHandler answers "Chunk hash
    mismatch" with status 400, the metadata table is unchanged, and the
    chunk file of (id, sequenceNumber) stays on disk holding the received
    bytes. *)
Theorem chunk_hash_mismatch_keeps_chunk (io : Server.IOFaults) (r : Server.Request)
    (s : Server.ServerState) (p0 p1 fileID chunkNumber : string) (rest : list string)
    (num : Z) :
  Server.Method r = "POST"%string ->
  Split (Server.URLPath r) "/" = p0 :: p1 :: fileID :: chunkNumber :: rest ->
  Server.ChunkHashHeader r <> EmptyString ->
  Atoi chunkNumber = Some num ->
  Server.createErr io (Server.chunkFileName fileID num) = false ->
  Server.copyErr io (Server.chunkFileName fileID num) = None ->
  Sprintf_x (SHA256.Sum256 (Server.Body r)) <> Server.ChunkHashHeader r ->
  fst (Server.uploadChunkHandler io r s)
  = Server.HttpError "Chunk hash mismatch" Server.StatusBadRequest
  /\ Server.filesMetadata (snd (Server.uploadChunkHandler io r s)) = Server.filesMetadata s
  /\ Server.disk (snd (Server.uploadChunkHandler io r s))
     = <[Server.chunkFileName fileID num := Server.Body r]> (Server.disk s)
  /\ Server.disk (snd (Server.uploadChunkHandler io r s)) !! Server.chunkFileName fileID num
     = Some (Server.Body r).
Proof.
  intros Hm Hp Hh Hn Hcreate Hcopy Hne.
  rewrite (uploadChunkHandler_parsed _ _ _ _ _ _ _ _ _ Hm Hp Hh Hn).
  unfold store_chunk. rewrite Hcreate, Hcopy, (eqb_false_of_ne _ _ Hne).
  cbn [negb fst snd Server.set_disk Server.filesMetadata Server.disk].
  repeat split. apply lookup_insert_eq.
Qed.

(** ** A small transfer, step by step

    The file a.txt holding the three bytes abc, registered at clock 7. *)

Lemma registered_abc_metadata (d : gmap string (list byte)) :
  Server.filesMetadata (registered_abc d) !! "7"%string = Some abc_metadata.
Proof. by vm_compute. Qed.

(** C4: with no ledger file on disk, the completion of a transfer whose
    chunks are all there and whose digest matches is answered with the
    server error of a failed ledger update, and no ledger is created. *)
Theorem complete_without_ledger_fails (json_Marshal : list Server.FileMetadata -> list byte) :
  Server.disk (uploaded_abc ∅ abc) !! Server.fileInfoDB = None
  /\ fst (Server.completeUploadHandler json_Marshal Server.no_faults (complete_request "7")
            (uploaded_abc ∅ abc))
     = Server.HttpError "Error updating fileInfoDB" Server.StatusInternalServerError
  /\ Server.disk (snd (Server.completeUploadHandler json_Marshal Server.no_faults
                         (complete_request "7") (uploaded_abc ∅ abc)))
     !! "final_a.txt"%string = Some abc
  /\ Server.disk (snd (Server.completeUploadHandler json_Marshal Server.no_faults
                         (complete_request "7") (uploaded_abc ∅ abc)))
     !! Server.fileInfoDB = None.
Proof. repeat split; by vm_compute. Qed.

(** C2: whatever the ledger file held, after the next successful
    completion it holds the encoding of the new record alone: the file is
    rewritten from an empty list, and a record that was there before (here
    the one of an earlier transfer) is gone. *)
Theorem complete_overwrites_ledger (json_Marshal : list Server.FileMetadata -> list byte)
    (prior : list byte) :
  fst (Server.completeUploadHandler json_Marshal Server.no_faults (complete_request "7")
         (uploaded_abc {[ Server.fileInfoDB := prior ]} abc))
  = Server.WriteHeader Server.StatusOK
  /\ Server.disk (snd (Server.completeUploadHandler json_Marshal Server.no_faults
                         (complete_request "7")
                         (uploaded_abc {[ Server.fileInfoDB := prior ]} abc)))
     !! Server.fileInfoDB = Some (json_Marshal [abc_metadata])
  /\ Server.disk (snd (Server.completeUploadHandler Server.json_Marshal_plain Server.no_faults
                         (complete_request "7")
                         (uploaded_abc
                            {[ Server.fileInfoDB := Server.json_Marshal_plain [earlier_metadata] ]}
                            abc)))
     !! Server.fileInfoDB
     <> Some (Server.json_Marshal_plain [earlier_metadata; abc_metadata]).
Proof. repeat split; by vm_compute.
Qed.

(** ** A whole transfer *)

Lemma take_plus {A : Type} (n m : nat) (l : list A) :
  take (n + m) l = take n l ++ take m (drop n l).
Proof.
  revert l. induction n as [|n IH]; intros l; [done|].
  destruct l as [|x l]; simpl.
  - by rewrite take_nil.
  - by rewrite IH.
Qed.

(** The first [n] chunks, one after the other, are the first [n * c] bytes. *)
Lemma concat_slices (c n : nat) (file : list byte) :
  concat (map (fun j => slice c j file) (seq 0 n)) = take (n * c) file.
Proof.
  induction n as [|n IH]; [done|].
  rewrite seq_S, map_app, concat_app, IH. cbn [map concat Nat.add].
  rewrite app_nil_r. unfold slice.
  replace (S n * c)%nat with (n * c + c)%nat by lia.
  by rewrite take_plus.
Qed.

(** ** Strings through encoding/json *)

(** A string of ASCII characters comes back as it was sent. *)
Lemma json_coerce_ascii (s : string) :
  all_chars (fun a => (N_of_ascii a <? 128)%N) s = true -> json_coerce s = s.
Proof.
  unfold json_coerce. induction s as [|a r IH]; [done|].
  cbn [all_chars]. intros [Ha Hr]%andb_true_iff.
  cbn [json_coerce_from utf8_size].
  change (N_of_ascii a <? 128)%N with (N_of_ascii a <? 128)%N in Ha.
  replace (N_of_ascii a <? 0x80)%N with true by (symmetry; exact Ha).
  by rewrite IH.
Qed.

Lemma hex_digit_ascii (n : N) : (N_of_ascii (hex_digit n) <? 128)%N = true.
Proof.
  destruct n as [|p]; [reflexivity|].
  do 4 (try destruct p as [p|p|]; try reflexivity).
Qed.

(** So does a digest written with the verb %x. *)
Lemma json_coerce_Sprintf_x (bs : list byte) : json_coerce (Sprintf_x bs) = Sprintf_x bs.
Proof.
  apply json_coerce_ascii. induction bs as [|b r IH]; [done|].
  cbn [Sprintf_x all_chars]. by rewrite !hex_digit_ascii, IH.
Qed.

(** A byte that is no UTF-8 arrives as U+FFFD. *)
Example json_coerce_invalid :
  json_coerce (String (ascii_of_nat 255) ".txt")
  = String (ascii_of_nat 239) (String (ascii_of_nat 191) (String (ascii_of_nat 189) ".txt")).
Proof. reflexivity. Qed.

(** Valid encodings of two, three and four bytes are kept, also the one
    of U+FFFD itself; an overlong encoding and a surrogate are not. *)
Example json_coerce_valid :
  let s := String (ascii_of_nat 195) (String (ascii_of_nat 169)
             (String (ascii_of_nat 226) (String (ascii_of_nat 130) (String (ascii_of_nat 172)
                (String (ascii_of_nat 240) (String (ascii_of_nat 159)
                   (String (ascii_of_nat 152) (String (ascii_of_nat 128) RuneError)))))))) in
  json_coerce s = s
  /\ json_coerce (String (ascii_of_nat 192) (String (ascii_of_nat 175) EmptyString))
     = (RuneError ++ RuneError)%string
  /\ json_coerce (String (ascii_of_nat 237) (String (ascii_of_nat 160)
                    (String (ascii_of_nat 128) EmptyString)))
     = (RuneError ++ RuneError ++ RuneError)%string.
Proof. by vm_compute. Qed.

Lemma registerFile_spec (env : Client.Env) (name : string) (file : list byte)
    (w : Client.World) :
  let md := planned env name file in
  Client.registerFile env (file_info name file) w
  = (inl {| Client.ID := Server.ID md; Client.ChunkSize := Server.ChunkSize md;
            Client.TotalChunks := Server.TotalChunks md |},
     {| Client.server :=
          {| Server.filesMetadata :=
               <[Server.ID md := md]> (Server.filesMetadata (Client.server w));
             Server.disk := Server.disk (Client.server w) |};
        Client.wire :=
          Client.wire w
          ++ [register_request name (Z.of_nat (length file)) (Sprintf_x (SHA256.Sum256 file))] |}).
Proof.
  intros md. unfold Client.registerFile, Client.roundtrip, Server.registerFileHandler.
  cbn [Server.Method Server.BodyJSON String.eqb Ascii.eqb Bool.eqb negb].
  unfold md, planned, register_request, Client.registration_body, file_info,
    Server.with_plan.
  cbn [Client.FileName Client.FileSize Client.FileHash Server.FileName Server.FileSize
       Server.FileHash Server.ID Server.ChunkSize Server.TotalChunks Client.server].
  rewrite json_coerce_Sprintf_x. reflexivity.
Qed.

Section Transfer.
Variable env : Client.Env.
Variable name : string.
Variable file : list byte.
Hypothesis file_nonempty : 0 < Z.of_nat (length file).
Hypothesis file_size_int64 : Z.of_nat (length file) <= MaxInt64.

Let md : Server.FileMetadata := planned env name file.
Let fileID : string := Server.ID md.
Let cs : Z := Server.ChunkSize md.

Lemma planned_generated : generated fileID.
Proof. by exists (Client.UnixNano env). Qed.

Lemma planned_chunkSize : 1 <= cs <= Z.of_nat (length file).
Proof.
  exact (proj1 (calculateChunkSize_bounds (Client.draw env) (Z.of_nat (length file))
                  file_nonempty)).
Qed.

(** After registration and a run of sendFileChunks that returned nil, the
    record is in the table and chunk [1 + j] holds slice [j] of the file. *)
Lemma sendFileChunks_stores (w w1 w2 : Client.World) (reg : Client.RegistrationResponse) :
  Client.registerFile env (file_info name file) w = (inl reg, w1) ->
  Client.sendFileChunks env file (Client.ID reg) (Client.ChunkSize reg) w1
  = (Client.Returned None, w2) ->
  Client.ID reg = fileID /\ Client.ChunkSize reg = cs
  /\ Client.TotalChunks reg = Server.TotalChunks md
  /\ Server.filesMetadata (Client.server w2) !! fileID = Some md
  /\ (forall j : nat, (j * Z.to_nat cs < length file)%nat ->
        Server.disk (Client.server w2) !! Server.chunkFileName fileID (1 + Z.of_nat j)
        = Some (slice (Z.to_nat cs) j file)).
Proof.
  rewrite registerFile_spec. fold md fileID cs. intros Hreg.
  apply pair_equal_spec in Hreg as [Hreg Hw1].
  injection Hreg as Hreg. subst reg w1.
  cbn [Client.ID Client.ChunkSize Client.TotalChunks].
  pose proof planned_chunkSize as Hcs.
  unfold Client.sendFileChunks.
  destruct (Z.ltb_spec cs 0) as [|_]; [lia|].
  destruct (Client.sendLoop _ _ _ _ _ _ _) as [err w'] eqn:Hloop.
  intros Hsend. apply pair_equal_spec in Hsend as [Herr Hw2].
  injection Herr as Herr. subst err w'.
  apply sendLoop_stores in Hloop.
  - destruct Hloop as (Hmeta & Hchunks & _).
    split; [reflexivity|]. split; [reflexivity|]. split; [reflexivity|].
    split; [|exact Hchunks].
    rewrite Hmeta. cbn [Client.server Server.filesMetadata]. apply lookup_insert_eq.
  - apply generated_not_slash, planned_generated.
  - lia.
  - lia.
  - unfold MinInt64. lia.
  - lia.
Qed.

(** Reassembly after such a run: when the stored chunk count does not
    exceed the number of chunks sent, reaching the digest means that the
    destination holds the first [TotalChunks * ChunkSize] bytes of the
    file, and the digest is theirs. *)
Lemma transfer_reassembles_prefix (io : Server.IOFaults) (w w1 w2 : Client.World)
    (reg : Client.RegistrationResponse) (finalHash : list byte)
    (d' : gmap string (list byte)) :
  Client.registerFile env (file_info name file) w = (inl reg, w1) ->
  Client.sendFileChunks env file (Client.ID reg) (Client.ChunkSize reg) w1
  = (Client.Returned None, w2) ->
  Server.TotalChunks md <= ceil_div (Z.of_nat (length file)) cs ->
  Server.reassemble io fileID md (Server.disk (Client.server w2)) = (inr finalHash, d') ->
  let prefix := take (chunk_count md * Z.to_nat cs) file in
  d' !! ("final_" ++ json_coerce name)%string = Some prefix
  /\ finalHash = SHA256.Sum256 prefix.
Proof.
  intros Hreg Hsend Hcount Hre.
  destruct (sendFileChunks_stores _ _ _ _ Hreg Hsend) as (_ & _ & _ & _ & Hchunks).
  destruct (reassemble_done _ _ _ _ _ _ planned_generated Hre) as (_ & _ & Hfinal & Hhash & _).
  pose proof planned_chunkSize as Hcs.
  pose proof (ceil_div_bounds (Z.of_nat (length file)) cs ltac:(lia) file_nonempty) as Hceil.
  assert (Hfolded : folded (Server.disk (Client.server w2)) fileID 1 (chunk_count md)
                    = take (chunk_count md * Z.to_nat cs) file).
  { rewrite <- concat_slices. unfold folded. f_equal.
    apply map_ext_in. intros j Hj%in_seq. unfold stored.
    rewrite Hchunks; [done|]. unfold chunk_count in Hj. nia. }
  rewrite Hfolded in Hfinal, Hhash. done.
Qed.

(** X1: for a file below 2^53 bytes the stored chunk count is the exact
    ceiling, and the destination is the file itself: the chunks
    1..totalChunks in sequence order reproduce its bytes, the digest of
    the reassembled file is the digest of the original, and the
    comparison of line 218 finds them equal. The destination is named
    "final_" + the file name as the receiver decoded it, which is the
    name sent with every byte that is no valid UTF-8 replaced by U+FFFD
    (the name itself when it is ASCII: json_coerce_ascii). *)
Theorem transfer_reproduces_file (io : Server.IOFaults) (w w1 w2 : Client.World)
    (reg : Client.RegistrationResponse) (finalHash : list byte)
    (d' : gmap string (list byte)) :
  Z.of_nat (length file) < 2 ^ 53 ->
  Client.registerFile env (file_info name file) w = (inl reg, w1) ->
  Client.sendFileChunks env file (Client.ID reg) (Client.ChunkSize reg) w1
  = (Client.Returned None, w2) ->
  Server.reassemble io (Client.ID reg) md (Server.disk (Client.server w2))
  = (inr finalHash, d') ->
  Client.TotalChunks reg = ceil_div (Z.of_nat (length file)) (Client.ChunkSize reg)
  /\ Server.filesMetadata (Client.server w2) !! Client.ID reg = Some md
  /\ d' !! ("final_" ++ json_coerce name)%string = Some file
  /\ finalHash = SHA256.Sum256 file
  /\ Sprintf_x finalHash = Server.FileHash md.
Proof.
  intros Hsmall Hreg Hsend Hre.
  destruct (sendFileChunks_stores _ _ _ _ Hreg Hsend) as (Hid & Hcs & Htc & Hmd & _).
  rewrite Hid in Hre |- *. rewrite Htc, Hcs.
  pose proof planned_chunkSize as Hcsb.
  pose proof (ceil_div_bounds (Z.of_nat (length file)) cs ltac:(lia) file_nonempty) as Hceil.
  assert (Hcount : Server.TotalChunks md = ceil_div (Z.of_nat (length file)) cs).
  { apply totalChunksOf_exact; lia. }
  destruct (transfer_reassembles_prefix io _ _ _ _ _ _ Hreg Hsend ltac:(lia) Hre)
    as [Hfinal Hhash].
  assert (Hall : take (chunk_count md * Z.to_nat cs) file = file).
  { apply take_ge. unfold chunk_count. rewrite Hcount. nia. }
  rewrite Hall in Hfinal, Hhash. rewrite Hhash. done.
Qed.

End Transfer.

(** Without faults reassembly reaches the digest when the chunks are there. *)
Lemma reassemble_fault_free (fileID : string) (md : Server.FileMetadata)
    (d : gmap string (list byte)) :
  generated fileID -> fileID = Server.ID md ->
  (forall j : nat, (j < chunk_count md)%nat ->
     is_Some (d !! Server.chunkFileName fileID (1 + Z.of_nat j))) ->
  exists finalHash d',
    Server.reassemble Server.no_faults fileID md d = (inr finalHash, d').
Proof.
  intros Hgen Hid Hchunks. unfold Server.reassemble. fold (finalFileName md).
  assert (Hne : forall i, Server.chunkFileName fileID i <> finalFileName md)
    by (intros i; by apply chunk_not_final).
  cbn [Server.no_faults Server.createErr Server.syncErr].
  rewrite (proj2 (String.eqb_eq _ _) Hid). cbn [negb].
  destruct (foldChunks_fault_free fileID (finalFileName md) (chunk_count md) Hne 1
              (<[finalFileName md := []]> d)) as [d1 Hfold].
  { intros j Hj. rewrite lookup_insert_ne by (apply not_eq_sym, Hne). by apply Hchunks. }
  fold (chunk_count md). rewrite Hfold.
  unfold Server.calculateFileHash. cbn [Server.no_faults Server.hashErr].
  by eexists _, _.
Qed.

(** *** A file of 2^53 + 1 bytes *)

Section BigFile.
Variable file : list byte.
Hypothesis file_size : Z.of_nat (length file) = big_size.

Lemma big_plan :
  Server.ChunkSize (planned quiet_env "big" file) = 1048576
  /\ Server.TotalChunks (planned quiet_env "big" file) = 8589934592
  /\ ceil_div (Z.of_nat (length file)) 1048576 = 8589934593.
Proof.
  unfold planned. cbn [Server.ChunkSize Server.TotalChunks]. rewrite file_size.
  split; [by vm_compute|]. split; by vm_compute.
Qed.

(** Registered with chunks of 2^20 bytes, the file is sent in 2^33 + 1
    chunks, all accepted; the receiver has stored totalChunks = 2^33, so
    reassembly reaches the digest with a destination that lacks the last
    byte of the file. *)
Lemma big_transfer :
  exists (reg : Client.RegistrationResponse) (w1 w2 : Client.World)
         (finalHash : list byte) (d' : gmap string (list byte)),
    Client.registerFile quiet_env (file_info "big" file) fresh_world = (inl reg, w1)
    /\ Client.ChunkSize reg = 1048576
    /\ Client.TotalChunks reg = 8589934592
    /\ ceil_div (Z.of_nat (length file)) (Client.ChunkSize reg) = 8589934593
    /\ Client.sendFileChunks quiet_env file (Client.ID reg) (Client.ChunkSize reg) w1
       = (Client.Returned None, w2)
    /\ Server.filesMetadata (Client.server w2) !! Client.ID reg
       = Some (planned quiet_env "big" file)
    /\ Server.reassemble Server.no_faults (Client.ID reg) (planned quiet_env "big" file)
         (Server.disk (Client.server w2))
       = (inr finalHash, d')
    /\ d' !! "final_big"%string = Some (take (Z.to_nat (big_size - 1)) file)
    /\ d' !! "final_big"%string <> Some file
    /\ finalHash = SHA256.Sum256 (take (Z.to_nat (big_size - 1)) file).
Proof.
  destruct big_plan as (Hcs & Htc & Hceil).
  assert (Hpos : 0 < Z.of_nat (length file)) by (rewrite file_size; by vm_compute).
  assert (Hmax : Z.of_nat (length file) <= MaxInt64) by (rewrite file_size; by vm_compute).
  set (md := planned quiet_env "big" file) in *.
  pose proof (registerFile_spec quiet_env "big" file fresh_world) as Hreg.
  cbv zeta in Hreg. fold md in Hreg.
  match type of Hreg with _ = (inl ?r, ?w) => set (reg := r) in *; set (w1 := w) in * end.
  assert (Hgen : generated (Server.ID md)) by (by exists 7).
  (* every chunk the sender cuts is accepted *)
  destruct (sendLoop_fault_free quiet_env (Server.ID md) 1048576
              ltac:(apply generated_not_slash, Hgen) ltac:(lia)
              (S (length file)) ltac:(done) file 1 w1) as [w2 Hloop].
  { lia. } { unfold MinInt64. lia. } { lia. }
  assert (Hsend : Client.sendFileChunks quiet_env file (Client.ID reg) (Client.ChunkSize reg) w1
                  = (Client.Returned None, w2)).
  { unfold Client.sendFileChunks. subst reg. cbn [Client.ID Client.ChunkSize].
    rewrite Hcs. cbn [Z.ltb Z.compare]. by rewrite Hloop. }
  destruct (sendFileChunks_stores quiet_env "big" file Hpos Hmax _ _ _ _ Hreg Hsend)
    as (_ & _ & _ & Hmd & Hchunks).
  fold md in Hmd, Hchunks. rewrite Hcs in Hchunks.
  (* the stored count is within the chunks sent, so reassembly finds them *)
  assert (Hcount : forall j : nat, (j < chunk_count md)%nat ->
                     (j * Z.to_nat 1048576 < length file)%nat).
  { intros j Hj. unfold chunk_count in Hj. rewrite Htc in Hj.
    unfold big_size in file_size. lia. }
  destruct (reassemble_fault_free (Server.ID md) md (Server.disk (Client.server w2))
              Hgen eq_refl) as (finalHash & d' & Hre).
  { intros j Hj. rewrite Hchunks by auto. by eexists. }
  pose proof (transfer_reassembles_prefix quiet_env "big" file Hpos Hmax Server.no_faults
                _ _ _ _ finalHash d' Hreg Hsend) as Hprefix.
  fold md in Hprefix. cbv zeta in Hprefix.
  destruct Hprefix as [Hfinal Hhash]; [rewrite Htc, Hcs, Hceil; lia|exact Hre|].
  change ("final_" ++ json_coerce "big")%string with "final_big"%string in Hfinal.
  assert (Hn : (chunk_count md * Z.to_nat (Server.ChunkSize md))%nat
               = Z.to_nat (big_size - 1)).
  { unfold chunk_count. rewrite Htc, Hcs. unfold big_size. lia. }
  rewrite Hn in Hfinal, Hhash.
  exists reg, w1, w2, finalHash, d'.
  split; [exact Hreg|]. split; [exact Hcs|]. split; [exact Htc|].
  split; [subst reg; cbn [Client.ChunkSize]; by rewrite Hcs|].
  split; [exact Hsend|]. split; [exact Hmd|]. split; [exact Hre|].
  split; [exact Hfinal|]. split; [|exact Hhash].
  rewrite Hfinal. intros Heq.
  assert (Hlen : length (take (Z.to_nat (big_size - 1)) file) = length file)
    by congruence.
  rewrite length_take in Hlen.
  assert (Z.of_nat (Z.to_nat (big_size - 1)) = big_size - 1)
    by (apply Z2Nat.id; by vm_compute).
  lia.
Qed.

End BigFile.

Lemma big_file_size : Z.of_nat (length big_file) = big_size.
Proof. unfold big_file. rewrite length_replicate. unfold big_size. lia. Qed.

(** C1: a file of 2^53 + 1 bytes is registered (chunks of 2^20 bytes),
    every one of its chunks is sent in order and accepted, and Complete
    reaches its digest check, yet the reassembled file is not the
    original: the receiver stored totalChunks = 2^33 where the sender cut
    2^33 + 1 chunks, and the destination holds the first 2^53 bytes only. *)
Theorem transfer_of_big_file_truncated :
  exists (reg : Client.RegistrationResponse) (w1 w2 : Client.World)
         (finalHash : list byte) (d' : gmap string (list byte)),
    Client.registerFile quiet_env (file_info "big" big_file) fresh_world = (inl reg, w1)
    /\ Client.ChunkSize reg = 1048576
    /\ Client.TotalChunks reg = 8589934592
    /\ ceil_div (Z.of_nat (length big_file)) (Client.ChunkSize reg) = 8589934593
    /\ Client.sendFileChunks quiet_env big_file (Client.ID reg) (Client.ChunkSize reg) w1
       = (Client.Returned None, w2)
    /\ Server.filesMetadata (Client.server w2) !! Client.ID reg
       = Some (planned quiet_env "big" big_file)
    /\ Server.reassemble Server.no_faults (Client.ID reg) (planned quiet_env "big" big_file)
         (Server.disk (Client.server w2))
       = (inr finalHash, d')
    /\ d' !! "final_big"%string = Some (take (Z.to_nat (big_size - 1)) big_file)
    /\ d' !! "final_big"%string <> Some big_file
    /\ finalHash = SHA256.Sum256 (take (Z.to_nat (big_size - 1)) big_file).
Proof. exact (big_transfer big_file big_file_size). Qed.

(** ** The properties at work on the small transfer *)

(** The three bytes of a.txt go through registration, sendFileChunks and
    reassembly, and arrive as they were. *)
Lemma transfer_reproduces_abc :
  exists (reg : Client.RegistrationResponse) (w1 w2 : Client.World)
         (finalHash : list byte) (d' : gmap string (list byte)),
    Client.registerFile quiet_env (file_info "a.txt" abc) fresh_world = (inl reg, w1)
    /\ Client.sendFileChunks quiet_env abc (Client.ID reg) (Client.ChunkSize reg) w1
       = (Client.Returned None, w2)
    /\ Server.reassemble Server.no_faults (Client.ID reg) (planned quiet_env "a.txt" abc)
         (Server.disk (Client.server w2))
       = (inr finalHash, d')
    /\ Client.TotalChunks reg = 1
    /\ d' !! "final_a.txt"%string = Some abc
    /\ Sprintf_x finalHash = abc_hash.
Proof.
  eexists _, _, _, _, _.
  split; [apply registerFile_spec|].
  split; [by vm_compute|].
  split; [by vm_compute|].
  destruct (transfer_reproduces_file quiet_env "a.txt" abc ltac:(by vm_compute)
              ltac:(by vm_compute) Server.no_faults _ _ _ _ _ _ ltac:(by vm_compute)
              (registerFile_spec quiet_env "a.txt" abc fresh_world)
              ltac:(by vm_compute) ltac:(by vm_compute))
    as (Htc & _ & Hfinal & _ & Hhash).
  split; [exact Htc|]. split; [exact Hfinal|exact Hhash].
Defined.

Lemma main_rejects_empty_file_witness :
  ({[ "empty.txt"%string := [] ]} : gmap string (list byte)) !! "empty.txt"%string = Some []
  /\ Client.main Server.json_Marshal_plain quiet_env
       ["send_file"; "empty.txt"; "127.0.0.1"; "8080"]%string
       {[ "empty.txt"%string := [] ]} fresh_world
     = (1, fresh_world).
Proof.
  split; [reflexivity|].
  apply (main_rejects_empty_file Server.json_Marshal_plain quiet_env "send_file" "empty.txt"
           "127.0.0.1" "8080" {[ "empty.txt"%string := [] ]} [] fresh_world);
    reflexivity.
Defined.

(** A destination left by an earlier run is emptied by a Complete that
    finds the first chunk missing. *)
Lemma complete_missing_chunk_leaves_partial_file_witness :
  let s := registered_abc {[ "final_a.txt"%string := abd ]} in
  let served :=
    Server.completeUploadHandler Server.json_Marshal_plain Server.no_faults
      (complete_request "7") s in
  Server.disk s !! "final_a.txt"%string = Some abd
  /\ fst served = missing_chunk
  /\ Server.disk (snd served) !! "final_a.txt"%string = Some [].
Proof.
  cbv zeta.
  assert (Hrun : Server.completeUploadHandler Server.json_Marshal_plain Server.no_faults
                   (complete_request "7") (registered_abc {[ "final_a.txt"%string := abd ]})
                 = (missing_chunk,
                    snd (Server.completeUploadHandler Server.json_Marshal_plain
                           Server.no_faults (complete_request "7")
                           (registered_abc {[ "final_a.txt"%string := abd ]}))))
    by (vm_compute; reflexivity).
  split; [vm_compute; reflexivity|]. split; [vm_compute; reflexivity|].
  apply (complete_missing_chunk_leaves_partial_file Server.json_Marshal_plain
           Server.no_faults (complete_request "7")
           (registered_abc {[ "final_a.txt"%string := abd ]}) _
           EmptyString "complete_upload" "7" [] abc_metadata).
  - vm_compute; reflexivity.
  - vm_compute; reflexivity.
  - exists 7. reflexivity.
  - exact Hrun.
  - vm_compute; reflexivity.
Defined.

Lemma second_complete_fails_witness :
  let s := uploaded_abc (ledger_of []) abc in
  let first :=
    Server.completeUploadHandler Server.json_Marshal_plain Server.no_faults
      (complete_request "7") s in
  fst first = Server.WriteHeader Server.StatusOK
  /\ fst (Server.completeUploadHandler Server.json_Marshal_plain Server.no_faults
            (complete_request "7") (snd first))
     = missing_chunk.
Proof.
  cbv zeta.
  assert (Hrun : Server.completeUploadHandler Server.json_Marshal_plain Server.no_faults
                   (complete_request "7") (uploaded_abc (ledger_of []) abc)
                 = (Server.WriteHeader Server.StatusOK,
                    snd (Server.completeUploadHandler Server.json_Marshal_plain
                           Server.no_faults (complete_request "7")
                           (uploaded_abc (ledger_of []) abc))))
    by (vm_compute; reflexivity).
  split; [vm_compute; reflexivity|].
  apply (second_complete_fails Server.json_Marshal_plain Server.no_faults Server.no_faults
           (complete_request "7") (uploaded_abc (ledger_of []) abc) _
           EmptyString "complete_upload" "7" [] abc_metadata).
  - vm_compute; reflexivity.
  - vm_compute; reflexivity.
  - exists 7. reflexivity.
  - vm_compute. discriminate.
  - exact Hrun.
Defined.

Lemma abd_digest_differs : Sprintf_x (SHA256.Sum256 abd) <> abc_hash.
Proof. vm_compute. discriminate. Qed.

Lemma failure_status_codes_witness :
  Server.StatusCode
    (fst (Server.uploadChunkHandler Server.no_faults (chunk_request "7" 1 abd abc_hash)
            (registered_abc ∅)))
  = 400
  /\ Server.StatusCode
       (fst (Server.completeUploadHandler Server.json_Marshal_plain Server.no_faults
               (complete_request "42") (registered_abc ∅)))
     = 400.
Proof.
  destruct (failure_status_codes Server.json_Marshal_plain Server.no_faults (registered_abc ∅)
              (chunk_request "7" 1 abd abc_hash) (complete_request "42")
              EmptyString "upload_chunk" "7" "1" [] 1
              EmptyString "complete_upload" "42" [])
    as (_ & Hup & Hco & _).
  - reflexivity.
  - vm_compute; reflexivity.
  - vm_compute. discriminate.
  - vm_compute; reflexivity.
  - vm_compute; reflexivity.
  - split.
    + apply Hup; [reflexivity|reflexivity|exact abd_digest_differs].
    + apply Hco. vm_compute; reflexivity.
Defined.

(** C7 as stated fails: missing metadata at completion and a final-file
    digest mismatch are both answered with status 400. *)
Lemma missing_metadata_and_hash_mismatch_answer_400 :
  fst (Server.completeUploadHandler Server.json_Marshal_plain Server.no_faults
         (complete_request "42") empty_server)
  = Server.HttpError "File metadata not found" Server.StatusBadRequest
  /\ fst (Server.completeUploadHandler Server.json_Marshal_plain Server.no_faults
            (complete_request "7") (uploaded_abc ∅ abd))
     = Server.HttpError "Final file hash mismatch" Server.StatusBadRequest
  /\ ~ server_error Server.StatusBadRequest.
Proof.
  split; [vm_compute; reflexivity|]. split; [vm_compute; reflexivity|].
  unfold server_error, Server.StatusBadRequest. lia.
Qed.

Lemma chunk_hash_mismatch_keeps_chunk_witness :
  fst (Server.uploadChunkHandler Server.no_faults (chunk_request "7" 1 abd abc_hash)
         (registered_abc ∅))
  = Server.HttpError "Chunk hash mismatch" Server.StatusBadRequest
  /\ Server.disk (snd (Server.uploadChunkHandler Server.no_faults
                         (chunk_request "7" 1 abd abc_hash) (registered_abc ∅)))
     !! "7_part_1"%string = Some abd.
Proof.
  destruct (chunk_hash_mismatch_keeps_chunk Server.no_faults
              (chunk_request "7" 1 abd abc_hash) (registered_abc ∅)
              EmptyString "upload_chunk" "7" "1" [] 1)
    as (Hresp & _ & _ & Hkept).
  - reflexivity.
  - vm_compute; reflexivity.
  - vm_compute. discriminate.
  - vm_compute; reflexivity.
  - reflexivity.
  - reflexivity.
  - exact abd_digest_differs.
  - split; [exact Hresp|exact Hkept].
Defined.

(** C3 as stated fails: after the mismatch the chunk file is there with
    the tampered bytes, and a Complete for the identity folds it into the
    destination like any other chunk. *)
Lemma mismatched_chunk_is_kept_and_folded :
  fst (Server.uploadChunkHandler Server.no_faults (chunk_request "7" 1 abd abc_hash)
         (registered_abc ∅))
  = Server.HttpError "Chunk hash mismatch" Server.StatusBadRequest
  /\ Server.disk (uploaded_abc ∅ abd) !! Server.chunkFileName "7" 1 = Some abd
  /\ Server.disk (uploaded_abc ∅ abd) !! Server.chunkFileName "7" 1 <> None
  /\ fst (Server.reassemble Server.no_faults "7" abc_metadata
            (Server.disk (uploaded_abc ∅ abd)))
     = inr (SHA256.Sum256 abd)
  /\ snd (Server.reassemble Server.no_faults "7" abc_metadata
            (Server.disk (uploaded_abc ∅ abd)))
     !! "final_a.txt"%string = Some abd.
Proof.
  split; [vm_compute; reflexivity|]. split; [vm_compute; reflexivity|].
  split; [vm_compute; discriminate|]. split; vm_compute; reflexivity.
Qed.

(** ** The identities in the metadata table

    Every key of the table was handed out by generateUniqueID and is the
    ID of its record; no handler breaks this. *)

Lemma table_generated_empty : table_generated empty_server.
Proof.
  intros fileID md H. unfold empty_server in H. cbn [Server.filesMetadata] in H.
  by rewrite lookup_empty in H.
Qed.

Lemma registerFileHandler_table (now draw : Z) (r : Server.Request) (s : Server.ServerState) :
  table_generated s -> table_generated (snd (Server.registerFileHandler now draw r s)).
Proof.
  intros Hs. unfold Server.registerFileHandler.
  destruct (negb _); [exact Hs|].
  destruct (Server.BodyJSON r) as [decoded|]; [|exact Hs].
  intros fileID md. cbn [snd Server.filesMetadata].
  destruct (decide (Server.generateUniqueID now = fileID)) as [<-|Hne].
  - rewrite lookup_insert_eq. intros [= <-]. split; [by exists now|done].
  - rewrite lookup_insert_ne by done. apply Hs.
Qed.

Lemma uploadChunkHandler_table (io : Server.IOFaults) (r : Server.Request)
    (s : Server.ServerState) :
  Server.filesMetadata (snd (Server.uploadChunkHandler io r s)) = Server.filesMetadata s.
Proof.
  unfold Server.uploadChunkHandler.
  repeat match goal with
         | |- context [if ?b then _ else _] => destruct b
         | |- context [match ?x with _ => _ end] => destruct x
         end; reflexivity.
Qed.

Lemma completeUploadHandler_table (json_Marshal : list Server.FileMetadata -> list byte)
    (io : Server.IOFaults) (r : Server.Request) (s : Server.ServerState) :
  Server.filesMetadata (snd (Server.completeUploadHandler json_Marshal io r s))
  = Server.filesMetadata s.
Proof.
  unfold Server.completeUploadHandler.
  repeat match goal with
         | |- context [if ?b then _ else _] => destruct b
         | |- context [match ?x with _ => _ end] => destruct x
         end; reflexivity.
Qed.

(** * Further properties of the receiver and of the sender *)

(** Closes a goal that supposes the status 200 of an answer that is an
    error. *)
Ltac refuse :=
  cbn [fst Server.StatusCode];
  unfold Server.StatusOK, Server.StatusBadRequest, Server.StatusMethodNotAllowed,
    Server.StatusInternalServerError;
  let H := fresh in intros H; discriminate H.

(** ** Registration *)

(** The float64 of a negative integer is the one of its opposite with the
    sign set. *)
Lemma float64_of_int_neg (p : positive) :
  float64_of_int (Z.neg p)
  = match float64_of_int (Z.pos p) with
    | S754_finite _ m e => S754_finite true m e
    | S754_zero _ => S754_zero true
    | S754_infinity _ => S754_infinity true
    | S754_nan => S754_nan
    end.
Proof.
  unfold float64_of_int, binary_normalize, binary_round.
  destruct (shl_align p 0 _) as [mz ez].
  unfold binary_round_aux.
  destruct (shr_fexp 53 1024 (Z.pos mz) ez loc_Exact) as [mrs' e'].
  destruct (shr_fexp 53 1024 _ e' loc_Exact) as [mrs'' e''].
  destruct (shr_m mrs''); [reflexivity| |reflexivity].
  by destruct (e'' <=? 1024 - 53).
Qed.

(** The expression of line 67 on a negative size and itself: one chunk. *)
Lemma totalChunksOf_self_neg (n : Z) : - 2 ^ 53 < n < 0 -> Server.totalChunksOf n n = 1.
Proof.
  intros Hn. destruct n as [|p|p]; try lia.
  unfold Server.totalChunksOf. rewrite float64_of_int_neg.
  destruct (float64_of_int_exact p ltac:(lia)) as (m & e & -> & _).
  rewrite float64_div_self. reflexivity.
Qed.

(** What registration does with a request it accepts. *)
Lemma registerFileHandler_accepted (now draw : Z) (r : Server.Request)
    (s : Server.ServerState) (decoded : Server.FileMetadata) :
  Server.Method r = "POST"%string -> Server.BodyJSON r = Some decoded ->
  let cs := Server.calculateChunkSize draw (Server.FileSize decoded) in
  let md := Server.with_plan decoded (Server.generateUniqueID now) cs
              (Server.totalChunksOf (Server.FileSize decoded) cs) in
  Server.registerFileHandler now draw r s
  = (Server.WriteJSON md,
     {| Server.filesMetadata := <[Server.ID md := md]> (Server.filesMetadata s);
        Server.disk := Server.disk s |}).
Proof.
  intros Hm Hb. unfold Server.registerFileHandler. by rewrite Hm, Hb.
Qed.

(** X2: a registration of a size between 1 and 2^53 - 1 is answered with
    the record that is stored under the new identity: name, size and
    digest as sent, a chunk size between 1 and the file size and at most
    maxChunkSize, and as totalChunks the exact ceiling of the size over
    the chunk size, so that totalChunks chunks cover the file and
    totalChunks - 1 chunks do not. *)
Theorem registerFileHandler_plan (now draw : Z) (r : Server.Request)
    (s : Server.ServerState) (decoded : Server.FileMetadata) :
  Server.Method r = "POST"%string -> Server.BodyJSON r = Some decoded ->
  0 < Server.FileSize decoded < 2 ^ 53 ->
  exists md,
    Server.registerFileHandler now draw r s
    = (Server.WriteJSON md,
       {| Server.filesMetadata := <[Server.ID md := md]> (Server.filesMetadata s);
          Server.disk := Server.disk s |})
    /\ Server.ID md = Server.generateUniqueID now
    /\ Server.FileName md = Server.FileName decoded
    /\ Server.FileSize md = Server.FileSize decoded
    /\ Server.FileHash md = Server.FileHash decoded
    /\ 1 <= Server.ChunkSize md <= Server.FileSize md
    /\ Server.ChunkSize md <= Server.maxChunkSize
    /\ Server.TotalChunks md = ceil_div (Server.FileSize md) (Server.ChunkSize md)
    /\ (Server.TotalChunks md - 1) * Server.ChunkSize md < Server.FileSize md
       <= Server.TotalChunks md * Server.ChunkSize md.
Proof.
  intros Hm Hb Hsize.
  eexists. split; [by apply registerFileHandler_accepted|].
  cbn [Server.ID Server.FileName Server.FileSize Server.FileHash Server.ChunkSize
       Server.TotalChunks Server.with_plan].
  destruct (calculateChunkSize_bounds draw (Server.FileSize decoded) ltac:(lia)) as [Hcs Hmax].
  repeat (split; [done|]).
  rewrite totalChunksOf_exact by lia.
  split; [done|]. apply ceil_div_bounds; lia.
Qed.

Lemma registerFileHandler_plan_witness :
  Server.Method (register_request "a.txt" 3 abc_hash) = "POST"%string
  /\ exists md,
       Server.registerFileHandler 7 0 (register_request "a.txt" 3 abc_hash) empty_server
       = (Server.WriteJSON md,
          {| Server.filesMetadata := <[Server.ID md := md]> ∅; Server.disk := ∅ |})
       /\ 1 <= Server.TotalChunks md <= 3.
Proof.
  split; [reflexivity|].
  destruct (registerFileHandler_plan 7 0 (register_request "a.txt" 3 abc_hash) empty_server
              _ eq_refl eq_refl ltac:(by vm_compute))
    as (md & Hreg & _ & _ & Hsz & _ & Hcs & _ & _ & Htc).
  exists md. split; [exact Hreg|].
  cbn [Client.registration_body Server.FileSize Client.FileSize] in Hsz, Hcs, Htc.
  rewrite Hsz in *. nia.
Defined.

(** X3: two registrations served at different clock readings get different
    identities, and both records are in the table afterwards; served at
    the same reading they get the same identity, and the second record
    has replaced the first. *)
Theorem registerFileHandler_ids (now1 now2 draw1 draw2 : Z) (r1 r2 : Server.Request)
    (s s1 s2 : Server.ServerState) (md1 md2 : Server.FileMetadata) :
  Server.registerFileHandler now1 draw1 r1 s = (Server.WriteJSON md1, s1) ->
  Server.registerFileHandler now2 draw2 r2 s1 = (Server.WriteJSON md2, s2) ->
  (now1 <> now2 ->
   Server.ID md1 <> Server.ID md2
   /\ Server.filesMetadata s2 !! Server.ID md1 = Some md1
   /\ Server.filesMetadata s2 !! Server.ID md2 = Some md2)
  /\ (now1 = now2 ->
      Server.ID md1 = Server.ID md2
      /\ Server.filesMetadata s2 !! Server.ID md1 = Some md2).
Proof.
  unfold Server.registerFileHandler.
  destruct (negb (String.eqb (Server.Method r1) "POST")); [intros [= ]|].
  destruct (Server.BodyJSON r1) as [dec1|]; [|intros [= ]].
  intros H1. apply pair_equal_spec in H1 as [H1 <-]. injection H1 as <-.
  destruct (negb (String.eqb (Server.Method r2) "POST")); [intros [= ]|].
  destruct (Server.BodyJSON r2) as [dec2|]; [|intros [= ]].
  intros H2. apply pair_equal_spec in H2 as [H2 <-]. injection H2 as <-.
  cbn [Server.filesMetadata Server.ID Server.with_plan].
  split.
  - intros Hne.
    assert (Hid : Server.generateUniqueID now1 <> Server.generateUniqueID now2).
    { intros H. by apply Hne, FormatInt_inj. }
    split; [done|]. split.
    + rewrite lookup_insert_ne by done. apply lookup_insert_eq.
    + apply lookup_insert_eq.
  - intros <-. split; [done|]. apply lookup_insert_eq.
Qed.

Lemma registerFileHandler_ids_witness :
  exists md1 md2 s1 s2,
    Server.registerFileHandler 7 0 (register_request "a.txt" 3 abc_hash) empty_server
    = (Server.WriteJSON md1, s1)
    /\ Server.registerFileHandler 8 0 (register_request "b.txt" 1 abc_hash) s1
       = (Server.WriteJSON md2, s2)
    /\ Server.filesMetadata s2 !! "7"%string = Some md1
    /\ Server.filesMetadata s2 !! "8"%string = Some md2.
Proof.
  eexists _, _, _, _.
  split; [by apply registerFileHandler_accepted|].
  split; [by apply registerFileHandler_accepted|].
  destruct (registerFileHandler_ids 7 8 0 0 _ _ _ _ _ _ _
              (registerFileHandler_accepted 7 0 (register_request "a.txt" 3 abc_hash)
                 empty_server _ eq_refl eq_refl)
              (registerFileHandler_accepted 8 0 (register_request "b.txt" 1 abc_hash)
                 _ _ eq_refl eq_refl)) as [H _].
  destruct (H ltac:(lia)) as (_ & H1 & H2). split; [exact H1 | exact H2].
Defined.

(** X4: the size of a registration is not checked: a size of 0 or below is
    answered like any other, the record is stored with that size as its
    chunkSize, and for a negative size above -2^53 with totalChunks 1. *)
Theorem registerFileHandler_unchecked_size (now draw : Z) (r : Server.Request)
    (s : Server.ServerState) (decoded : Server.FileMetadata) :
  Server.Method r = "POST"%string -> Server.BodyJSON r = Some decoded ->
  Server.FileSize decoded <= 0 ->
  exists md,
    fst (Server.registerFileHandler now draw r s) = Server.WriteJSON md
    /\ Server.filesMetadata (snd (Server.registerFileHandler now draw r s)) !! Server.ID md
       = Some md
    /\ Server.ChunkSize md = Server.FileSize decoded
    /\ (- 2 ^ 53 < Server.FileSize decoded < 0 -> Server.TotalChunks md = 1).
Proof.
  intros Hm Hb Hsize.
  eexists. rewrite (registerFileHandler_accepted _ _ _ _ _ Hm Hb).
  cbn [fst snd Server.filesMetadata Server.ID Server.ChunkSize Server.TotalChunks
       Server.with_plan].
  split; [done|]. split; [apply lookup_insert_eq|].
  destruct (calculateChunkSize_range draw (Server.FileSize decoded)) as [Hr Hcs].
  assert (Hc : Server.calculateChunkSize draw (Server.FileSize decoded)
               = Server.FileSize decoded).
  { rewrite Hcs. destruct (Z.ltb_spec (Server.FileSize decoded)
      (Server.rand_Intn draw (Server.maxChunkSize - Server.minChunkSize + 1)
       + Server.minChunkSize)); lia. }
  rewrite Hc. split; [done|]. apply totalChunksOf_self_neg.
Qed.

Lemma registerFileHandler_unchecked_size_witness :
  Server.Method (register_request "a.txt" (-5) abc_hash) = "POST"%string
  /\ exists md,
       fst (Server.registerFileHandler 7 0 (register_request "a.txt" (-5) abc_hash)
              empty_server) = Server.WriteJSON md
       /\ Server.ChunkSize md = -5 /\ Server.TotalChunks md = 1.
Proof.
  split; [reflexivity|].
  destruct (registerFileHandler_unchecked_size 7 0 (register_request "a.txt" (-5) abc_hash)
              empty_server _ eq_refl eq_refl ltac:(by vm_compute))
    as (md & Hresp & _ & Hcs & Htc).
  exists md. split; [exact Hresp|]. split; [exact Hcs|]. apply Htc. by vm_compute.
Defined.

(** ** Uploads *)

(** No chunk file is the ledger, whatever the identity in the URL. *)
Lemma chunkFileName_not_ledger (fileID : string) (num : Z) :
  Server.chunkFileName fileID num <> Server.fileInfoDB.
Proof.
  unfold Server.chunkFileName, Server.fileInfoDB. intros H.
  repeat (destruct fileID as [|? fileID]; simpl in H; [discriminate H|];
          try discriminate H; injection H as _ H).
Qed.

(** X5: an upload request is answered 200 exactly when it is a POST whose
    path has a fourth segment that strconv.Atoi reads, the chunk file
    could be created and written, and the digest of the body is the
    header Chunk-Hash; the chunk file then holds the body. *)
Theorem uploadChunkHandler_ok_iff (io : Server.IOFaults) (r : Server.Request)
    (s : Server.ServerState) :
  Server.StatusCode (fst (Server.uploadChunkHandler io r s)) = Server.StatusOK
  <-> exists (p0 p1 fileID chunkNumber : string) (rest : list string) (num : Z),
        Server.Method r = "POST"%string
        /\ Split (Server.URLPath r) "/" = p0 :: p1 :: fileID :: chunkNumber :: rest
        /\ Atoi chunkNumber = Some num
        /\ Server.createErr io (Server.chunkFileName fileID num) = false
        /\ Server.copyErr io (Server.chunkFileName fileID num) = None
        /\ Sprintf_x (SHA256.Sum256 (Server.Body r)) = Server.ChunkHashHeader r
        /\ snd (Server.uploadChunkHandler io r s)
           = Server.set_disk s (<[Server.chunkFileName fileID num := Server.Body r]>
                                  (Server.disk s)).
Proof.
  split.
  - unfold Server.uploadChunkHandler. cbv zeta.
    destruct (String.eqb_spec (Server.Method r) "POST") as [Hm|Hm]; cbn [negb];
      [|refuse].
    destruct (Split (Server.URLPath r) "/") as [|p0 [|p1 [|fileID [|chunkNumber rest]]]];
      try refuse.
    destruct (String.eqb_spec (Server.ChunkHashHeader r) "") as [Hh|Hh]; [refuse|].
    destruct (Atoi chunkNumber) as [num|] eqn:Hn; [|refuse].
    destruct (Server.createErr io _) eqn:Hc; [refuse|].
    destruct (Server.copyErr io _) eqn:Hw; [refuse|].
    destruct (String.eqb_spec (Sprintf_x (SHA256.Sum256 (Server.Body r)))
                (Server.ChunkHashHeader r)) as [Hd|Hd]; cbn [negb]; [|refuse].
    intros _. by exists p0, p1, fileID, chunkNumber, rest, num.
  - intros (p0 & p1 & fileID & chunkNumber & rest & num & Hm & Hp & Hn & Hc & Hw & Hd & _).
    assert (Hh : Server.ChunkHashHeader r <> EmptyString).
    { rewrite <- Hd. apply Sum256_nonempty. }
    rewrite (uploadChunkHandler_parsed io r s _ _ _ _ _ _ Hm Hp Hh Hn).
    unfold store_chunk. rewrite Hc, Hw, Hd, String.eqb_refl. reflexivity.
Qed.

(** X6: whatever the request and the faults, an upload leaves the metadata
    table as it is and changes at most one file: a chunk file, named from
    an identity and a number in int64, that then holds the body or, after
    a failed write, the part of the body that was written. The ledger is
    never touched. *)
Theorem uploadChunkHandler_writes_one_chunk_file (io : Server.IOFaults)
    (r : Server.Request) (s : Server.ServerState) :
  Server.filesMetadata (snd (Server.uploadChunkHandler io r s)) = Server.filesMetadata s
  /\ (Server.disk (snd (Server.uploadChunkHandler io r s)) = Server.disk s
      \/ exists (fileID : string) (num : Z) (k : nat),
           in_int64 num = true
           /\ Server.disk (snd (Server.uploadChunkHandler io r s))
              = <[Server.chunkFileName fileID num := take k (Server.Body r)]> (Server.disk s))
  /\ Server.disk (snd (Server.uploadChunkHandler io r s)) !! Server.fileInfoDB
     = Server.disk s !! Server.fileInfoDB.
Proof.
  split; [apply uploadChunkHandler_table|].
  assert (H : Server.disk (snd (Server.uploadChunkHandler io r s)) = Server.disk s
      \/ exists (fileID : string) (num : Z) (k : nat),
           in_int64 num = true
           /\ Server.disk (snd (Server.uploadChunkHandler io r s))
              = <[Server.chunkFileName fileID num := take k (Server.Body r)]> (Server.disk s)).
  { unfold Server.uploadChunkHandler.
    destruct (negb _); [by left|].
    destruct (Split (Server.URLPath r) "/") as [|p0 [|p1 [|fileID [|chunkNumber rest]]]];
      try by left.
    destruct (String.eqb _ _); [by left|].
    destruct (Atoi chunkNumber) as [num|] eqn:Hn; [|by left].
    assert (Hr : in_int64 num = true).
    { unfold Atoi in Hn.
      destruct (match chunkNumber with
                | String "+" r0 => parse_digits r0
                | String "-" r0 => option_map Z.opp (parse_digits r0)
                | _ => parse_digits chunkNumber
                end) as [z|]; [|done].
      destruct (in_int64 z) eqn:E; [|done]. by injection Hn as <-. }
    destruct (Server.createErr io _); [by left|].
    destruct (Server.copyErr io _) as [k|].
    - right. by exists fileID, num, k.
    - right. exists fileID, num, (length (Server.Body r)).
      rewrite take_ge by lia. split; [done|]. by destruct (negb _). }
  split; [exact H|].
  destruct H as [->|(fileID & num & k & _ & ->)]; [done|].
  apply lookup_insert_ne, chunkFileName_not_ledger.
Qed.

(** X7: the upload handler looks neither at the metadata table nor at a
    chunk count: a chunk sent with its own digest is stored and answered
    200 for every identity without a slash and every number in int64,
    registered or not. *)
Theorem uploadChunkHandler_any_id (fileID : string) (num : Z) (data : list byte)
    (s : Server.ServerState) :
  all_chars not_slash fileID = true -> in_int64 num = true ->
  Server.uploadChunkHandler Server.no_faults
    (chunk_request fileID num data (Sprintf_x (SHA256.Sum256 data))) s
  = (Server.WriteHeader Server.StatusOK,
     Server.set_disk s (<[Server.chunkFileName fileID num := data]> (Server.disk s))).
Proof.
  intros Hid Hnum.
  rewrite uploadChunkHandler_chunk_request by (done || apply Sum256_nonempty).
  unfold store_chunk. cbn [Server.no_faults Server.createErr Server.copyErr].
  by rewrite String.eqb_refl.
Qed.

Lemma uploadChunkHandler_any_id_witness :
  all_chars not_slash "nobody" = true
  /\ Server.filesMetadata empty_server !! "nobody"%string = None
  /\ Server.uploadChunkHandler Server.no_faults
       (chunk_request "nobody" (-3) abc abc_hash) empty_server
     = (Server.WriteHeader Server.StatusOK,
        Server.set_disk empty_server {[ "nobody_part_-3"%string := abc ]}).
Proof.
  split; [reflexivity|]. split; [reflexivity|].
  exact (uploadChunkHandler_any_id "nobody" (-3) abc empty_server eq_refl eq_refl).
Defined.

(** X8: chunks may arrive in any order and may be sent again: two uploads
    for different chunk numbers of an identity leave the same state in
    either order, and a second upload for a number replaces what the
    first one stored. *)
Theorem uploadChunkHandler_order (io : Server.IOFaults) (fileID : string) (n1 n2 : Z)
    (b1 b2 : list byte) (h1 h2 : string) (s : Server.ServerState) :
  all_chars not_slash fileID = true -> in_int64 n1 = true -> in_int64 n2 = true ->
  h1 <> EmptyString -> h2 <> EmptyString ->
  let up n b h t := snd (Server.uploadChunkHandler io (chunk_request fileID n b h) t) in
  (n1 <> n2 -> up n2 b2 h2 (up n1 b1 h1 s) = up n1 b1 h1 (up n2 b2 h2 s))
  /\ (Server.createErr io (Server.chunkFileName fileID n1) = false ->
      up n1 b2 h2 (up n1 b1 h1 s) = up n1 b2 h2 s).
Proof.
  intros Hid Hn1 Hn2 Hh1 Hh2 up. unfold up.
  rewrite !uploadChunkHandler_chunk_request by done.
  unfold store_chunk. split.
  - intros Hne.
    assert (Hname : Server.chunkFileName fileID n1 <> Server.chunkFileName fileID n2).
    { intros H. by apply Hne, (chunkFileName_inj fileID). }
    destruct (Server.createErr io (Server.chunkFileName fileID n1)),
             (Server.createErr io (Server.chunkFileName fileID n2)),
             (Server.copyErr io (Server.chunkFileName fileID n1)),
             (Server.copyErr io (Server.chunkFileName fileID n2));
      repeat match goal with |- context [if negb ?b then _ else _] => destruct (negb b) end;
      cbn [snd Server.set_disk Server.disk Server.filesMetadata]; try reflexivity;
      f_equal; by apply insert_insert_ne.
  - intros ->.
    destruct (Server.copyErr io (Server.chunkFileName fileID n1));
      repeat match goal with |- context [if negb ?b then _ else _] => destruct (negb b) end;
      cbn [snd Server.set_disk Server.disk Server.filesMetadata];
      f_equal; apply insert_insert_eq.
Qed.

Lemma uploadChunkHandler_order_witness :
  all_chars not_slash "7" = true
  /\ snd (Server.uploadChunkHandler Server.no_faults (chunk_request "7" 2 abd abc_hash)
            (snd (Server.uploadChunkHandler Server.no_faults
                    (chunk_request "7" 1 abc abc_hash) empty_server)))
     = snd (Server.uploadChunkHandler Server.no_faults (chunk_request "7" 1 abc abc_hash)
              (snd (Server.uploadChunkHandler Server.no_faults
                      (chunk_request "7" 2 abd abc_hash) empty_server))).
Proof.
  split; [reflexivity|].
  destruct (uploadChunkHandler_order Server.no_faults "7" 1 2 abc abd abc_hash abc_hash
              empty_server eq_refl eq_refl eq_refl (Sum256_nonempty abc) (Sum256_nonempty abc))
    as [H _].
  apply H. lia.
Defined.

(** ** What a completion changes *)

(** Reassembly touches the destination and the chunk files it visits,
    whatever its outcome. *)
Lemma reassemble_other (io : Server.IOFaults) (fileID : string) (md : Server.FileMetadata)
    (d : gmap string (list byte)) (name : string) :
  name <> finalFileName md ->
  (forall j : nat, (j < chunk_count md)%nat ->
     name <> Server.chunkFileName fileID (1 + Z.of_nat j)) ->
  snd (Server.reassemble io fileID md d) !! name = d !! name.
Proof.
  intros Hfinal Hchunks. unfold Server.reassemble. fold (finalFileName md).
  destruct (Server.createErr io (finalFileName md)); [done|].
  assert (H0 : <[finalFileName md := []]> d !! name = d !! name)
    by (by apply lookup_insert_ne).
  destruct (negb _); [exact H0|].
  fold (chunk_count md).
  destruct (Server.foldChunks io fileID (finalFileName md) (chunk_count md) 1 _)
    as [resp d1] eqn:Hfold.
  pose proof (foldChunks_other io fileID _ _ _ _ _ _ name Hfold Hfinal Hchunks) as H1.
  rewrite H0 in H1.
  destruct resp; [exact H1|].
  destruct (Server.syncErr io _); [exact H1|].
  destruct (Server.calculateFileHash io _ d1); exact H1.
Qed.

Lemma reassemble_keeps_ledger (io : Server.IOFaults) (fileID : string)
    (md : Server.FileMetadata) (d : gmap string (list byte)) :
  snd (Server.reassemble io fileID md d) !! Server.fileInfoDB = d !! Server.fileInfoDB.
Proof.
  apply reassemble_other.
  - apply not_eq_sym, final_not_ledger.
  - intros j _. apply not_eq_sym, chunkFileName_not_ledger.
Qed.

Section LedgerRuns.
Variable json_Marshal : list Server.FileMetadata -> list byte.

(** A ledger update leaves the directory as it is, or replaces the ledger
    that was there by (a part of) the encoding of the one record. *)
Lemma updateFileInfoDB_cases (io : Server.IOFaults) (md : Server.FileMetadata)
    (d : gmap string (list byte)) :
  snd (Server.updateFileInfoDB json_Marshal io md d) = d
  \/ exists k : nat,
       is_Some (d !! Server.fileInfoDB)
       /\ snd (Server.updateFileInfoDB json_Marshal io md d)
          = <[Server.fileInfoDB := take k (json_Marshal [md])]> d.
Proof.
  unfold Server.updateFileInfoDB, Server.ReadFile, Server.WriteFile.
  destruct (Server.openErr io _); [by left|].
  destruct (d !! Server.fileInfoDB) as [data|] eqn:Hd; [|by left].
  destruct (Server.createErr io _); [by left|].
  destruct (Server.copyErr io _) as [k|]; right.
  - by exists k.
  - exists (length (json_Marshal [md])). by rewrite take_ge by lia.
Qed.

(** The directory after a Complete, file by file. *)
Lemma completeUploadHandler_disk (io : Server.IOFaults) (r : Server.Request)
    (s : Server.ServerState) :
  let s' := snd (Server.completeUploadHandler json_Marshal io r s) in
  Server.disk s' = Server.disk s
  \/ exists (fileID : string) (md : Server.FileMetadata),
       Server.filesMetadata s !! fileID = Some md
       /\ (Server.disk s' = snd (Server.reassemble io fileID md (Server.disk s))
           \/ Server.disk s'
              = snd (Server.updateFileInfoDB json_Marshal io md
                       (snd (Server.reassemble io fileID md (Server.disk s))))).
Proof.
  cbv zeta. unfold Server.completeUploadHandler.
  destruct (Split (Server.URLPath r) "/") as [|p0 [|p1 [|fileID rest]]]; try by left.
  destruct (Server.filesMetadata s !! fileID) as [md|] eqn:Hmd; [|by left].
  right. exists fileID, md. split; [done|].
  destruct (Server.reassemble io fileID md (Server.disk s)) as [[resp|h] d1]; [by left|].
  destruct (negb _); [by left|]. cbn [snd].
  destruct (Server.updateFileInfoDB json_Marshal io md d1) as [[e|] d2]; by right.
Qed.

(** The ledger after a Complete: as before, or the one record. *)
Lemma completeUploadHandler_ledger (io : Server.IOFaults) (r : Server.Request)
    (s : Server.ServerState) :
  let s' := snd (Server.completeUploadHandler json_Marshal io r s) in
  Server.disk s' !! Server.fileInfoDB = Server.disk s !! Server.fileInfoDB
  \/ exists (md : Server.FileMetadata) (k : nat),
       is_Some (Server.disk s !! Server.fileInfoDB)
       /\ Server.disk s' !! Server.fileInfoDB = Some (take k (json_Marshal [md])).
Proof.
  cbv zeta.
  destruct (completeUploadHandler_disk io r s) as [->|(fileID & md & _ & [->| ->])].
  - by left.
  - left. apply reassemble_keeps_ledger.
  - destruct (updateFileInfoDB_cases io md (snd (Server.reassemble io fileID md (Server.disk s))))
      as [->|(k & Hsome & ->)].
    + left. apply reassemble_keeps_ledger.
    + right. exists md, k. rewrite reassemble_keeps_ledger in Hsome.
      split; [done|]. apply lookup_insert_eq.
Qed.

(** The invariant of the table holds in every reachable state. *)
Lemma reachable_table (d0 : gmap string (list byte)) (s : Server.ServerState) :
  reachable json_Marshal d0 s -> table_generated s.
Proof.
  induction 1 as [|now draw r s _ IH|io r s _ IH|io r s _ IH].
  - intros fileID md H. cbn [Server.filesMetadata] in H. by rewrite lookup_empty in H.
  - by apply registerFileHandler_table.
  - intros fileID md. rewrite uploadChunkHandler_table. apply IH.
  - intros fileID md. rewrite completeUploadHandler_table. apply IH.
Qed.

Lemma uploadChunkHandler_keeps_ledger (io : Server.IOFaults) (r : Server.Request)
    (s : Server.ServerState) :
  Server.disk (snd (Server.uploadChunkHandler io r s)) !! Server.fileInfoDB
  = Server.disk s !! Server.fileInfoDB.
Proof.
  unfold Server.uploadChunkHandler.
  repeat match goal with
         | |- context [if ?b then _ else _] => destruct b
         | |- context [match ?x with _ => _ end] => destruct x
         end; try reflexivity;
    cbn [snd Server.set_disk Server.disk];
    apply lookup_insert_ne, chunkFileName_not_ledger.
Qed.

Lemma registerFileHandler_disk (now draw : Z) (r : Server.Request) (s : Server.ServerState) :
  Server.disk (snd (Server.registerFileHandler now draw r s)) = Server.disk s.
Proof.
  unfold Server.registerFileHandler.
  destruct (negb _); [done|]. by destruct (Server.BodyJSON r).
Qed.

(** The ledger in a reachable state. *)
Lemma reachable_ledger (d0 : gmap string (list byte)) (s : Server.ServerState) :
  reachable json_Marshal d0 s ->
  Server.disk s !! Server.fileInfoDB = d0 !! Server.fileInfoDB
  \/ exists (md : Server.FileMetadata) (k : nat),
       is_Some (d0 !! Server.fileInfoDB)
       /\ Server.disk s !! Server.fileInfoDB = Some (take k (json_Marshal [md])).
Proof.
  induction 1 as [|now draw r s _ IH|io r s _ IH|io r s _ IH].
  - by left.
  - by rewrite registerFileHandler_disk.
  - by rewrite uploadChunkHandler_keeps_ledger.
  - destruct (completeUploadHandler_ledger io r s) as [->|(md & k & Hsome & ->)]; [done|].
    right. exists md, k. split; [|done].
    destruct IH as [<-|(_ & _ & H & _)]; done.
Qed.

End LedgerRuns.

(** The answers of the loop of completeUploadHandler. *)
Lemma foldChunks_message (io : Server.IOFaults) (fileID finalFileName : string) (n : nat) :
  forall (i : Z) (d d' : gmap string (list byte)) (resp : Server.Response),
    Server.foldChunks io fileID finalFileName n i d = (Some resp, d') ->
    resp <> Server.HttpError "id are not the same" Server.StatusInternalServerError.
Proof.
  induction n as [|n IH]; intros i d d' resp; cbn [Server.foldChunks]; [by intros [=]|].
  destruct (d !! Server.chunkFileName fileID i) as [data|].
  - destruct (Server.openErr io _).
    + intros H. apply pair_equal_spec in H as [H _]. injection H as <-. discriminate.
    + destruct (Server.copyErr io _).
      * intros H. apply pair_equal_spec in H as [H _]. injection H as <-. discriminate.
      * apply IH.
  - intros H. apply pair_equal_spec in H as [H _]. injection H as <-. discriminate.
Qed.

(** The small transfer is a run of the receiver. *)
Lemma reachable_uploaded_abc (json_Marshal : list Server.FileMetadata -> list byte)
    (d : gmap string (list byte)) (body : list byte) :
  reachable json_Marshal d (uploaded_abc d body).
Proof. apply reach_upload, reach_register, reach_start. Qed.

Section Runs.
Variable json_Marshal : list Server.FileMetadata -> list byte.

(** X9: in every state the receiver can reach, the identity of the URL is
    the ID of the record found under it, so the test of line 171 never
    fires: no Complete is answered "id are not the same". *)
Theorem complete_never_id_mismatch (d0 : gmap string (list byte)) (s : Server.ServerState)
    (io : Server.IOFaults) (r : Server.Request) :
  reachable json_Marshal d0 s ->
  fst (Server.completeUploadHandler json_Marshal io r s)
  <> Server.HttpError "id are not the same" Server.StatusInternalServerError.
Proof.
  intros Hs%reachable_table. unfold Server.completeUploadHandler.
  destruct (Split (Server.URLPath r) "/") as [|p0 [|p1 [|fileID rest]]]; try discriminate.
  destruct (Server.filesMetadata s !! fileID) as [md|] eqn:Hmd; [|discriminate].
  destruct (Hs fileID md Hmd) as [_ Hid].
  unfold Server.reassemble.
  destruct (Server.createErr io _); [discriminate|].
  rewrite Hid, String.eqb_refl. cbn [negb].
  destruct (Server.foldChunks io _ _ _ 1 _) as [[resp|] d1] eqn:Hfold.
  - cbn [fst]. by eapply foldChunks_message.
  - destruct (Server.syncErr io _); [discriminate|].
    destruct (Server.calculateFileHash io _ d1); [|discriminate].
    destruct (negb _); [discriminate|].
    by destruct (Server.updateFileInfoDB json_Marshal io md d1) as [[e|] d2].
Qed.

(** A Complete that answers 200 found a ledger file in the directory. *)
Lemma complete_ok_ledger (io : Server.IOFaults) (r : Server.Request)
    (s : Server.ServerState) :
  Server.StatusCode (fst (Server.completeUploadHandler json_Marshal io r s))
  = Server.StatusOK ->
  is_Some (Server.disk s !! Server.fileInfoDB).
Proof.
  unfold Server.completeUploadHandler.
  destruct (Split (Server.URLPath r) "/") as [|p0 [|p1 [|fileID rest]]]; try refuse.
  destruct (Server.filesMetadata s !! fileID) as [md|]; [|refuse].
  pose proof (reassemble_keeps_ledger io fileID md (Server.disk s)) as Hl.
  destruct (Server.reassemble io fileID md (Server.disk s)) as [[resp|h] d1] eqn:Hre.
  - cbn [fst]. rewrite (reassemble_status _ _ _ _ _ _ Hre). refuse.
  - destruct (negb _); [refuse|].
    destruct (Server.updateFileInfoDB json_Marshal io md d1) as [[e|] d2] eqn:Hup; [refuse|].
    intros _. apply updateFileInfoDB_written in Hup as [Hsome _].
    cbn [snd] in Hl. by rewrite <- Hl.
Qed.

(** X10: the receiver never creates the ledger: started in a directory
    without fileInfoDB.json it has none in any state it reaches, and
    there no Complete is ever answered 200, whatever was uploaded. *)
Theorem ledger_never_created (d0 : gmap string (list byte)) (s : Server.ServerState) :
  reachable json_Marshal d0 s ->
  d0 !! Server.fileInfoDB = None ->
  Server.disk s !! Server.fileInfoDB = None
  /\ forall (io : Server.IOFaults) (r : Server.Request),
       Server.StatusCode (fst (Server.completeUploadHandler json_Marshal io r s))
       <> Server.StatusOK.
Proof.
  intros Hs Hnone.
  assert (Hl : Server.disk s !! Server.fileInfoDB = None).
  { destruct (reachable_ledger json_Marshal d0 s Hs) as [->|(_ & _ & H & _)]; [done|].
    rewrite Hnone in H. by destruct H. }
  split; [exact Hl|].
  intros io r Hok. apply complete_ok_ledger in Hok. rewrite Hl in Hok. by destruct Hok.
Qed.

(** X11: in every state the receiver reaches, the ledger holds what it
    held at the start, or the encoding of one single record (a part of
    it after a failed write): it never holds two records the receiver
    wrote. *)
Theorem ledger_single_record (d0 : gmap string (list byte)) (s : Server.ServerState) :
  reachable json_Marshal d0 s ->
  Server.disk s !! Server.fileInfoDB = d0 !! Server.fileInfoDB
  \/ exists (md : Server.FileMetadata) (k : nat),
       is_Some (d0 !! Server.fileInfoDB)
       /\ Server.disk s !! Server.fileInfoDB = Some (take k (json_Marshal [md])).
Proof. apply reachable_ledger. Qed.

End Runs.

Lemma complete_never_id_mismatch_witness :
  reachable Server.json_Marshal_plain ∅ (uploaded_abc ∅ abc)
  /\ fst (Server.completeUploadHandler Server.json_Marshal_plain Server.no_faults
            (complete_request "7") (uploaded_abc ∅ abc))
     <> Server.HttpError "id are not the same" Server.StatusInternalServerError.
Proof.
  split; [apply reachable_uploaded_abc|].
  apply (complete_never_id_mismatch Server.json_Marshal_plain ∅), reachable_uploaded_abc.
Defined.

Lemma ledger_never_created_witness :
  reachable Server.json_Marshal_plain ∅ (uploaded_abc ∅ abc)
  /\ Server.disk (uploaded_abc ∅ abc) !! Server.fileInfoDB = None
  /\ Server.StatusCode
       (fst (Server.completeUploadHandler Server.json_Marshal_plain Server.no_faults
               (complete_request "7") (uploaded_abc ∅ abc)))
     <> Server.StatusOK.
Proof.
  split; [apply reachable_uploaded_abc|].
  destruct (ledger_never_created Server.json_Marshal_plain ∅ (uploaded_abc ∅ abc)
              (reachable_uploaded_abc _ _ _) ltac:(by vm_compute)) as [H1 H2].
  split; [exact H1|apply H2].
Defined.

Lemma ledger_single_record_witness :
  let s := snd (Server.completeUploadHandler Server.json_Marshal_plain Server.no_faults
                  (complete_request "7") (uploaded_abc (ledger_of [earlier_metadata]) abc)) in
  reachable Server.json_Marshal_plain (ledger_of [earlier_metadata]) s
  /\ (Server.disk s !! Server.fileInfoDB = ledger_of [earlier_metadata] !! Server.fileInfoDB
      \/ exists (md : Server.FileMetadata) (k : nat),
           is_Some (ledger_of [earlier_metadata] !! Server.fileInfoDB)
           /\ Server.disk s !! Server.fileInfoDB
              = Some (take k (Server.json_Marshal_plain [md]))).
Proof.
  assert (H : reachable Server.json_Marshal_plain (ledger_of [earlier_metadata])
                (snd (Server.completeUploadHandler Server.json_Marshal_plain Server.no_faults
                        (complete_request "7")
                        (uploaded_abc (ledger_of [earlier_metadata]) abc))))
    by apply reach_complete, reachable_uploaded_abc.
  split; [exact H|].
  exact (ledger_single_record Server.json_Marshal_plain _ _ H).
Defined.

Section CompleteOutcome.
Variable json_Marshal : list Server.FileMetadata -> list byte.

(** X12: a Complete without faults for a registered identity whose chunks
    1..totalChunks are all on disk, whose bytes in sequence order have
    the registered digest, in a directory that has a ledger file, is
    answered 200; afterwards the destination holds these bytes, the chunk
    files are gone, the ledger is the encoding of this one record, and
    the table and every other file are as before. *)
Theorem completeUploadHandler_succeeds (r : Server.Request) (s : Server.ServerState)
    (p0 p1 fileID : string) (rest : list string) (md : Server.FileMetadata) :
  table_generated s ->
  Split (Server.URLPath r) "/" = p0 :: p1 :: fileID :: rest ->
  Server.filesMetadata s !! fileID = Some md ->
  (forall j : nat, (j < chunk_count md)%nat ->
     is_Some (Server.disk s !! Server.chunkFileName fileID (1 + Z.of_nat j))) ->
  Sprintf_x (SHA256.Sum256 (folded (Server.disk s) fileID 1 (chunk_count md)))
  = Server.FileHash md ->
  is_Some (Server.disk s !! Server.fileInfoDB) ->
  exists s',
    Server.completeUploadHandler json_Marshal Server.no_faults r s
    = (Server.WriteHeader Server.StatusOK, s')
    /\ Server.filesMetadata s' = Server.filesMetadata s
    /\ Server.disk s' !! finalFileName md
       = Some (folded (Server.disk s) fileID 1 (chunk_count md))
    /\ (forall j : nat, (j < chunk_count md)%nat ->
          Server.disk s' !! Server.chunkFileName fileID (1 + Z.of_nat j) = None)
    /\ Server.disk s' !! Server.fileInfoDB = Some (json_Marshal [md])
    /\ (forall name : string,
          name <> finalFileName md -> name <> Server.fileInfoDB ->
          (forall j : nat, (j < chunk_count md)%nat ->
             name <> Server.chunkFileName fileID (1 + Z.of_nat j)) ->
          Server.disk s' !! name = Server.disk s !! name).
Proof.
  intros Hs Hp Hmd Hchunks Hhash Hledger.
  destruct (Hs fileID md Hmd) as [Hgen Hid].
  rewrite (completeUploadHandler_parsed json_Marshal _ _ _ _ _ _ _ _ Hp Hmd).
  destruct (reassemble_fault_free fileID md (Server.disk s) Hgen (eq_sym Hid) Hchunks)
    as (finalHash & d1 & Hre).
  rewrite Hre.
  destruct (reassemble_done _ _ _ _ _ _ Hgen Hre) as (_ & Hgone & Hfinal & -> & Hother).
  rewrite Hhash, String.eqb_refl. cbn [negb].
  assert (Hl1 : d1 !! Server.fileInfoDB = Server.disk s !! Server.fileInfoDB).
  { apply Hother; [apply not_eq_sym, final_not_ledger|].
    intros j _. apply not_eq_sym, chunkFileName_not_ledger. }
  unfold Server.updateFileInfoDB, Server.ReadFile, Server.WriteFile.
  cbn [Server.no_faults Server.openErr Server.createErr Server.copyErr].
  destruct Hledger as [ledger Hledger]. rewrite Hl1, Hledger. cbn [app].
  eexists. split; [reflexivity|].
  cbn [Server.set_disk Server.filesMetadata Server.disk].
  split; [done|].
  split; [by rewrite lookup_insert_ne by (apply not_eq_sym, final_not_ledger)|].
  split.
  { intros j Hj. rewrite lookup_insert_ne by (apply not_eq_sym, chunkFileName_not_ledger).
    by apply Hgone. }
  split; [apply lookup_insert_eq|].
  intros name Hn1 Hn2 Hn3. rewrite lookup_insert_ne by done. by apply Hother.
Qed.

(** X13: whatever its outcome and the faults, a Complete for a registered
    identity leaves the metadata table as it is, and every file other
    than the destination, the chunk files 1..totalChunks of the identity
    and the ledger. *)
Theorem completeUploadHandler_frame (io : Server.IOFaults) (r : Server.Request)
    (s : Server.ServerState) (p0 p1 fileID : string) (rest : list string)
    (md : Server.FileMetadata) (name : string) :
  Split (Server.URLPath r) "/" = p0 :: p1 :: fileID :: rest ->
  Server.filesMetadata s !! fileID = Some md ->
  name <> finalFileName md -> name <> Server.fileInfoDB ->
  (forall j : nat, (j < chunk_count md)%nat ->
     name <> Server.chunkFileName fileID (1 + Z.of_nat j)) ->
  Server.filesMetadata (snd (Server.completeUploadHandler json_Marshal io r s))
  = Server.filesMetadata s
  /\ Server.disk (snd (Server.completeUploadHandler json_Marshal io r s)) !! name
     = Server.disk s !! name.
Proof.
  intros Hp Hmd Hn1 Hn2 Hn3. split; [apply completeUploadHandler_table|].
  pose proof (reassemble_other io fileID md (Server.disk s) name Hn1 Hn3) as Hre.
  rewrite (completeUploadHandler_parsed json_Marshal _ _ _ _ _ _ _ _ Hp Hmd).
  destruct (Server.reassemble io fileID md (Server.disk s)) as [[resp|h] d1];
    cbn [snd] in Hre; [exact Hre|].
  destruct (negb _); [exact Hre|].
  destruct (updateFileInfoDB_cases json_Marshal io md d1) as [H|(k & _ & H)];
    destruct (Server.updateFileInfoDB json_Marshal io md d1) as [[e|] d2];
    cbn [snd] in H; subst d2; cbn [snd Server.set_disk Server.disk];
    rewrite ?lookup_insert_ne by done; exact Hre.
Qed.

(** X14: a Complete answered "Final file hash mismatch" has used up the
    upload: all chunks 1..totalChunks were on disk and are removed, the
    destination is left holding their bytes (whose digest is not the
    registered one), the ledger is as before and the record stays in the
    table. *)
Theorem complete_hash_mismatch_loses_chunks (io : Server.IOFaults) (r : Server.Request)
    (s s' : Server.ServerState) (p0 p1 fileID : string) (rest : list string)
    (md : Server.FileMetadata) :
  table_generated s ->
  Split (Server.URLPath r) "/" = p0 :: p1 :: fileID :: rest ->
  Server.filesMetadata s !! fileID = Some md ->
  Server.completeUploadHandler json_Marshal io r s
  = (Server.HttpError "Final file hash mismatch" Server.StatusBadRequest, s') ->
  (forall j : nat, (j < chunk_count md)%nat ->
     is_Some (Server.disk s !! Server.chunkFileName fileID (1 + Z.of_nat j))
     /\ Server.disk s' !! Server.chunkFileName fileID (1 + Z.of_nat j) = None)
  /\ Server.disk s' !! finalFileName md
     = Some (folded (Server.disk s) fileID 1 (chunk_count md))
  /\ Sprintf_x (SHA256.Sum256 (folded (Server.disk s) fileID 1 (chunk_count md)))
     <> Server.FileHash md
  /\ Server.disk s' !! Server.fileInfoDB = Server.disk s !! Server.fileInfoDB
  /\ Server.filesMetadata s' !! fileID = Some md.
Proof.
  intros Hs Hp Hmd.
  destruct (Hs fileID md Hmd) as [Hgen Hid].
  rewrite (completeUploadHandler_parsed json_Marshal _ _ _ _ _ _ _ _ Hp Hmd).
  pose proof (reassemble_keeps_ledger io fileID md (Server.disk s)) as Hl.
  destruct (Server.reassemble io fileID md (Server.disk s)) as [[resp|h] d1] eqn:Hre.
  - intros H. apply pair_equal_spec in H as [-> _].
    apply reassemble_status in Hre. discriminate Hre.
  - destruct (reassemble_done _ _ _ _ _ _ Hgen Hre) as (_ & Hgone & Hfinal & -> & _).
    destruct (String.eqb_spec
                (Sprintf_x (SHA256.Sum256 (folded (Server.disk s) fileID 1 (chunk_count md))))
                (Server.FileHash md)) as [Heq|Hne]; cbn [negb].
    + destruct (Server.updateFileInfoDB json_Marshal io md d1) as [[e|] d2];
        intros H; apply pair_equal_spec in H as [H _]; discriminate H.
    + intros H. apply pair_equal_spec in H as [_ <-].
      cbn [Server.set_disk Server.disk Server.filesMetadata]. cbn [snd] in Hl.
      done.
Qed.

End CompleteOutcome.

Lemma completeUploadHandler_succeeds_witness :
  table_generated (uploaded_abc (ledger_of [earlier_metadata]) abc)
  /\ exists s',
       Server.completeUploadHandler Server.json_Marshal_plain Server.no_faults
         (complete_request "7") (uploaded_abc (ledger_of [earlier_metadata]) abc)
       = (Server.WriteHeader Server.StatusOK, s')
       /\ Server.disk s' !! "final_a.txt"%string = Some abc
       /\ Server.disk s' !! Server.fileInfoDB
          = Some (Server.json_Marshal_plain [abc_metadata]).
Proof.
  assert (Ht : table_generated (uploaded_abc (ledger_of [earlier_metadata]) abc)).
  { eapply (reachable_table Server.json_Marshal_plain), reachable_uploaded_abc. }
  split; [exact Ht|].
  destruct (completeUploadHandler_succeeds Server.json_Marshal_plain (complete_request "7")
              (uploaded_abc (ledger_of [earlier_metadata]) abc)
              EmptyString "complete_upload" "7" [] abc_metadata Ht
              ltac:(by vm_compute) ltac:(by vm_compute))
    as (s' & Hok & _ & Hfinal & _ & Hl & _).
  - intros [|j] Hj; [vm_compute; by eexists|]. exfalso. vm_compute in Hj. lia.
  - by vm_compute.
  - vm_compute. by eexists.
  - exists s'. split; [exact Hok|]. split; [exact Hfinal|exact Hl].
Defined.

Lemma completeUploadHandler_frame_witness :
  let s := uploaded_abc {[ "other.txt"%string := abd ]} abc in
  Server.filesMetadata s !! "7"%string = Some abc_metadata
  /\ Server.disk (snd (Server.completeUploadHandler Server.json_Marshal_plain Server.no_faults
                         (complete_request "7") s)) !! "other.txt"%string
     = Some abd.
Proof.
  split; [by vm_compute|].
  destruct (completeUploadHandler_frame Server.json_Marshal_plain Server.no_faults
              (complete_request "7") (uploaded_abc {[ "other.txt"%string := abd ]} abc)
              EmptyString "complete_upload" "7" [] abc_metadata "other.txt"
              ltac:(by vm_compute) ltac:(by vm_compute) ltac:(by vm_compute)
              ltac:(by vm_compute)) as [_ H].
  - intros j _. unfold Server.chunkFileName. discriminate.
  - rewrite H. by vm_compute.
Defined.

Lemma complete_hash_mismatch_loses_chunks_witness :
  let served := Server.completeUploadHandler Server.json_Marshal_plain Server.no_faults
                  (complete_request "7") (uploaded_abc ∅ abd) in
  fst served = Server.HttpError "Final file hash mismatch" Server.StatusBadRequest
  /\ Server.disk (uploaded_abc ∅ abd) !! Server.chunkFileName "7" 1 = Some abd
  /\ Server.disk (snd served) !! Server.chunkFileName "7" 1 = None
  /\ Server.disk (snd served) !! "final_a.txt"%string = Some abd.
Proof.
  split; [by vm_compute|]. split; [by vm_compute|].
  destruct (complete_hash_mismatch_loses_chunks Server.json_Marshal_plain Server.no_faults
              (complete_request "7") (uploaded_abc ∅ abd)
              (snd (Server.completeUploadHandler Server.json_Marshal_plain Server.no_faults
                      (complete_request "7") (uploaded_abc ∅ abd)))
              EmptyString "complete_upload" "7" [] abc_metadata)
    as (Hgone & Hfinal & _).
  - eapply (reachable_table Server.json_Marshal_plain), reachable_uploaded_abc.
  - by vm_compute.
  - by vm_compute.
  - by vm_compute.
  - split; [|exact Hfinal]. apply (Hgone 0%nat). vm_compute. lia.
Defined.

(** ** Digests as text *)

Lemma hex_digit_lower (n : N) : is_lower_hex (hex_digit n) = true.
Proof.
  destruct n as [|p]; [reflexivity|].
  do 4 (try destruct p as [p|p|]; try reflexivity).
Qed.

Lemma Sprintf_x_format (bs : list byte) :
  String.length (Sprintf_x bs) = (2 * length bs)%nat
  /\ all_chars is_lower_hex (Sprintf_x bs) = true.
Proof.
  induction bs as [|b r [IHl IHc]]; [done|].
  cbn [Sprintf_x String.length length all_chars].
  rewrite !hex_digit_lower, IHl, IHc. split; [lia|done].
Qed.

Lemma Sum256_length (data : list byte) : length (SHA256.Sum256 data) = 32%nat.
Proof.
  unfold SHA256.Sum256, SHA256.digest_bytes, SHA256.word_bytes.
  rewrite !length_app, !length_map. reflexivity.
Qed.

Lemma Sum256_digest_text (data : list byte) :
  digest_text (Sprintf_x (SHA256.Sum256 data)) = true.
Proof.
  unfold digest_text.
  destruct (Sprintf_x_format (SHA256.Sum256 data)) as [-> ->].
  by rewrite Sum256_length.
Qed.

(** X15: a digest is written as 64 lower-case hexadecimal digits, and the
    comparisons are on this text: an upload is answered 200 only if its
    header Chunk-Hash is such a text, and a Complete only if the
    registered fileHash of the identity in its URL is one. *)
Theorem digest_format (json_Marshal : list Server.FileMetadata -> list byte)
    (io : Server.IOFaults) (r : Server.Request) (s : Server.ServerState) :
  (forall data : list byte, digest_text (Sprintf_x (SHA256.Sum256 data)) = true)
  /\ (Server.StatusCode (fst (Server.uploadChunkHandler io r s)) = Server.StatusOK ->
      digest_text (Server.ChunkHashHeader r) = true)
  /\ (Server.StatusCode (fst (Server.completeUploadHandler json_Marshal io r s))
      = Server.StatusOK ->
      exists md : Server.FileMetadata,
        Server.filesMetadata s !! nth 2 (Split (Server.URLPath r) "/") EmptyString = Some md
        /\ digest_text (Server.FileHash md) = true).
Proof.
  split; [apply Sum256_digest_text|]. split.
  - unfold Server.uploadChunkHandler. cbv zeta.
    destruct (negb _); [refuse|].
    destruct (Split (Server.URLPath r) "/") as [|p0 [|p1 [|fileID [|chunkNumber rest]]]];
      try refuse.
    destruct (String.eqb _ ""); [refuse|].
    destruct (Atoi chunkNumber); [|refuse].
    destruct (Server.createErr io _); [refuse|].
    destruct (Server.copyErr io _); [refuse|].
    destruct (String.eqb_spec (Sprintf_x (SHA256.Sum256 (Server.Body r)))
                (Server.ChunkHashHeader r)) as [<-|]; cbn [negb]; [|refuse].
    intros _. apply Sum256_digest_text.
  - unfold Server.completeUploadHandler.
    destruct (Split (Server.URLPath r) "/") as [|p0 [|p1 [|fileID rest]]]; try refuse.
    cbn [nth].
    destruct (Server.filesMetadata s !! fileID) as [md|]; [|refuse].
    destruct (Server.reassemble io fileID md (Server.disk s)) as [[resp|h] d1] eqn:Hre.
    + cbn [fst]. rewrite (reassemble_status _ _ _ _ _ _ Hre). refuse.
    + destruct (String.eqb_spec (Sprintf_x h) (Server.FileHash md)) as [Hh|]; cbn [negb];
        [|refuse].
      intros _. exists md. split; [done|]. rewrite <- Hh.
      unfold Server.reassemble in Hre.
      destruct (Server.createErr io _); [discriminate|].
      destruct (negb _); [discriminate|].
      destruct (Server.foldChunks _ _ _ _ _ _) as [[?|] ?]; [discriminate|].
      destruct (Server.syncErr io _); [discriminate|].
      unfold Server.calculateFileHash in Hre.
      destruct (Server.hashErr io _); [discriminate|].
      apply pair_equal_spec in Hre as [Hre _]. injection Hre as <-.
      apply Sum256_digest_text.
Qed.

(** ** The requests of the sender *)

Lemma chunk_requests_S (fileID : string) (c : nat) (k : Z) (rest : list byte) (n : nat) :
  chunk_requests fileID c k rest (S n)
  = chunk_request fileID k (take c rest) (Sprintf_x (SHA256.Sum256 (take c rest)))
    :: chunk_requests fileID c (k + 1) (drop c rest) n.
Proof.
  unfold chunk_requests. cbn [seq map]. f_equal.
  - unfold slice. rewrite Z.add_0_r. by rewrite Nat.mul_0_l, drop_0.
  - rewrite <- seq_shift, map_map. apply map_ext. intros j.
    rewrite slice_drop. by replace (k + 1 + Z.of_nat j) with (k + Z.of_nat (S j)) by lia.
Qed.

Lemma ceil_div_step (len cs : Z) :
  0 < cs -> 0 < len ->
  ceil_div len cs = 1 + ceil_div (Z.max 0 (len - cs)) cs.
Proof.
  intros Hcs Hlen. unfold ceil_div.
  destruct (Z.max_spec 0 (len - cs)) as [[H ->]|[H ->]].
  - replace (len + cs - 1) with (len - cs + cs - 1 + 1 * cs) by lia.
    rewrite Z.div_add by lia. lia.
  - rewrite (Z.div_small (0 + cs - 1)) by lia.
    assert (1 <= (len + cs - 1) / cs) by (apply Z.div_le_lower_bound; lia).
    assert ((len + cs - 1) / cs < 2) by (apply Z.div_lt_upper_bound; lia).
    lia.
Qed.

Lemma accepts_refuses (io : Server.IOFaults) (name : string) :
  accepts io name -> refuses io name -> False.
Proof.
  intros [Hc Hw] [Hc'|[k Hw']]; congruence.
Qed.

Section SendLoopRun.
Variable env : Client.Env.
Variable fileID : string.
Variable chunkSize : Z.
Hypothesis fileID_plain : all_chars not_slash fileID = true.
Hypothesis chunkSize_pos : 0 < chunkSize.

Let c : nat := Z.to_nat chunkSize.

(** A run of the loop: the receiver accepts the first [a] chunks; when
    these are all, the loop returns nil after their requests, and
    otherwise it returns the error of the next chunk, which the receiver
    refuses, after the request for that chunk. *)
Lemma sendLoop_run (fuel : nat) :
  forall (rest : list byte) (k : Z) (w w' : Client.World) (res : option error),
    (length rest < fuel)%nat ->
    MinInt64 <= k -> k + Z.of_nat (length rest) - 1 <= MaxInt64 ->
    Client.sendLoop env fileID chunkSize fuel rest k w = (res, w') ->
    let n := Z.to_nat (ceil_div (Z.of_nat (length rest)) chunkSize) in
    exists a : nat,
      (forall j : nat, (j < a)%nat ->
         accepts (Client.faults env (length (Client.wire w) + j))
                 (Server.chunkFileName fileID (k + Z.of_nat j)))
      /\ (res = None /\ a = n
          /\ Client.wire w' = Client.wire w ++ chunk_requests fileID c k rest n
          \/ res = Some refused /\ (a < n)%nat
             /\ refuses (Client.faults env (length (Client.wire w) + a))
                        (Server.chunkFileName fileID (k + Z.of_nat a))
             /\ Client.wire w' = Client.wire w ++ chunk_requests fileID c k rest (S a)).
Proof.
  assert (Hc : (0 < c)%nat) by (unfold c; lia).
  induction fuel as [|fuel IH]; intros rest k w w' res Hfuel Hlo Hhi Hrun n; [lia|].
  cbn [Client.sendLoop] in Hrun. fold c in Hrun.
  destruct (Nat.eqb_spec (length (take c rest)) 0) as [Hempty|Hne].
  - apply pair_equal_spec in Hrun as [<- <-].
    rewrite length_take in Hempty. assert (Hlen : length rest = 0%nat) by lia.
    assert (Hn : n = 0%nat).
    { unfold n, ceil_div. rewrite Hlen. cbn [Z.of_nat]. by rewrite Z.div_small by lia. }
    exists 0%nat. split; [intros j Hj; lia|]. left.
    rewrite Hn. by rewrite app_nil_r.
  - rewrite length_take in Hne.
    assert (Hstep : n = S (Z.to_nat (ceil_div (Z.of_nat (length (drop c rest))) chunkSize))).
    { unfold n. rewrite (ceil_div_step (Z.of_nat (length rest)) chunkSize) by lia.
      rewrite length_drop.
      replace (Z.max 0 (Z.of_nat (length rest) - chunkSize))
        with (Z.of_nat (length rest - c)) by (unfold c; lia).
      assert (0 <= ceil_div (Z.of_nat (length rest - c)) chunkSize)
        by (apply Z.div_pos; lia).
      lia. }
    rewrite sendChunk_own_digest in Hrun by (done || (apply in_int64_iff; lia)).
    set (io := Client.faults env (length (Client.wire w))) in *.
    set (name := Server.chunkFileName fileID k) in *.
    assert (Hfail : forall s0 : Server.ServerState,
              refuses io name ->
              (Some refused,
               {| Client.server := s0;
                  Client.wire := Client.wire w ++
                    [chunk_request fileID k (take c rest)
                       (Sprintf_x (SHA256.Sum256 (take c rest)))] |}) = (res, w') ->
              exists a : nat,
                (forall j : nat, (j < a)%nat ->
                   accepts (Client.faults env (length (Client.wire w) + j))
                           (Server.chunkFileName fileID (k + Z.of_nat j)))
                /\ (res = None /\ a = n
                    /\ Client.wire w' = Client.wire w ++ chunk_requests fileID c k rest n
                    \/ res = Some refused /\ (a < n)%nat
                       /\ refuses (Client.faults env (length (Client.wire w) + a))
                                  (Server.chunkFileName fileID (k + Z.of_nat a))
                       /\ Client.wire w'
                          = Client.wire w ++ chunk_requests fileID c k rest (S a))).
    { intros s0 Hio H. apply pair_equal_spec in H as [<- <-].
      exists 0%nat. split; [intros j Hj; lia|]. right.
      split; [done|]. split; [lia|]. cbn [Client.wire].
      rewrite Nat.add_0_r, Z.add_0_r. split; [exact Hio|].
      by rewrite chunk_requests_S. }
    destruct (Server.createErr io name) eqn:Hcreate.
    { eapply Hfail; [by left|exact Hrun]. }
    destruct (Server.copyErr io name) as [kk|] eqn:Hcopy.
    { eapply Hfail; [by right|exact Hrun]. }
    clear Hfail.
    apply IH in Hrun; [|rewrite length_drop; lia|lia|rewrite length_drop; lia].
    cbv zeta in Hrun. destruct Hrun as (a & Hacc & Hcase).
    cbn [Client.wire] in Hacc, Hcase. rewrite length_app in Hacc, Hcase.
    cbn [length] in Hacc, Hcase.
    exists (S a). split.
    + intros [|j] Hj.
      * rewrite Nat.add_0_r, Z.add_0_r. by split.
      * replace (length (Client.wire w) + S j)%nat
          with (length (Client.wire w) + 1 + j)%nat by lia.
        replace (k + Z.of_nat (S j)) with (k + 1 + Z.of_nat j) by lia.
        apply Hacc. lia.
    + replace (length (Client.wire w) + S a)%nat
        with (length (Client.wire w) + 1 + a)%nat by lia.
      replace (k + Z.of_nat (S a)) with (k + 1 + Z.of_nat a) by lia.
      destruct Hcase as [(-> & -> & Hwire)|(-> & Ha & Hio & Hwire)].
      * left. split; [done|]. split; [lia|].
        rewrite Hstep, chunk_requests_S, Hwire. by rewrite <- app_assoc.
      * right. split; [done|]. split; [lia|]. split; [done|].
        rewrite (chunk_requests_S _ _ _ _ (S a)), Hwire. by rewrite <- app_assoc.
Qed.

End SendLoopRun.

(** A run of sendFileChunks on a positive chunk size. *)
Lemma sendFileChunks_run (env : Client.Env) (file : list byte) (fileID : string)
    (chunkSize : Z) (w w' : Client.World) (res : Client.outcome) :
  all_chars not_slash fileID = true -> 0 < chunkSize ->
  Z.of_nat (length file) <= MaxInt64 ->
  Client.sendFileChunks env file fileID chunkSize w = (res, w') ->
  let n := Z.to_nat (ceil_div (Z.of_nat (length file)) chunkSize) in
  exists a : nat,
    (forall j : nat, (j < a)%nat ->
       accepts (Client.faults env (length (Client.wire w) + j))
               (Server.chunkFileName fileID (1 + Z.of_nat j)))
    /\ (res = Client.Returned None /\ a = n
        /\ Client.wire w'
           = Client.wire w ++ chunk_requests fileID (Z.to_nat chunkSize) 1 file n
        \/ res = Client.Returned (Some refused) /\ (a < n)%nat
           /\ refuses (Client.faults env (length (Client.wire w) + a))
                      (Server.chunkFileName fileID (1 + Z.of_nat a))
           /\ Client.wire w'
              = Client.wire w ++ chunk_requests fileID (Z.to_nat chunkSize) 1 file (S a)).
Proof.
  intros Hid Hcs Hsize. unfold Client.sendFileChunks.
  destruct (Z.ltb_spec chunkSize 0) as [|_]; [lia|].
  destruct (Client.sendLoop _ _ _ _ _ _ _) as [err w2] eqn:Hloop.
  intros H. cbv zeta. apply pair_equal_spec in H as [<- <-].
  apply (sendLoop_run env fileID chunkSize Hid Hcs) in Hloop
    as (a & Hacc & Hcase); [|lia|unfold MinInt64; lia|lia].
  exists a. split; [exact Hacc|].
  destruct Hcase as [(-> & Ha & Hwire)|(-> & Ha & Hio & Hwire)]; [by left|by right].
Qed.

(** X16: when sendFileChunks returns nil for an identity the receiver
    handed out and a chunk size of the planner, the receiver accepted
    every chunk and the requests issued are the chunk requests 1..n in
    sequence order, with n the ceiling of the file size over the chunk
    size; request j carries bytes (j - 1) * chunkSize onwards, chunkSize
    of them or what is left, and their digest. *)
Theorem sendFileChunks_requests (env : Client.Env) (file : list byte) (fileID : string)
    (chunkSize : Z) (w w' : Client.World) :
  generated fileID -> 0 < chunkSize <= Server.maxChunkSize ->
  Z.of_nat (length file) <= MaxInt64 ->
  Client.sendFileChunks env file fileID chunkSize w = (Client.Returned None, w') ->
  let n := Z.to_nat (ceil_div (Z.of_nat (length file)) chunkSize) in
  Client.wire w' = Client.wire w ++ chunk_requests fileID (Z.to_nat chunkSize) 1 file n
  /\ forall j : nat, (j < n)%nat ->
       accepts (Client.faults env (length (Client.wire w) + j))
               (Server.chunkFileName fileID (1 + Z.of_nat j)).
Proof.
  intros Hid Hcs Hsize Hrun n.
  destruct (sendFileChunks_run _ _ _ _ _ _ _ (generated_not_slash _ Hid) (proj1 Hcs)
              Hsize Hrun) as (a & Hacc & [(_ & Ha & Hwire)|(Hres & _)]); [|done].
  fold n in Ha. subst a. by split.
Qed.

(** X17: when sendFileChunks returns an error for such an identity and
    chunk size, the error is the status 500 of a chunk the receiver could
    not create or write (never a digest mismatch); the chunks before it
    were accepted, and its request is the last one issued: the chunks
    were sent in sequence order up to it, and none after it. *)
Theorem sendFileChunks_stops_at_refusal (env : Client.Env) (file : list byte)
    (fileID : string) (chunkSize : Z) (w w' : Client.World) (err : error) :
  generated fileID -> 0 < chunkSize <= Server.maxChunkSize ->
  Z.of_nat (length file) <= MaxInt64 ->
  Client.sendFileChunks env file fileID chunkSize w = (Client.Returned (Some err), w') ->
  err = refused
  /\ exists a : nat,
       (a < Z.to_nat (ceil_div (Z.of_nat (length file)) chunkSize))%nat
       /\ (forall j : nat, (j < a)%nat ->
             accepts (Client.faults env (length (Client.wire w) + j))
                     (Server.chunkFileName fileID (1 + Z.of_nat j)))
       /\ refuses (Client.faults env (length (Client.wire w) + a))
                  (Server.chunkFileName fileID (1 + Z.of_nat a))
       /\ Client.wire w'
          = Client.wire w ++ chunk_requests fileID (Z.to_nat chunkSize) 1 file (S a).
Proof.
  intros Hid Hcs Hsize Hrun.
  destruct (sendFileChunks_run _ _ _ _ _ _ _ (generated_not_slash _ Hid) (proj1 Hcs)
              Hsize Hrun) as (a & Hacc & [(Hres & _)|(Hres & Ha & Hio & Hwire)]); [done|].
  injection Hres as ->. split; [done|]. by exists a.
Qed.

Lemma sendFileChunks_requests_witness :
  generated "7"
  /\ exists w' : Client.World,
       Client.sendFileChunks quiet_env abc "7" 2 fresh_world = (Client.Returned None, w')
       /\ Client.wire w'
          = [chunk_request "7" 1 (bytes_of_string "ab")
               (Sprintf_x (SHA256.Sum256 (bytes_of_string "ab")));
             chunk_request "7" 2 (bytes_of_string "c")
               (Sprintf_x (SHA256.Sum256 (bytes_of_string "c")))].
Proof.
  assert (Hgen : generated "7") by (by exists 7).
  split; [exact Hgen|].
  eexists. split; [by vm_compute|].
  destruct (sendFileChunks_requests quiet_env abc "7" 2 fresh_world _ Hgen
              ltac:(by vm_compute) ltac:(by vm_compute) ltac:(by vm_compute)) as [-> _].
  reflexivity.
Defined.

Lemma sendFileChunks_stops_at_refusal_witness :
  generated "7"
  /\ exists w' : Client.World,
       Client.sendFileChunks faulty_env (abc ++ abc) "7" 2 fresh_world
       = (Client.Returned (Some refused), w')
       /\ length (Client.wire w') = 2%nat.
Proof.
  assert (Hgen : generated "7") by (by exists 7).
  split; [exact Hgen|].
  eexists. split; [by vm_compute|].
  destruct (sendFileChunks_stops_at_refusal faulty_env (abc ++ abc) "7" 2 fresh_world _ refused
              Hgen ltac:(by vm_compute) ltac:(by vm_compute) ltac:(by vm_compute))
    as (_ & a & Ha & Hacc & Hio & Hwire).
  destruct a as [|[|a]].
  - exfalso. destruct Hio as [Hio|[? Hio]]; vm_compute in Hio; discriminate Hio.
  - rewrite Hwire. by vm_compute.
  - exfalso. destruct (Hacc 1%nat ltac:(lia)) as [Hc _]. vm_compute in Hc. discriminate Hc.
Defined.

Lemma roundtrip_wire (handler : Server.Request -> Server.ServerState ->
                                Server.Response * Server.ServerState)
    (req : Server.Request) (w : Client.World) :
  Client.wire (snd (Client.roundtrip handler req w)) = Client.wire w ++ [req].
Proof. unfold Client.roundtrip. by destruct (handler req (Client.server w)). Qed.

Lemma roundtrip_server (handler : Server.Request -> Server.ServerState ->
                                  Server.Response * Server.ServerState)
    (req : Server.Request) (w : Client.World) :
  Client.server (snd (Client.roundtrip handler req w)) = snd (handler req (Client.server w)).
Proof. unfold Client.roundtrip. by destruct (handler req (Client.server w)). Qed.

Section MainProtocol.
Variable json_Marshal : list Server.FileMetadata -> list byte.

(** main on a file it can open and that is not empty: registration, then
    the chunks, then the completion when sendFileChunks returned nil. *)
Lemma main_sends (env : Client.Env) (prog filePath serverIP serverPort : string)
    (local : gmap string (list byte)) (file : list byte) (w : Client.World) :
  local !! filePath = Some file -> 0 < Z.of_nat (length file) ->
  let name := Client.filepath_Base filePath in
  let md := planned env name file in
  let w1 := snd (Client.registerFile env (file_info name file) w) in
  Client.main json_Marshal env [prog; filePath; serverIP; serverPort] local w
  = match Client.sendFileChunks env file (Server.ID md) (Server.ChunkSize md) w1 with
    | (Client.Panicked, w2) => (2, w2)
    | (Client.Returned (Some err), w2) => (1, w2)
    | (Client.Returned None, w2) => (0, Client.completeUpload json_Marshal env (Server.ID md) w2)
    end.
Proof.
  intros Hfile Hsize name md w1. unfold Client.main. rewrite Hfile.
  destruct (Z.eqb_spec (Z.of_nat (length file)) 0) as [|_]; [lia|].
  change {| Client.FileName := Client.filepath_Base filePath;
            Client.FileSize := Z.of_nat (length file);
            Client.FileHash := Sprintf_x (SHA256.Sum256 file) |}
    with (file_info name file).
  unfold w1. rewrite registerFile_spec. reflexivity.
Qed.

(** X18: the requests of a run of main on a non-empty file, whatever the
    faults of the receiver: first the registration, then the chunk
    requests in sequence order. When the receiver accepts every chunk,
    and only then, the completion request follows and main exits with
    status 0; otherwise the request of the first chunk it refuses is the
    last one, no completion is asked for, and main exits with status 1. *)
Theorem main_protocol (env : Client.Env) (prog filePath serverIP serverPort : string)
    (local : gmap string (list byte)) (file : list byte) (w : Client.World) :
  local !! filePath = Some file ->
  0 < Z.of_nat (length file) <= MaxInt64 ->
  let name := Client.filepath_Base filePath in
  let md := planned env name file in
  let n := Z.to_nat (ceil_div (Z.of_nat (length file)) (Server.ChunkSize md)) in
  let sent (m : nat) :=
    Client.wire w
    ++ register_request name (Z.of_nat (length file)) (Sprintf_x (SHA256.Sum256 file))
       :: chunk_requests (Server.ID md) (Z.to_nat (Server.ChunkSize md)) 1 file m in
  let chunk_io (j : nat) := Client.faults env (length (Client.wire w) + 1 + j) in
  let chunk_name (j : nat) := Server.chunkFileName (Server.ID md) (1 + Z.of_nat j) in
  exists (code : Z) (w' : Client.World) (a : nat),
    Client.main json_Marshal env [prog; filePath; serverIP; serverPort] local w = (code, w')
    /\ (forall j : nat, (j < a)%nat -> accepts (chunk_io j) (chunk_name j))
    /\ (code = 0 /\ a = n
        /\ Client.wire w' = sent n ++ [complete_request (Server.ID md)]
        \/ code = 1 /\ (a < n)%nat /\ refuses (chunk_io a) (chunk_name a)
           /\ Client.wire w' = sent (S a))
    /\ (code = 0 <-> forall j : nat, (j < n)%nat -> accepts (chunk_io j) (chunk_name j)).
Proof.
  intros Hfile Hsize name md n sent chunk_io chunk_name.
  rewrite (main_sends env prog filePath serverIP serverPort local file w Hfile
             ltac:(lia)).
  fold name md. rewrite registerFile_spec. cbn [snd]. fold md.
  set (w1 := {| Client.server := _; Client.wire := _ |}).
  assert (Hid : all_chars not_slash (Server.ID md) = true).
  { apply generated_not_slash. by exists (Client.UnixNano env). }
  assert (Hcs : 1 <= Server.ChunkSize md).
  { apply (calculateChunkSize_bounds (Client.draw env) (Z.of_nat (length file))). lia. }
  assert (Hw1 : Client.wire w1
                = Client.wire w ++ [register_request name (Z.of_nat (length file))
                                      (Sprintf_x (SHA256.Sum256 file))]) by reflexivity.
  destruct (Client.sendFileChunks env file (Server.ID md) (Server.ChunkSize md) w1)
    as [res w2] eqn:Hsend.
  assert (Hpos : 0 < Server.ChunkSize md) by lia.
  assert (Hle : Z.of_nat (length file) <= MaxInt64) by lia.
  destruct (sendFileChunks_run _ _ _ _ _ _ _ Hid Hpos Hle Hsend) as (a & Hacc & Hcase).
  fold n in Hcase. rewrite Hw1, length_app in Hacc, Hcase. cbn [length] in Hacc, Hcase.
  rewrite <- !app_assoc in Hcase. cbn [app] in Hcase.
  fold chunk_io chunk_name in Hacc.
  destruct Hcase as [(-> & Ha & Hwire)|(-> & Ha & Hio & Hwire)].
  - exists 0, (Client.completeUpload json_Marshal env (Server.ID md) w2), a.
    split; [done|]. split; [exact Hacc|]. split.
    + left. split; [done|]. split; [done|].
      unfold Client.completeUpload. by rewrite roundtrip_wire, Hwire.
    + split; [intros _; by rewrite <- Ha|done].
  - exists 1, w2, a. split; [done|]. split; [exact Hacc|]. split.
    + right. by repeat split.
    + split; [done|]. intros Hall. exfalso.
      exact (accepts_refuses _ _ (Hall a Ha) Hio).
Qed.

End MainProtocol.

Lemma main_protocol_witness :
  ({[ "a.txt"%string := abc ]} : gmap string (list byte)) !! "a.txt"%string = Some abc
  /\ exists w' : Client.World,
       Client.main Server.json_Marshal_plain quiet_env
         ["send_file"; "a.txt"; "127.0.0.1"; "8080"]%string
         {[ "a.txt"%string := abc ]} fresh_world
       = (0, w')
       /\ length (Client.wire w') = 3%nat.
Proof.
  split; [by vm_compute|].
  destruct (main_protocol Server.json_Marshal_plain quiet_env "send_file" "a.txt"
              "127.0.0.1" "8080" {[ "a.txt"%string := abc ]} abc fresh_world
              ltac:(by vm_compute) ltac:(by vm_compute))
    as (code & w' & a & Hmain & _ & [(-> & -> & Hwire)|(-> & _ & _)] & _).
  - exists w'. split; [exact Hmain|]. rewrite Hwire. by vm_compute.
  - exfalso. vm_compute in Hmain. discriminate Hmain.
Defined.

(** ** A run of the sender against a receiver without faults *)

Section Delivery.
Variable json_Marshal : list Server.FileMetadata -> list byte.
Variable env : Client.Env.
Variable name : string.
Variable file : list byte.
Variable w : Client.World.
Hypothesis quiet : forall n, Client.faults env n = Server.no_faults.
Hypothesis file_nonempty : 0 < Z.of_nat (length file).
Hypothesis file_small : Z.of_nat (length file) < 2 ^ 53.

Let md : Server.FileMetadata := planned env name file.
Let fileID : string := Server.ID md.
Let cs : Z := Server.ChunkSize md.
Let w1 : Client.World := snd (Client.registerFile env (file_info name file) w).

(** A fault-free transfer up to the completion request: every chunk is
    accepted; then reassembly reaches the digest with the file itself in
    the destination, the chunk files removed and nothing else changed. *)
Lemma transfer_fault_free :
  exists (w2 : Client.World) (d1 : gmap string (list byte)),
    Client.sendFileChunks env file fileID cs w1 = (Client.Returned None, w2)
    /\ Server.filesMetadata (Client.server w2) !! fileID = Some md
    /\ Server.reassemble Server.no_faults fileID md (Server.disk (Client.server w2))
       = (inr (SHA256.Sum256 file), d1)
    /\ d1 !! ("final_" ++ json_coerce name)%string = Some file
    /\ (forall j : nat, (j < chunk_count md)%nat ->
          d1 !! Server.chunkFileName fileID (1 + Z.of_nat j) = None)
    /\ d1 !! Server.fileInfoDB = Server.disk (Client.server w) !! Server.fileInfoDB.
Proof.
  assert (Hgen : generated fileID) by (by exists (Client.UnixNano env)).
  assert (Hplain : all_chars not_slash fileID = true) by (by apply generated_not_slash).
  assert (Hcs : 1 <= cs <= Z.of_nat (length file)).
  { apply (calculateChunkSize_bounds (Client.draw env) (Z.of_nat (length file))). lia. }
  assert (Hmax : Z.of_nat (length file) <= MaxInt64) by (unfold MaxInt64; lia).
  assert (Hreg : Client.registerFile env (file_info name file) w
                 = (inl {| Client.ID := fileID; Client.ChunkSize := cs;
                           Client.TotalChunks := Server.TotalChunks md |}, w1)).
  { unfold w1. by rewrite registerFile_spec. }
  assert (Hcount : Server.TotalChunks md = ceil_div (Z.of_nat (length file)) cs).
  { apply totalChunksOf_exact; lia. }
  pose proof (ceil_div_bounds (Z.of_nat (length file)) cs ltac:(lia) file_nonempty) as Hceil.
  destruct (sendLoop_fault_free env fileID cs Hplain ltac:(lia) (S (length file)) quiet
              file 1 w1 ltac:(lia) ltac:(unfold MinInt64; lia) ltac:(lia)) as [w2 Hloop].
  assert (Hsend : Client.sendFileChunks env file fileID cs w1 = (Client.Returned None, w2)).
  { unfold Client.sendFileChunks. destruct (Z.ltb_spec cs 0); [lia|]. by rewrite Hloop. }
  destruct (sendLoop_stores env fileID cs Hplain ltac:(lia) (S (length file)) file 1 w1 w2
              ltac:(lia) ltac:(unfold MinInt64; lia) ltac:(lia) Hloop)
    as (Hmeta & Hchunks & Hother).
  assert (Hmd : Server.filesMetadata (Client.server w2) !! fileID = Some md).
  { rewrite Hmeta. unfold w1. rewrite registerFile_spec.
    cbn [snd Client.server Server.filesMetadata]. apply lookup_insert_eq. }
  destruct (reassemble_fault_free fileID md (Server.disk (Client.server w2)) Hgen eq_refl)
    as (finalHash & d1 & Hre).
  { intros j Hj. rewrite Hchunks; [done|]. unfold chunk_count in Hj. fold cs. nia. }
  destruct (reassemble_done _ _ _ _ _ _ Hgen Hre) as (_ & Hgone & _ & _ & Hframe).
  destruct (transfer_reassembles_prefix env name file file_nonempty Hmax Server.no_faults
              w w1 w2 _ finalHash d1 Hreg Hsend ltac:(fold md cs; lia) Hre)
    as [Hfinal Hhash].
  assert (Hall : take (chunk_count md * Z.to_nat cs) file = file).
  { apply take_ge. unfold chunk_count. rewrite Hcount. nia. }
  fold md cs in Hfinal, Hhash. rewrite Hall in Hfinal, Hhash. subst finalHash.
  exists w2, d1. split; [done|]. split; [done|]. split; [done|]. split; [done|].
  split; [intros j Hj; by apply Hgone|].
  rewrite Hframe.
  - rewrite Hother.
    + unfold w1. by rewrite registerFile_spec.
    + intros j _. apply not_eq_sym, chunk_not_ledger, Hgen.
  - apply not_eq_sym, final_not_ledger.
  - intros j _. apply not_eq_sym, chunk_not_ledger, Hgen.
Qed.

(** The answer to the completion request after such a transfer. *)
Lemma completion_fault_free (w2 : Client.World) (d1 : gmap string (list byte)) :
  Server.filesMetadata (Client.server w2) !! fileID = Some md ->
  Server.reassemble Server.no_faults fileID md (Server.disk (Client.server w2))
  = (inr (SHA256.Sum256 file), d1) ->
  Server.completeUploadHandler json_Marshal Server.no_faults (complete_request fileID)
    (Client.server w2)
  = match d1 !! Server.fileInfoDB with
    | Some _ =>
        (Server.WriteHeader Server.StatusOK,
         Server.set_disk (Client.server w2)
           (<[Server.fileInfoDB := json_Marshal [md]]> d1))
    | None =>
        (Server.HttpError "Error updating fileInfoDB" Server.StatusInternalServerError,
         Server.set_disk (Client.server w2) d1)
    end.
Proof.
  intros Hmd Hre.
  assert (Hplain : all_chars not_slash fileID = true).
  { apply generated_not_slash. by exists (Client.UnixNano env). }
  rewrite (completeUploadHandler_parsed json_Marshal Server.no_faults
             (complete_request fileID) _ _ _ fileID [] md
             (Split_complete_path fileID Hplain) Hmd).
  rewrite Hre.
  change (Server.FileHash md) with (Sprintf_x (SHA256.Sum256 file)).
  rewrite String.eqb_refl. cbn [negb].
  unfold Server.updateFileInfoDB, Server.ReadFile, Server.WriteFile.
  cbn [Server.no_faults Server.openErr Server.createErr Server.copyErr].
  by destruct (d1 !! Server.fileInfoDB).
Qed.

End Delivery.

Section MainDelivery.
Variable json_Marshal : list Server.FileMetadata -> list byte.

(** X19: a run of main without faults, on a non-empty file below 2^53
    bytes, against a receiver whose directory has a ledger file: main
    exits with status 0, the receiver holds the file byte for byte under
    "final_" + the base name as the receiver decoded it (bytes that are
    no valid UTF-8 replaced by U+FFFD), the ledger is the encoding of the
    record of this transfer, the record is in the table and no chunk
    file of the transfer is left. *)
Theorem main_delivers (env : Client.Env) (prog filePath serverIP serverPort : string)
    (local : gmap string (list byte)) (file : list byte) (w : Client.World) :
  (forall n, Client.faults env n = Server.no_faults) ->
  local !! filePath = Some file ->
  0 < Z.of_nat (length file) < 2 ^ 53 ->
  is_Some (Server.disk (Client.server w) !! Server.fileInfoDB) ->
  let name := Client.filepath_Base filePath in
  let md := planned env name file in
  exists w' : Client.World,
    Client.main json_Marshal env [prog; filePath; serverIP; serverPort] local w = (0, w')
    /\ Server.filesMetadata (Client.server w') !! Server.ID md = Some md
    /\ Server.disk (Client.server w') !! ("final_" ++ json_coerce name)%string = Some file
    /\ Server.disk (Client.server w') !! Server.fileInfoDB = Some (json_Marshal [md])
    /\ (forall j : nat, (j < chunk_count md)%nat ->
          Server.disk (Client.server w') !! Server.chunkFileName (Server.ID md) (1 + Z.of_nat j)
          = None).
Proof.
  intros Hquiet Hfile Hsize Hledger name md.
  rewrite (main_sends json_Marshal env prog filePath serverIP serverPort local file w Hfile
             ltac:(lia)).
  fold name md.
  destruct (transfer_fault_free env name file w Hquiet ltac:(lia) ltac:(lia))
    as (w2 & d1 & Hsend & Hmd & Hre & Hfinal & Hgone & Hl).
  fold md in Hsend, Hmd, Hre, Hgone. rewrite Hsend.
  eexists. split; [reflexivity|].
  unfold Client.completeUpload. rewrite roundtrip_server, Hquiet.
  change {| Server.Method := "GET";
            Server.URLPath := ("/complete_upload/" ++ Server.ID md)%string;
            Server.ChunkHashHeader := ""; Server.Body := []; Server.BodyJSON := None |}
    with (complete_request (Server.ID md)).
  pose proof (completion_fault_free json_Marshal env name file w2 d1 Hmd Hre) as Hc.
  fold md in Hc. rewrite Hc.
  destruct Hledger as [ledger Hledger]. rewrite Hl, Hledger.
  cbn [snd Server.set_disk Server.filesMetadata Server.disk].
  split; [done|].
  split; [by rewrite lookup_insert_ne by (apply not_eq_sym, final_not_ledger)|].
  split; [apply lookup_insert_eq|].
  intros j Hj. rewrite lookup_insert_ne; [by apply Hgone|].
  apply not_eq_sym, chunk_not_ledger. by exists (Client.UnixNano env).
Qed.

(** X20: the same run against a receiver whose directory has no ledger
    file: every chunk is accepted and the file is reassembled byte for
    byte under "final_" + the base name as the receiver decoded it, the
    completion request is answered 500 and no ledger is written; main
    still exits with status 0, as completeUpload returns nothing to
    main. *)
Theorem main_exit_zero_without_ledger (env : Client.Env)
    (prog filePath serverIP serverPort : string)
    (local : gmap string (list byte)) (file : list byte) (w : Client.World) :
  (forall n, Client.faults env n = Server.no_faults) ->
  local !! filePath = Some file ->
  0 < Z.of_nat (length file) < 2 ^ 53 ->
  Server.disk (Client.server w) !! Server.fileInfoDB = None ->
  let name := Client.filepath_Base filePath in
  let md := planned env name file in
  exists w2 w' : Client.World,
    Client.sendFileChunks env file (Server.ID md) (Server.ChunkSize md)
      (snd (Client.registerFile env (file_info name file) w))
    = (Client.Returned None, w2)
    /\ fst (Server.completeUploadHandler json_Marshal Server.no_faults
              (complete_request (Server.ID md)) (Client.server w2))
       = Server.HttpError "Error updating fileInfoDB" Server.StatusInternalServerError
    /\ Client.main json_Marshal env [prog; filePath; serverIP; serverPort] local w = (0, w')
    /\ Client.server w'
       = snd (Server.completeUploadHandler json_Marshal Server.no_faults
                (complete_request (Server.ID md)) (Client.server w2))
    /\ Server.disk (Client.server w') !! ("final_" ++ json_coerce name)%string = Some file
    /\ Server.disk (Client.server w') !! Server.fileInfoDB = None.
Proof.
  intros Hquiet Hfile Hsize Hledger name md.
  rewrite (main_sends json_Marshal env prog filePath serverIP serverPort local file w Hfile
             ltac:(lia)).
  fold name md.
  destruct (transfer_fault_free env name file w Hquiet ltac:(lia) ltac:(lia))
    as (w2 & d1 & Hsend & Hmd & Hre & Hfinal & Hgone & Hl).
  fold md in Hsend, Hmd, Hre, Hgone. rewrite Hsend.
  exists w2. eexists. split; [reflexivity|].
  pose proof (completion_fault_free json_Marshal env name file w2 d1 Hmd Hre) as Hc.
  fold md in Hc. rewrite Hl, Hledger in Hc.
  split; [by rewrite Hc|]. split; [reflexivity|].
  unfold Client.completeUpload. rewrite roundtrip_server, Hquiet.
  change {| Server.Method := "GET";
            Server.URLPath := ("/complete_upload/" ++ Server.ID md)%string;
            Server.ChunkHashHeader := ""; Server.Body := []; Server.BodyJSON := None |}
    with (complete_request (Server.ID md)).
  split; [reflexivity|]. rewrite Hc.
  cbn [snd Server.set_disk Server.disk]. split; [done|]. by rewrite Hl.
Qed.

End MainDelivery.

Lemma main_delivers_witness :
  exists w' : Client.World,
    Client.main Server.json_Marshal_plain quiet_env
      ["send_file"; "docs/a.txt"; "127.0.0.1"; "8080"]%string
      {[ "docs/a.txt"%string := abc ]}
      {| Client.server := {| Server.filesMetadata := ∅; Server.disk := ledger_of [] |};
         Client.wire := [] |}
    = (0, w')
    /\ Server.disk (Client.server w') !! "final_a.txt"%string = Some abc
    /\ Server.disk (Client.server w') !! Server.fileInfoDB
       = Some (Server.json_Marshal_plain [abc_metadata]).
Proof.
  destruct (main_delivers Server.json_Marshal_plain quiet_env "send_file" "docs/a.txt"
              "127.0.0.1" "8080" {[ "docs/a.txt"%string := abc ]} abc
              {| Client.server := {| Server.filesMetadata := ∅; Server.disk := ledger_of [] |};
                 Client.wire := [] |}
              (fun _ => eq_refl) ltac:(by vm_compute) ltac:(by vm_compute) ltac:(by eexists))
    as (w' & Hmain & _ & Hfinal & Hl & _).
  exists w'. split; [exact Hmain|]. split; [exact Hfinal|exact Hl].
Defined.

Lemma main_exit_zero_without_ledger_witness :
  exists w' : Client.World,
    Client.main Server.json_Marshal_plain quiet_env
      ["send_file"; "docs/a.txt"; "127.0.0.1"; "8080"]%string
      {[ "docs/a.txt"%string := abc ]} fresh_world
    = (0, w')
    /\ Server.disk (Client.server w') !! "final_a.txt"%string = Some abc
    /\ Server.disk (Client.server w') !! Server.fileInfoDB = None.
Proof.
  destruct (main_exit_zero_without_ledger Server.json_Marshal_plain quiet_env "send_file"
              "docs/a.txt" "127.0.0.1" "8080" {[ "docs/a.txt"%string := abc ]} abc fresh_world
              (fun _ => eq_refl) ltac:(by vm_compute) ltac:(by vm_compute) ltac:(by vm_compute))
    as (w2 & w' & _ & _ & Hmain & _ & Hfinal & Hl).
  exists w'. split; [exact Hmain|]. split; [exact Hfinal|exact Hl].
Defined.
